(** * CalendarDialogueComponent: a shallow embedding and its properties

    The calendar dialogue component (CalendarDialogueComponent.h/.cpp) is a
    small state machine: it asks one question per state, validates the
    answer, stores it in the event under construction and finally ships the
    event to the backend.  This file embeds the component as state-passing
    functions over an explicit engine state, with every log line, delegate
    broadcast and backend send recorded in an output trace. *)

From Stdlib Require Import ZArith List Bool Lia String Ascii DecimalString.
Import ListNotations.
Local Open Scope Z_scope.

(** ** Engine strings

    [FString] is a sequence of TCHAR code units.  A code unit is kept as a
    number so that text outside ASCII is covered too; [Len] counts code
    units, as the engine does. *)

Module FStr.

Definition TCHAR := N.
Definition FString := list TCHAR.

(** TEXT("...") for literals written in ASCII. *)
Definition TEXT (s : string) : FString :=
  map N_of_ascii (list_ascii_of_string s).

Definition IsEmpty (s : FString) : bool :=
  match s with [] => true | _ => false end.

Definition Len (s : FString) : Z := Z.of_nat (List.length s).

(** FChar::IsDigit: '0' .. '9'. *)
Definition IsDigit (c : TCHAR) : bool := (48 <=? c)%N && (c <=? 57)%N.

(** FChar::IsWhitespace: space, \t, \n, \v, \f, \r. *)
Definition IsWhitespace (c : TCHAR) : bool :=
  (c =? 32)%N || ((9 <=? c)%N && (c <=? 13)%N).

(** FChar::ToLower: only 'A' .. 'Z' move. *)
Definition CharToLower (c : TCHAR) : TCHAR :=
  if (65 <=? c)%N && (c <=? 90)%N then (c + 32)%N else c.

Definition ToLower (s : FString) : FString := map CharToLower s.

Fixpoint TrimStart (s : FString) : FString :=
  match s with
  | c :: rest => if IsWhitespace c then TrimStart rest else s
  | [] => []
  end.

Definition TrimEnd (s : FString) : FString := rev (TrimStart (rev s)).

Definition TrimStartAndEnd (s : FString) : FString := TrimEnd (TrimStart s).

Fixpoint eqb (a b : FString) : bool :=
  match a, b with
  | [], [] => true
  | x :: a', y :: b' => (x =? y)%N && eqb a' b'
  | _, _ => false
  end.

(** [operator==] on FString ignores case. *)
Definition Equals (a b : FString) : bool := eqb (ToLower a) (ToLower b).

Fixpoint StartsWith (s p : FString) : bool :=
  match p, s with
  | [], _ => true
  | x :: p', y :: s' => (x =? y)%N && StartsWith s' p'
  | _ :: _, [] => false
  end.

Fixpoint Find (s sub : FString) : bool :=
  StartsWith s sub ||
  match s with
  | [] => false
  | _ :: rest => Find rest sub
  end.

(** [Contains] with its default search case, ESearchCase::IgnoreCase. *)
Definition Contains (s sub : FString) : bool :=
  Find (ToLower s) (ToLower sub).

(** Printf("%d") of an int32. *)
Definition FromInt (z : Z) : FString :=
  TEXT (NilZero.string_of_int (Z.to_int z)).

(** Printf("%0<w>i") of a non-negative int32: zero padded to width [w]. *)
Definition Padded (w : nat) (z : Z) : FString :=
  let digits := FromInt z in
  repeat 48%N (w - List.length digits) ++ digits.

(** ** 32-bit integers *)

Definition INT32_MAX : Z := 2147483647.
Definition INT32_MIN : Z := -2147483648.

(** Two's complement wrap-around of an int32 result. *)
Definition wrap32 (z : Z) : Z := (z + 2147483648) mod 4294967296 - 2147483648.

Definition clamp32 (z : Z) : Z := Z.max INT32_MIN (Z.min INT32_MAX z).

Fixpoint digits_value (s : FString) (acc : Z) : Z :=
  match s with
  | c :: rest =>
      if IsDigit c then digits_value rest (acc * 10 + (Z.of_N c - 48)) else acc
  | [] => acc
  end.

(** FCString::Atoi: the C runtime conversion.  Leading whitespace, an
    optional sign, then decimal digits up to the first other character; a
    value outside int32 is reported as INT_MAX / INT_MIN. *)
Definition Atoi (s : FString) : Z :=
  match TrimStart s with
  | 45%N :: rest => clamp32 (- digits_value rest 0)
  | 43%N :: rest => clamp32 (digits_value rest 0)
  | rest => clamp32 (digits_value rest 0)
  end.

End FStr.
Import FStr.

(** ** Engine date and time

    [FDateTime] is a count of 100-nanosecond ticks since midnight of
    January 1, 0001.  The calendar date of a value is its whole number of
    days; GetYear / GetMonth / GetDay print that day count as a civil date
    and the (Year, Month, Day, Hour, Minute, Second) constructor maps a
    civil date back to its day count, so a date travels through the model
    as the day count itself. *)

Module FDateTime.

Definition t := Z.

Definition TicksPerMillisecond : Z := 10000.
Definition TicksPerSecond : Z := 10000000.
Definition TicksPerMinute : Z := 600000000.
Definition TicksPerHour : Z := 36000000000.
Definition TicksPerDay : Z := 864000000000.

Definition MinValue : t := 0.

(** operator+ with FTimespan::FromDays(n). *)
Definition AddDays (d : t) (n : Z) : t := d + n * TicksPerDay.

(** The date part: days elapsed since January 1, 0001. *)
Definition GetDate (d : t) : Z := d / TicksPerDay.

Definition GetHour (d : t) : Z := (d / TicksPerHour) mod 24.
Definition GetMinute (d : t) : Z := (d / TicksPerMinute) mod 60.
Definition GetSecond (d : t) : Z := (d / TicksPerSecond) mod 60.
Definition GetMillisecond (d : t) : Z := (d / TicksPerMillisecond) mod 1000.

Definition GetHour12 (d : t) : Z :=
  let Hour := GetHour d in
  if Hour <? 1 then 12 else if Hour >? 12 then Hour - 12 else Hour.

Definition IsMorning (d : t) : bool := GetHour d <? 12.

(** Civil date (year, month, day) of a day count. *)
Definition Civil (date : Z) : Z * Z * Z :=
  let z := date + 306 in
  let era := z / 146097 in
  let doe := z mod 146097 in
  let yoe := (doe - doe / 1460 + doe / 36524 - doe / 146096) / 365 in
  let doy := doe - (365 * yoe + yoe / 4 - yoe / 100) in
  let mp := (5 * doy + 2) / 153 in
  let day := doy - (153 * mp + 2) / 5 + 1 in
  let month := if mp <? 10 then mp + 3 else mp - 9 in
  let year := yoe + era * 400 + (if month <=? 2 then 1 else 0) in
  (year, month, day).

Definition GetYear (d : t) : Z := fst (fst (Civil (GetDate d))).
Definition GetMonth (d : t) : Z := snd (fst (Civil (GetDate d))).
Definition GetDay (d : t) : Z := snd (Civil (GetDate d)).

Definition GetDayOfYear (d : t) : Z :=
  let y := GetYear d - 1 in
  GetDate d - (365 * y + y / 4 - y / 100 + y / 400) + 1.

(** FDateTime(Year, Month, Day, Hour, Minute, Second) for the date [date].
    Components that fail the constructor's validation give the zero value. *)
Definition Make (date Hour Minute Second : Z) : t :=
  if (0 <=? Hour) && (Hour <=? 23) && (0 <=? Minute) && (Minute <=? 59)
     && (0 <=? Second) && (Second <=? 59)
  then date * TicksPerDay + Hour * TicksPerHour
       + Minute * TicksPerMinute + Second * TicksPerSecond
  else 0.

Definition ch (a : ascii) : TCHAR := N_of_ascii a.

(** One format specifier of ToString; an unknown one is copied as it is. *)
Definition Specifier (c : TCHAR) (d : t) : FString :=
  if (c =? ch "a")%N then (if IsMorning d then TEXT "am" else TEXT "pm")
  else if (c =? ch "A")%N then (if IsMorning d then TEXT "AM" else TEXT "PM")
  else if (c =? ch "d")%N then Padded 2 (GetDay d)
  else if (c =? ch "D")%N then Padded 3 (GetDayOfYear d)
  else if (c =? ch "m")%N then Padded 2 (GetMonth d)
  else if (c =? ch "y")%N then Padded 2 (GetYear d mod 100)
  else if (c =? ch "Y")%N then Padded 4 (GetYear d)
  else if (c =? ch "h")%N then Padded 2 (GetHour12 d)
  else if (c =? ch "H")%N then Padded 2 (GetHour d)
  else if (c =? ch "M")%N then Padded 2 (GetMinute d)
  else if (c =? ch "S")%N then Padded 2 (GetSecond d)
  else if (c =? ch "s")%N then Padded 3 (GetMillisecond d)
  else [c].

Fixpoint Format (fmt : FString) (d : t) : FString :=
  match fmt with
  | [] => []
  | c :: rest =>
      if (c =? ch "%")%N then
        match rest with
        | s :: rest' => Specifier s d ++ Format rest' d
        | [] => [c]
        end
      else c :: Format rest d
  end.

Definition ToStringWith (fmt : string) (d : t) : FString := Format (TEXT fmt) d.

(** ToString() with the engine's default format. *)
Definition ToString (d : t) : FString := ToStringWith "%Y.%m.%d-%H.%M.%S" d.

Definition ToIso8601 (d : t) : FString := ToStringWith "%Y-%m-%dT%H:%M:%S.%sZ" d.

End FDateTime.

(** ** The component: data model *)

(** ECalendarDialogueState, in declaration order. *)
Inductive ECalendarDialogueState :=
| Idle
| AskingEventName
| AskingDateTime
| AskingDuration
| AskingLocation
| AskingNotes
| AskingPriority
| Confirming
| Creating
| Complete.

Definition state_eqb (a b : ECalendarDialogueState) : bool :=
  match a, b with
  | Idle, Idle | AskingEventName, AskingEventName
  | AskingDateTime, AskingDateTime | AskingDuration, AskingDuration
  | AskingLocation, AskingLocation | AskingNotes, AskingNotes
  | AskingPriority, AskingPriority | Confirming, Confirming
  | Creating, Creating | Complete, Complete => true
  | _, _ => false
  end.

(** The (int32) cast of a state: its position in the enum. *)
Definition StateIndex (s : ECalendarDialogueState) : Z :=
  match s with
  | Idle => 0 | AskingEventName => 1 | AskingDateTime => 2
  | AskingDuration => 3 | AskingLocation => 4 | AskingNotes => 5
  | AskingPriority => 6 | Confirming => 7 | Creating => 8 | Complete => 9
  end.

Record FCalendarEventData := mkEventData {
  EventName : FString;
  DateTime : FDateTime.t;
  DurationMinutes : Z;
  Location : FString;
  Notes : FString;
  Priority : Z;
  bIsValid : bool
}.

(** FCalendarEventData(): the member initialisers of the struct. *)
Definition DefaultEventData : FCalendarEventData :=
  {| EventName := []; DateTime := 0; DurationMinutes := 60;
     Location := []; Notes := []; Priority := 5; bIsValid := false |}.

Definition set_EventName (v : FString) (d : FCalendarEventData) :=
  mkEventData v (DateTime d) (DurationMinutes d) (Location d) (Notes d)
              (Priority d) (bIsValid d).
Definition set_DateTime (v : FDateTime.t) (d : FCalendarEventData) :=
  mkEventData (EventName d) v (DurationMinutes d) (Location d) (Notes d)
              (Priority d) (bIsValid d).
Definition set_DurationMinutes (v : Z) (d : FCalendarEventData) :=
  mkEventData (EventName d) (DateTime d) v (Location d) (Notes d)
              (Priority d) (bIsValid d).
Definition set_Location (v : FString) (d : FCalendarEventData) :=
  mkEventData (EventName d) (DateTime d) (DurationMinutes d) v (Notes d)
              (Priority d) (bIsValid d).
Definition set_Notes (v : FString) (d : FCalendarEventData) :=
  mkEventData (EventName d) (DateTime d) (DurationMinutes d) (Location d) v
              (Priority d) (bIsValid d).
Definition set_Priority (v : Z) (d : FCalendarEventData) :=
  mkEventData (EventName d) (DateTime d) (DurationMinutes d) (Location d)
              (Notes d) v (bIsValid d).
Definition set_bIsValid (v : bool) (d : FCalendarEventData) :=
  mkEventData (EventName d) (DateTime d) (DurationMinutes d) (Location d)
              (Notes d) (Priority d) v.

(** The private members of UCalendarDialogueComponent. *)
Record Engine := mkEngine {
  CurrentState : ECalendarDialogueState;
  EventData : FCalendarEventData
}.

(** What a call finds around the component: the clock read by
    FDateTime::Now() and the actors GetAllActorsOfClass returns for
    AAICompanionManager (an entry is [None] when the pointer does not cast
    to a manager). *)
Record World := mkWorld {
  Now : FDateTime.t;
  FoundActors : list (option nat)
}.

Inductive Verbosity := Warning | Log.

(** Everything the component sends out. *)
Inductive Effect :=
| UE_LOG (v : Verbosity) (text : FString)
| OnAskQuestion (Question : FString)
| OnEventCreated (Data : FCalendarEventData)
| OnFlowCancelled
| SendMessageToBackend (Manager : nat) (JSON : FString).

(** A trace entry: the effect, and the members of the component at the
    instant it is issued.  Delegates are broadcast synchronously, so this is
    what a bound handler reads through GetCurrentState() and GetEventData()
    while it runs. *)
Record Emission := mkEmission {
  seen : Engine;
  effect : Effect
}.

(** ** A state and trace monad for the member functions *)

Definition M (A : Type) : Type := World -> Engine -> A * Engine * list Emission.

Definition ret {A} (a : A) : M A := fun _ e => (a, e, []).

Definition bind {A B} (m : M A) (f : A -> M B) : M B :=
  fun w e =>
    let '(a, e1, t1) := m w e in
    let '(b, e2, t2) := f a w e1 in
    (b, e2, t1 ++ t2).

Declare Scope comp_scope.
Delimit Scope comp_scope with comp.
Notation "x <- m ;; k" := (bind m (fun x => k))
  (at level 61, m at next level, right associativity) : comp_scope.
Notation "m ;; k" := (bind m (fun _ => k))
  (at level 61, right associativity) : comp_scope.
Local Open Scope comp_scope.

Definition get_CurrentState : M ECalendarDialogueState :=
  fun _ e => (CurrentState e, e, []).
Definition set_CurrentState (s : ECalendarDialogueState) : M unit :=
  fun _ e => (tt, mkEngine s (EventData e), []).
Definition get_EventData : M FCalendarEventData :=
  fun _ e => (EventData e, e, []).
Definition put_EventData (d : FCalendarEventData) : M unit :=
  fun _ e => (tt, mkEngine (CurrentState e) d, []).
Definition update_EventData (f : FCalendarEventData -> FCalendarEventData) : M unit :=
  fun _ e => (tt, mkEngine (CurrentState e) (f (EventData e)), []).
Definition emit (x : Effect) : M unit :=
  fun _ e => (tt, e, [mkEmission e x]).
Definition FDateTime_Now : M FDateTime.t := fun w e => (Now w, e, []).
Definition GetAllActorsOfClass : M (list (option nat)) :=
  fun w e => (FoundActors w, e, []).

Definition result {A} (r : A * Engine * list Emission) : A := fst (fst r).
Definition engine_of {A} (r : A * Engine * list Emission) : Engine := snd (fst r).
Definition trace_of {A} (r : A * Engine * list Emission) : list Emission := snd r.

(** ** The component: member functions (CalendarDialogueComponent.cpp) *)

Definition LF : FString := [10%N].
Definition DQ : FString := [34%N].

(** The constructor leaves the component idle with a default event. *)
Definition Constructed : Engine := mkEngine Idle DefaultEventData.

(** The two BlueprintPure getters and IsInCalendarFlow. *)
Definition GetCurrentState (e : Engine) : ECalendarDialogueState := CurrentState e.
Definition GetEventData (e : Engine) : FCalendarEventData := EventData e.
Definition IsInCalendarFlow (e : Engine) : bool := negb (state_eqb (CurrentState e) Idle).

Definition LogCalendar (Message : FString) (bWarning : bool) : M unit :=
  if bWarning
  then emit (UE_LOG Warning (TEXT "[CalendarDialogue] " ++ Message))
  else emit (UE_LOG Log (TEXT "[CalendarDialogue] " ++ Message)).

Definition BeginPlay : M unit :=
  LogCalendar (TEXT "Calendar Dialogue Component initialized") false.

(** The loop of ExtractNumber: [NumberStr] grows while digits arrive and the
    first other character after that leaves the loop. *)
Fixpoint ExtractNumber_loop (Input NumberStr : FString) : FString :=
  match Input with
  | [] => NumberStr
  | Char :: rest =>
      if IsDigit Char then ExtractNumber_loop rest (NumberStr ++ [Char])
      else if negb (IsEmpty NumberStr) then NumberStr
      else ExtractNumber_loop rest NumberStr
  end.

Definition ExtractNumber (Input : FString) : Z :=
  let NumberStr := ExtractNumber_loop Input [] in
  if IsEmpty NumberStr then 0 else Atoi NumberStr.

Definition ParseDuration (Input : FString) : Z :=
  let Lower := TrimStartAndEnd (ToLower Input) in
  let Number := ExtractNumber Lower in
  if Number <=? 0 then 0
  else if Contains Lower (TEXT "hour") then wrap32 (Number * 60)
  else if Contains Lower (TEXT "minute") || Contains Lower (TEXT "min") then Number
  else Number.

Definition IsAffirmative (Answer : FString) : bool :=
  let Lower := TrimStartAndEnd (ToLower Answer) in
  Equals Lower (TEXT "yes") ||
  Equals Lower (TEXT "yeah") ||
  Equals Lower (TEXT "yep") ||
  Equals Lower (TEXT "sure") ||
  Equals Lower (TEXT "ok") ||
  Equals Lower (TEXT "okay") ||
  Equals Lower (TEXT "y") ||
  Equals Lower (TEXT "confirm") ||
  Equals Lower (TEXT "correct") ||
  Equals Lower (TEXT "right").

Definition ParseDateTime (Input : FString) : M FDateTime.t :=
  let Lower := TrimStartAndEnd (ToLower Input) in
  Now <- FDateTime_Now ;;
  if Contains Lower (TEXT "tomorrow") then
    let Result := FDateTime.AddDays Now 1 in
    if Contains Lower (TEXT "at") then
      let Hour :=
        if Contains Lower (TEXT "pm") then
          let Hour := ExtractNumber Lower in
          if Hour <? 12 then Hour + 12 else Hour
        else if Contains Lower (TEXT "am") then ExtractNumber Lower
        else 12 in
      ret (FDateTime.Make (FDateTime.GetDate Result) Hour 0 0)
    else ret Result
  else if Contains Lower (TEXT "today") then
    let Result := Now in
    if Contains Lower (TEXT "at") then
      let Hour :=
        if Contains Lower (TEXT "pm") then
          let Hour := ExtractNumber Lower in
          if Hour <? 12 then Hour + 12 else Hour
        else if Contains Lower (TEXT "am") then ExtractNumber Lower
        else 12 in
      ret (FDateTime.Make (FDateTime.GetDate Result) Hour 0 0)
    else ret Result
  else
    LogCalendar (TEXT "Could not parse datetime: " ++ Input) true ;;
    ret FDateTime.MinValue.

Definition GenerateConfirmationMessage (d : FCalendarEventData) : FString :=
  let Message := TEXT "Here's what I have:" ++ LF ++ LF in
  let Message := Message ++ [55357; 56517]%N ++ TEXT " " ++ EventName d ++ LF in
  let Message := Message ++ [9200]%N ++ TEXT " "
                 ++ FDateTime.ToStringWith "%B %d, %Y at %I:%M %p" (DateTime d) ++ LF in
  let Message := Message ++ [9201; 65039]%N ++ TEXT " Duration: "
                 ++ FromInt (DurationMinutes d) ++ TEXT " minutes" ++ LF in
  let Message :=
    if negb (IsEmpty (Location d))
    then Message ++ [55357; 56525]%N ++ TEXT " " ++ Location d ++ LF
    else Message in
  let Message :=
    if negb (IsEmpty (Notes d))
    then Message ++ [55357; 56541]%N ++ TEXT " " ++ Notes d ++ LF
    else Message in
  let Message := Message ++ [11088]%N ++ TEXT " Priority: "
                 ++ FromInt (Priority d) ++ TEXT "/10" ++ LF ++ LF in
  Message ++ TEXT "Should I create this event?".

Definition AskCurrentQuestion : M unit :=
  s <- get_CurrentState ;;
  let ask (Question : FString) : M unit :=
    LogCalendar (TEXT "Asking: " ++ Question) false ;;
    emit (OnAskQuestion Question) in
  match s with
  | AskingEventName => ask (TEXT "What would you like to call this event?")
  | AskingDateTime =>
      ask (TEXT "When would you like to schedule it? (e.g., 'tomorrow at 2pm', 'November 5 at 3:30pm')")
  | AskingDuration => ask (TEXT "How long will it take? (e.g., '1 hour', '30 minutes')")
  | AskingLocation => ask (TEXT "Where will this take place? (or say 'none')")
  | AskingNotes => ask (TEXT "Any notes or details? (or say 'none')")
  | AskingPriority =>
      ask (TEXT "How important is this event? (1-10, where 10 is most important)")
  | Confirming => d <- get_EventData ;; ask (GenerateConfirmationMessage d)
  | _ => ret tt
  end.

Definition CancelFlow : M unit :=
  LogCalendar (TEXT "Calendar flow cancelled") false ;;
  set_CurrentState Idle ;;
  put_EventData DefaultEventData ;;
  emit OnFlowCancelled.

Definition StartEventCreation : M unit :=
  LogCalendar (TEXT "Starting calendar event creation flow") false ;;
  put_EventData DefaultEventData ;;
  update_EventData (set_bIsValid false) ;;
  set_CurrentState AskingEventName ;;
  AskCurrentQuestion.

(** *** Answer processors *)

Definition ProcessEventName (Answer : FString) : M bool :=
  if IsEmpty Answer || (Len Answer <? 2) then ret false
  else
    update_EventData (set_EventName (TrimStartAndEnd Answer)) ;;
    d <- get_EventData ;;
    LogCalendar (TEXT "Event name set: " ++ EventName d) false ;;
    ret true.

Definition ProcessDateTime (Answer : FString) : M bool :=
  ParsedDateTime <- ParseDateTime Answer ;;
  if ParsedDateTime =? FDateTime.MinValue then ret false
  else
    update_EventData (set_DateTime ParsedDateTime) ;;
    d <- get_EventData ;;
    LogCalendar (TEXT "DateTime set: " ++ FDateTime.ToString (DateTime d)) false ;;
    ret true.

Definition ProcessDuration (Answer : FString) : M bool :=
  let Minutes := ParseDuration Answer in
  if Minutes <=? 0 then ret false
  else
    update_EventData (set_DurationMinutes Minutes) ;;
    d <- get_EventData ;;
    LogCalendar (TEXT "Duration set: " ++ FromInt (DurationMinutes d) ++ TEXT " minutes") false ;;
    ret true.

Definition IsSkipWord (Trimmed : FString) : bool :=
  Equals Trimmed (TEXT "none") || Equals Trimmed (TEXT "no") || Equals Trimmed (TEXT "skip").

Definition ProcessLocation (Answer : FString) : M bool :=
  let Trimmed := ToLower (TrimStartAndEnd Answer) in
  (if IsSkipWord Trimmed then
     update_EventData (set_Location (TEXT "")) ;;
     LogCalendar (TEXT "Location: none") false
   else
     update_EventData (set_Location (TrimStartAndEnd Answer)) ;;
     d <- get_EventData ;;
     LogCalendar (TEXT "Location set: " ++ Location d) false) ;;
  ret true.

Definition ProcessNotes (Answer : FString) : M bool :=
  let Trimmed := ToLower (TrimStartAndEnd Answer) in
  (if IsSkipWord Trimmed then
     update_EventData (set_Notes (TEXT "")) ;;
     LogCalendar (TEXT "Notes: none") false
   else
     update_EventData (set_Notes (TrimStartAndEnd Answer)) ;;
     d <- get_EventData ;;
     LogCalendar (TEXT "Notes set: " ++ Notes d) false) ;;
  ret true.

Definition ProcessPriority (Answer : FString) : M bool :=
  let Priority' := ExtractNumber Answer in
  if (Priority' <? 1) || (Priority' >? 10) then ret false
  else
    update_EventData (set_Priority Priority') ;;
    d <- get_EventData ;;
    LogCalendar (TEXT "Priority set: " ++ FromInt (Priority d)) false ;;
    ret true.

Definition ProcessConfirmation (Answer : FString) : M bool :=
  let bConfirmed := IsAffirmative Answer in
  if negb bConfirmed then
    LogCalendar (TEXT "Event creation cancelled by user") false ;;
    CancelFlow ;;
    ret false
  else
    LogCalendar (TEXT "Event confirmed by user") false ;;
    update_EventData (set_bIsValid true) ;;
    ret true.

Definition ProcessAnswer (Answer : FString) : M bool :=
  s <- get_CurrentState ;;
  match s with
  | AskingEventName => ProcessEventName Answer
  | AskingDateTime => ProcessDateTime Answer
  | AskingDuration => ProcessDuration Answer
  | AskingLocation => ProcessLocation Answer
  | AskingNotes => ProcessNotes Answer
  | AskingPriority => ProcessPriority Answer
  | Confirming => ProcessConfirmation Answer
  | _ => ret false
  end.

(** *** Hand-off *)

(** The JSON text SendEventToBackend assembles with Printf: every text
    field goes through a bare %s between two quote characters. *)
Definition BuildEventJSON (d : FCalendarEventData) : FString :=
  let JSON := TEXT "{" in
  let JSON := JSON ++ DQ ++ TEXT "type" ++ DQ ++ TEXT ":" ++ DQ
              ++ TEXT "create_calendar_event" ++ DQ ++ TEXT "," in
  let JSON := JSON ++ DQ ++ TEXT "eventName" ++ DQ ++ TEXT ":" ++ DQ
              ++ EventName d ++ DQ ++ TEXT "," in
  let JSON := JSON ++ DQ ++ TEXT "dateTime" ++ DQ ++ TEXT ":" ++ DQ
              ++ FDateTime.ToIso8601 (DateTime d) ++ DQ ++ TEXT "," in
  let JSON := JSON ++ DQ ++ TEXT "durationMinutes" ++ DQ ++ TEXT ":"
              ++ FromInt (DurationMinutes d) ++ TEXT "," in
  let JSON := JSON ++ DQ ++ TEXT "location" ++ DQ ++ TEXT ":" ++ DQ
              ++ Location d ++ DQ ++ TEXT "," in
  let JSON := JSON ++ DQ ++ TEXT "notes" ++ DQ ++ TEXT ":" ++ DQ
              ++ Notes d ++ DQ ++ TEXT "," in
  let JSON := JSON ++ DQ ++ TEXT "priority" ++ DQ ++ TEXT ":"
              ++ FromInt (Priority d) in
  JSON ++ TEXT "}".

Definition SendEventToBackend : M unit :=
  LogCalendar (TEXT "Sending event to backend...") false ;;
  Found <- GetAllActorsOfClass ;;
  match Found with
  | [] => LogCalendar (TEXT "ERROR: Could not find AICompanionManager!") true
  | None :: _ => LogCalendar (TEXT "ERROR: Failed to cast to AICompanionManager!") true
  | Some Manager :: _ =>
      d <- get_EventData ;;
      emit (SendMessageToBackend Manager (BuildEventJSON d)) ;;
      LogCalendar (TEXT "Event sent to backend successfully") false ;;
      d <- get_EventData ;;
      emit (OnEventCreated d)
  end.

(** *** Conversation flow *)

Definition AdvanceToNextState : M unit :=
  s <- get_CurrentState ;;
  match s with
  | AskingEventName => set_CurrentState AskingDateTime ;; AskCurrentQuestion
  | AskingDateTime => set_CurrentState AskingDuration ;; AskCurrentQuestion
  | AskingDuration => set_CurrentState AskingLocation ;; AskCurrentQuestion
  | AskingLocation => set_CurrentState AskingNotes ;; AskCurrentQuestion
  | AskingNotes => set_CurrentState AskingPriority ;; AskCurrentQuestion
  | AskingPriority => set_CurrentState Confirming ;; AskCurrentQuestion
  | Confirming =>
      set_CurrentState Creating ;;
      SendEventToBackend ;;
      set_CurrentState Complete ;;
      set_CurrentState Idle
  | _ => set_CurrentState Idle
  end.

Definition ProcessUserResponse (Response : FString) : M unit :=
  s <- get_CurrentState ;;
  if state_eqb s Idle then
    LogCalendar (TEXT "Received response but not in calendar flow - ignoring") true
  else
    LogCalendar (TEXT "Processing response in state " ++ FromInt (StateIndex s)
                 ++ TEXT ": " ++ Response) false ;;
    bSuccess <- ProcessAnswer Response ;;
    if bSuccess then AdvanceToNextState
    else
      LogCalendar (TEXT "Invalid answer, asking again") true ;;
      AskCurrentQuestion.

(** ** Running the public interface *)

Inductive Call :=
| CallStartEventCreation
| CallProcessUserResponse (Response : FString)
| CallCancelFlow.

Definition run (c : Call) : M unit :=
  match c with
  | CallStartEventCreation => StartEventCreation
  | CallProcessUserResponse Response => ProcessUserResponse Response
  | CallCancelFlow => CancelFlow
  end.

(** A session: calls made one after the other, each in the world it finds. *)
Fixpoint session (cs : list (World * Call)) (e : Engine) : Engine * list Emission :=
  match cs with
  | [] => (e, [])
  | (w, c) :: rest =>
      let r := run c w e in
      let '(e', t) := session rest (engine_of r) in
      (e', trace_of r ++ t)
  end.

(** ** Reading a trace *)

Definition effects (t : list Emission) : list Effect := map effect t.

Definition Questions (t : list Emission) : list FString :=
  flat_map (fun x => match effect x with OnAskQuestion q => [q] | _ => [] end) t.

Definition Created (t : list Emission) : list FCalendarEventData :=
  flat_map (fun x => match effect x with OnEventCreated d => [d] | _ => [] end) t.

Definition Sent (t : list Emission) : list (nat * FString) :=
  flat_map (fun x => match effect x with SendMessageToBackend m j => [(m, j)] | _ => [] end) t.

Definition Cancellations (t : list Emission) : nat :=
  List.length (filter (fun x => match effect x with OnFlowCancelled => true | _ => false end) t).

(** The eight states of the flow proper. *)
Definition Observable (s : ECalendarDialogueState) : bool :=
  match s with
  | Creating | Complete => false
  | _ => true
  end.

(** ** The number rule in the words of the specification

    "Scan left to right, collect the first maximal run of digit characters,
    stop at the first non-digit after a run has started." *)

Fixpoint take_while (p : TCHAR -> bool) (s : FString) : FString :=
  match s with
  | c :: rest => if p c then c :: take_while p rest else []
  | [] => []
  end.

Fixpoint drop_while (p : TCHAR -> bool) (s : FString) : FString :=
  match s with
  | c :: rest => if p c then drop_while p rest else s
  | [] => []
  end.

Definition NotDigit (c : TCHAR) : bool := negb (IsDigit c).

(** The text before the first digit, the first maximal run of digits, and
    whatever follows the run. *)
Definition before_run (s : FString) : FString := take_while NotDigit s.
Definition first_digit_run (s : FString) : FString :=
  take_while IsDigit (drop_while NotDigit s).
Definition after_run (s : FString) : FString :=
  drop_while IsDigit (drop_while NotDigit s).

(** The decimal value of a run of digits. *)
Definition decimal (run : FString) : Z :=
  fold_left (fun acc c => acc * 10 + (Z.of_N c - 48)) run 0.

(** ** What the backend can read

    The calendar payload is meant to be one JSON object whose members are
    strings and integers.  [IsJSONObject] recognises exactly such texts
    (RFC 8259 restricted to that shape): inside a string a quote ends the
    string, a backslash starts an escape and control characters are not
    allowed. *)

Inductive JState :=
| JStart
| JKeyOrClose
| JKey
| JInString (key : bool)
| JEscape (key : bool)
| JHex (key : bool) (more : nat)
| JColon
| JValue
| JMinus
| JInNumber
| JAfterValue
| JDone.

Definition IsJSONSpace (c : TCHAR) : bool :=
  (c =? 32)%N || (c =? 9)%N || (c =? 10)%N || (c =? 13)%N.

Definition IsHexDigit (c : TCHAR) : bool :=
  IsDigit c || ((65 <=? c)%N && (c <=? 70)%N) || ((97 <=? c)%N && (c <=? 102)%N).

Definition IsSimpleEscape (c : TCHAR) : bool :=
  (c =? 34)%N || (c =? 92)%N || (c =? 47)%N || (c =? 98)%N || (c =? 102)%N
  || (c =? 110)%N || (c =? 114)%N || (c =? 116)%N.

Definition JStep (st : JState) (c : TCHAR) : option JState :=
  match st with
  | JStart =>
      if IsJSONSpace c then Some JStart
      else if (c =? 123)%N then Some JKeyOrClose else None
  | JKeyOrClose =>
      if IsJSONSpace c then Some JKeyOrClose
      else if (c =? 34)%N then Some (JInString true)
      else if (c =? 125)%N then Some JDone else None
  | JKey =>
      if IsJSONSpace c then Some JKey
      else if (c =? 34)%N then Some (JInString true) else None
  | JInString key =>
      if (c =? 34)%N then Some (if key then JColon else JAfterValue)
      else if (c =? 92)%N then Some (JEscape key)
      else if (c <? 32)%N then None
      else Some (JInString key)
  | JEscape key =>
      if IsSimpleEscape c then Some (JInString key)
      else if (c =? 117)%N then Some (JHex key 3) else None
  | JHex key more =>
      if IsHexDigit c then
        match more with
        | O => Some (JInString key)
        | S n => Some (JHex key n)
        end
      else None
  | JColon =>
      if IsJSONSpace c then Some JColon
      else if (c =? 58)%N then Some JValue else None
  | JValue =>
      if IsJSONSpace c then Some JValue
      else if (c =? 34)%N then Some (JInString false)
      else if (c =? 45)%N then Some JMinus
      else if IsDigit c then Some JInNumber else None
  | JMinus => if IsDigit c then Some JInNumber else None
  | JInNumber =>
      if IsDigit c then Some JInNumber
      else if IsJSONSpace c then Some JAfterValue
      else if (c =? 44)%N then Some JKey
      else if (c =? 125)%N then Some JDone else None
  | JAfterValue =>
      if IsJSONSpace c then Some JAfterValue
      else if (c =? 44)%N then Some JKey
      else if (c =? 125)%N then Some JDone else None
  | JDone => if IsJSONSpace c then Some JDone else None
  end.

Fixpoint JRun (st : JState) (s : FString) : option JState :=
  match s with
  | [] => Some st
  | c :: rest =>
      match JStep st c with
      | Some st' => JRun st' rest
      | None => None
      end
  end.

Definition IsJSONObject (s : FString) : bool :=
  match JRun JStart s with
  | Some JDone => true
  | _ => false
  end.

(** ** Question texts and sample runs *)

Definition QuestionEventName : FString := TEXT "What would you like to call this event?".
Definition QuestionDateTime : FString :=
  TEXT "When would you like to schedule it? (e.g., 'tomorrow at 2pm', 'November 5 at 3:30pm')".

Definition DentistEvent : FCalendarEventData :=
  {| EventName := TEXT "Dentist";
     DateTime := FDateTime.Make 739251 14 0 0;
     DurationMinutes := 60;
     Location := [];
     Notes := [];
     Priority := 8;
     bIsValid := true |}.

(** An event name with a quoted word in it: Lunch with "Bob". *)
Definition QuotedName : FString := TEXT "Lunch with " ++ DQ ++ TEXT "Bob" ++ DQ.

Definition WorldWithManager : World :=
  mkWorld (FDateTime.Make 739250 9 30 0) [Some 1%nat].

Definition AnswersWith (Name : FString) : list Call :=
  CallStartEventCreation
  :: CallProcessUserResponse Name
  :: map (fun s => CallProcessUserResponse (TEXT s))
       ["tomorrow at 2pm"; "1 hour"; "none"; "none"; "8"; "yes"]%string.

Definition HappyPath : list Call := AnswersWith (TEXT "Dentist").

(** ** Predicates on calls and traces *)

(** Effects that belong to the hand-off made by SendEventToBackend. *)
Definition HandOffEffect (x : Effect) : bool :=
  match x with
  | UE_LOG _ _ | SendMessageToBackend _ _ | OnEventCreated _ => true
  | _ => false
  end.

(** No effect is issued in state Complete, and in state Creating only those
    of the hand-off are. *)
Definition SeenOk (x : Emission) : bool :=
  match CurrentState (seen x) with
  | Complete => false
  | Creating => HandOffEffect (effect x)
  | _ => true
  end.

(** How one call of the public interface may change EventData. *)
Definition RecordAfter (c : Call) (e : Engine) (new : FCalendarEventData) : Prop :=
  let old := EventData e in
  match c with
  | CallStartEventCreation | CallCancelFlow => new = DefaultEventData
  | CallProcessUserResponse Answer =>
      match CurrentState e with
      | Confirming =>
          if IsAffirmative Answer then new = set_bIsValid true old
          else new = DefaultEventData
      | AskingEventName =>
          new = old \/ new = set_EventName (TrimStartAndEnd Answer) old
      | AskingDateTime =>
          new = old \/ exists v, v <> FDateTime.MinValue /\ new = set_DateTime v old
      | AskingDuration =>
          new = old \/ new = set_DurationMinutes (ParseDuration Answer) old
      | AskingLocation =>
          new = set_Location [] old \/ new = set_Location (TrimStartAndEnd Answer) old
      | AskingNotes =>
          new = set_Notes [] old \/ new = set_Notes (TrimStartAndEnd Answer) old
      | AskingPriority =>
          new = old \/ new = set_Priority (ExtractNumber Answer) old
      | Idle | Creating | Complete => new = old
      end
  end.

(** The manager SendEventToBackend would use: the first actor found, if it
    casts. *)
Definition ManagerFound (w : World) : option nat :=
  match FoundActors w with
  | Some Manager :: _ => Some Manager
  | _ => None
  end.

(** No effect of the trace is issued while the component is in state [s]:
    no handler, called back during a broadcast, reads [s] from
    GetCurrentState. *)
Definition NeverSeen (s : ECalendarDialogueState) (t : list Emission) : Prop :=
  forall x, In x t -> GetCurrentState (seen x) <> s.

(** A call that hands nothing off. *)
Definition Quiet (r : unit * Engine * list Emission) : Prop :=
  Created (trace_of r) = [] /\ Sent (trace_of r) = [].

(** What a session leaves: the component, the records handed to
    OnEventCreated and the messages sent to the manager. *)
Definition summary (s : Engine * list Emission) :=
  (fst s, Created (snd s), Sent (snd s)).

Definition Worlds (w0 w1 w2 w3 w4 w5 w6 w7 : World) : list (World * Call) :=
  combine [w0; w1; w2; w3; w4; w5; w6; w7] HappyPath.

(** The happy path as C1 states it, for the worlds the eight calls run in:
    the date handed off is 14:00 on the day after the day
    StartEventCreation was called. *)
Definition HappyPathAsStated (ws : list World) : Prop :=
  match ws with
  | w0 :: _ =>
      let r := session (combine ws HappyPath) Constructed in
      GetCurrentState (fst r) = Idle
      /\ exists d,
           Created (snd r) = [d]
           /\ EventName d = TEXT "Dentist"
           /\ DurationMinutes d = 60
           /\ Location d = []
           /\ Notes d = []
           /\ Priority d = 8
           /\ DateTime d = FDateTime.Make (FDateTime.GetDate (Now w0) + 1) 14 0 0
  | [] => False
  end.

(** December 31, 2024 at 23:59:30, and ten seconds past the midnight that
    follows; a manager is present. *)
Definition LateEvening : World :=
  mkWorld (FDateTime.Make 739250 23 59 30) [Some 1%nat].
Definition PastMidnight : World :=
  mkWorld (FDateTime.Make 739251 0 0 10) [Some 1%nat].


(** ** Further predicates

    Notions used to state what the member functions keep true beyond the
    properties above. *)

(** The ten words IsAffirmative compares against. *)
Definition AffirmativeWords : list FString :=
  map TEXT ["yes"; "yeah"; "yep"; "sure"; "ok"; "okay"; "y"; "confirm";
            "correct"; "right"]%string.

(** The three words ProcessLocation and ProcessNotes read as "nothing". *)
Definition SkipWords : list FString := map TEXT ["none"; "no"; "skip"]%string.

(** A text without whitespace at either end. *)
Definition NoOuterSpace (s : FString) : bool :=
  match s with
  | [] => true
  | c :: _ => negb (IsWhitespace c) && negb (IsWhitespace (last s c))
  end.

(** A text that can sit between two quotes of a JSON string as it is: no
    quote, no backslash, no control character. *)
Definition PlainChar (c : TCHAR) : bool :=
  negb (c =? 34)%N && negb (c =? 92)%N && negb (c <? 32)%N.
Definition PlainText (s : FString) : bool := forallb PlainChar s.

(** Lowercase literals are their own lowering. *)
Definition IsLower (s : FString) : bool := eqb (ToLower s) s.

Definition QuestionNotes : FString := TEXT "Any notes or details? (or say 'none')".
Definition QuestionPriority : FString :=
  TEXT "How important is this event? (1-10, where 10 is most important)".

(** What ProcessLocation and ProcessNotes store for an answer. *)
Definition StoredText (Answer : FString) : FString :=
  if IsSkipWord (ToLower (TrimStartAndEnd Answer)) then []
  else TrimStartAndEnd Answer.

(** States that can only be reached after the date question was answered. *)
Definition DateSet (s : ECalendarDialogueState) : bool :=
  match s with
  | AskingDuration | AskingLocation | AskingNotes | AskingPriority | Confirming => true
  | _ => false
  end.

(** The numeric fields of a record are within the bounds the processors
    enforce. *)
Definition InBounds (d : FCalendarEventData) : Prop :=
  1 <= Priority d <= 10 /\ 1 <= DurationMinutes d <= INT32_MAX.

(** What holds of the component between calls. *)
Definition EngineInvariant (e : Engine) : Prop :=
  InBounds (EventData e)
  /\ Observable (CurrentState e) = true
  /\ (bIsValid (EventData e) = true ->
      CurrentState e = Idle /\ DateTime (EventData e) <> FDateTime.MinValue)
  /\ (DateSet (CurrentState e) = true -> DateTime (EventData e) <> FDateTime.MinValue).

(** What holds of a record given to OnEventCreated. *)
Definition HandedOff (d : FCalendarEventData) : Prop :=
  InBounds d /\ bIsValid d = true /\ DateTime d <> FDateTime.MinValue.

(** The calls of a session that start a flow. *)
Definition Starts (cs : list (World * Call)) : nat :=
  List.length
    (filter (fun wc => match snd wc with CallStartEventCreation => true | _ => false end) cs).

(** 1 while a flow is in progress, 0 in Idle. *)
Definition InFlow (e : Engine) : nat :=
  if state_eqb (CurrentState e) Idle then 0%nat else 1%nat.

(** * AICompanionManager: the actor behind the hand-off

    The manager (AICompanionManager.h/.cpp) owns three helper objects, a
    WebSocket manager, a voice manager and a memory manager, which are not
    part of these sources.  Every call it makes on them, every log line and
    every delegate broadcast is recorded in an output trace; what it reads
    from them and from the engine comes in through [Env]. *)

Module AAICompanionManager.

Definition CharToUpper (c : TCHAR) : TCHAR :=
  if (97 <=? c)%N && (c <=? 122)%N then (c - 32)%N else c.

(** FString::ToUpper: only 'a' .. 'z' move. *)
Definition ToUpper (s : FString) : FString := map CharToUpper s.

Inductive ELogVerbosity := Error | Warning | Display | Log.

(** A decoded message, as far as the manager looks at it: what
    TryGetStringField finds for a field name. *)
Definition FJsonObject := FString -> option FString.

(** The members of the actor.  The three pointers are [true] when set. *)
Record Manager := mkManager {
  BackendURL : FString;
  WebSocketURL : FString;
  bAutoConnect : bool;
  bEnableVoice : bool;
  bEnableMemory : bool;
  PlayerID : FString;
  WebSocketManager : bool;
  VoiceManager : bool;
  MemoryManager : bool;
  bIsInitialized : bool;
  bIsConnected : bool
}.

(** The member initialisers of the class. *)
Definition Constructed : Manager :=
  {| BackendURL := TEXT "https://web-production-e5dfe.up.railway.app";
     WebSocketURL := TEXT "wss://web-production-e5dfe.up.railway.app";
     bAutoConnect := true;
     bEnableVoice := true;
     bEnableMemory := true;
     PlayerID := [];
     WebSocketManager := false;
     VoiceManager := false;
     MemoryManager := false;
     bIsInitialized := false;
     bIsConnected := false |}.

(** What a call finds around the actor: whether the socket reports itself
    connected, the text of the next GUID (digits with hyphens in braces),
    the JSON reader and writer, the stored preferences, and whether
    NewObject hands back an object for each helper. *)
Record Env := mkEnv {
  SocketIsConnected : bool;
  NewGuid : FString;
  Deserialize : FString -> option FJsonObject;
  Serialize : list (FString * FString) -> FString;
  GetPreference : FString -> FString;
  NewVoiceManager : bool;
  NewWebSocketManager : bool;
  NewMemoryManager : bool
}.

Inductive Delegate := OnMessage | OnConnected | OnError.

(** The body of a timer callback. *)
Inductive Deferred := DeferSendTestMessage (Message : FString).

Inductive Out :=
| UE_LOG (v : ELogVerbosity) (text : FString)
| Voice_Initialize
| Voice_StartRecording
| Voice_StopRecording
| Socket_Initialize
| Socket_AddDynamic (d : Delegate)
| Socket_SetServerURL (url : FString)
| Socket_Connect
| Socket_Disconnect
| Socket_SendMessage (JsonString : FString)
| Memory_Initialize (Player : FString)
| Memory_AddPreference (Key Value : FString)
| Memory_AddConversation (Speaker Text Meta : FString)
| SetTimer (Seconds : Z) (bLoop : bool) (Callback : Deferred)
| OnAIResponseReceived (Response : FString)
| OnConnectionStatusChanged (bConnected : bool).

Definition MM (A : Type) : Type := Env -> Manager -> A * Manager * list Out.

Definition ret {A} (a : A) : MM A := fun _ m => (a, m, []).

Definition bind {A B} (c : MM A) (f : A -> MM B) : MM B :=
  fun env m =>
    let '(a, m1, t1) := c env m in
    let '(b, m2, t2) := f a env m1 in
    (b, m2, t1 ++ t2).

Declare Scope manager_scope.
Delimit Scope manager_scope with manager.
Notation "x <- c ;; k" := (bind c (fun x => k))
  (at level 61, c at next level, right associativity) : manager_scope.
Notation "c ;; k" := (bind c (fun _ => k))
  (at level 61, right associativity) : manager_scope.
Local Open Scope manager_scope.

Definition get : MM Manager := fun _ m => (m, m, []).
Definition env : MM Env := fun e m => (e, m, []).
Definition out (x : Out) : MM unit := fun _ m => (tt, m, [x]).
Definition modify (f : Manager -> Manager) : MM unit := fun _ m => (tt, f m, []).
Definition when (b : bool) (c : MM unit) : MM unit := if b then c else ret tt.

Definition set_PlayerID (v : FString) (m : Manager) : Manager :=
  mkManager (BackendURL m) (WebSocketURL m) (bAutoConnect m) (bEnableVoice m)
            (bEnableMemory m) v (WebSocketManager m) (VoiceManager m)
            (MemoryManager m) (bIsInitialized m) (bIsConnected m).
Definition set_WebSocketManager (v : bool) (m : Manager) : Manager :=
  mkManager (BackendURL m) (WebSocketURL m) (bAutoConnect m) (bEnableVoice m)
            (bEnableMemory m) (PlayerID m) v (VoiceManager m)
            (MemoryManager m) (bIsInitialized m) (bIsConnected m).
Definition set_VoiceManager (v : bool) (m : Manager) : Manager :=
  mkManager (BackendURL m) (WebSocketURL m) (bAutoConnect m) (bEnableVoice m)
            (bEnableMemory m) (PlayerID m) (WebSocketManager m) v
            (MemoryManager m) (bIsInitialized m) (bIsConnected m).
Definition set_MemoryManager (v : bool) (m : Manager) : Manager :=
  mkManager (BackendURL m) (WebSocketURL m) (bAutoConnect m) (bEnableVoice m)
            (bEnableMemory m) (PlayerID m) (WebSocketManager m) (VoiceManager m)
            v (bIsInitialized m) (bIsConnected m).
Definition set_bIsInitialized (v : bool) (m : Manager) : Manager :=
  mkManager (BackendURL m) (WebSocketURL m) (bAutoConnect m) (bEnableVoice m)
            (bEnableMemory m) (PlayerID m) (WebSocketManager m) (VoiceManager m)
            (MemoryManager m) v (bIsConnected m).
Definition set_bIsConnected (v : bool) (m : Manager) : Manager :=
  mkManager (BackendURL m) (WebSocketURL m) (bAutoConnect m) (bEnableVoice m)
            (bEnableMemory m) (PlayerID m) (WebSocketManager m) (VoiceManager m)
            (MemoryManager m) (bIsInitialized m) v.

Definition Rule : FString := TEXT "=================================================".
Definition Tag : FString := TEXT "[AICompanionManager] ".

Definition GeneratePlayerID : MM FString :=
  e <- env ;; ret (ToUpper (NewGuid e)).

Definition ConnectToBackend : MM unit :=
  m <- get ;;
  if negb (WebSocketManager m) then
    out (UE_LOG Error (Tag ++ TEXT "WebSocket Manager not initialized!"))
  else
    out (UE_LOG Log (Tag ++ TEXT "Connecting to: " ++ WebSocketURL m)) ;;
    out (Socket_SetServerURL (WebSocketURL m)) ;;
    out Socket_Connect.

Definition DisconnectFromBackend : MM unit :=
  m <- get ;; when (WebSocketManager m) (out Socket_Disconnect).

Definition IsConnected (m : Manager) : bool := bIsConnected m.

Definition InitializeManagers : MM unit :=
  out (UE_LOG Log (Tag ++ TEXT "Initializing managers...")) ;;
  m <- get ;; e <- env ;;
  when (bEnableVoice m)
    (modify (set_VoiceManager (NewVoiceManager e)) ;;
     when (NewVoiceManager e)
       (out Voice_Initialize ;;
        out (UE_LOG Log (Tag ++ [10003]%N ++ TEXT " Voice Manager initialized")))) ;;
  modify (set_WebSocketManager (NewWebSocketManager e)) ;;
  when (NewWebSocketManager e)
    (out Socket_Initialize ;;
     out (Socket_AddDynamic OnMessage) ;;
     out (Socket_AddDynamic OnConnected) ;;
     out (Socket_AddDynamic OnError) ;;
     out (UE_LOG Log (Tag ++ [10003]%N ++ TEXT " WebSocket Manager initialized")) ;;
     out (UE_LOG Warning (Tag ++ [10003]%N
                          ++ TEXT " Delegates bound: OnMessage, OnConnected, OnError"))) ;;
  when (bEnableMemory m)
    (modify (set_MemoryManager (NewMemoryManager e)) ;;
     when (NewMemoryManager e)
       (m' <- get ;;
        out (Memory_Initialize (PlayerID m')) ;;
        out (UE_LOG Log (Tag ++ [10003]%N ++ TEXT " Memory Manager initialized")))) ;;
  modify (set_bIsInitialized true) ;;
  out (UE_LOG Warning (Tag ++ TEXT "*** ALL MANAGERS INITIALIZED ***")).

Definition BeginPlay : MM unit :=
  m <- get ;;
  out (UE_LOG Warning Rule) ;;
  out (UE_LOG Warning (Tag ++ TEXT "*** BEGIN PLAY ***")) ;;
  out (UE_LOG Warning (Tag ++ TEXT "Actor placed in level!")) ;;
  out (UE_LOG Warning (Tag ++ TEXT "Backend URL: " ++ BackendURL m)) ;;
  out (UE_LOG Warning (Tag ++ TEXT "WebSocket URL: " ++ WebSocketURL m)) ;;
  out (UE_LOG Warning Rule) ;;
  id <- GeneratePlayerID ;;
  modify (set_PlayerID id) ;;
  out (UE_LOG Log (Tag ++ TEXT "Generated Player ID: " ++ id)) ;;
  InitializeManagers ;;
  when (bAutoConnect m)
    (out (UE_LOG Warning (Tag ++ TEXT "*** CONNECTING TO BACKEND ***")) ;;
     ConnectToBackend) ;;
  out (UE_LOG Warning Rule) ;;
  out (UE_LOG Warning (Tag ++ [55357; 56481]%N ++ TEXT " HOW TO TEST CHAT:")) ;;
  out (UE_LOG Warning (Tag ++ TEXT "1. Wait for 'PLAYER REGISTERED' message")) ;;
  out (UE_LOG Warning (Tag ++ TEXT "2. Auto-test message will fire after 2 seconds")) ;;
  out (UE_LOG Warning (Tag ++ TEXT "3. Watch Output Log for responses")) ;;
  out (UE_LOG Warning Rule).

Definition EndPlay : MM unit :=
  out (UE_LOG Log (Tag ++ TEXT "EndPlay called")) ;;
  m <- get ;; when (WebSocketManager m) (out Socket_Disconnect).

Definition SendTestMessage (Message : FString) : MM unit :=
  m <- get ;; e <- env ;;
  if negb (WebSocketManager m) || negb (SocketIsConnected e) then
    out (UE_LOG Warning (Tag ++ TEXT "Cannot send message: Not connected"))
  else
    out (UE_LOG Warning Rule) ;;
    out (UE_LOG Warning (Tag ++ [55357; 56492]%N ++ TEXT " SENDING MESSAGE")) ;;
    out (UE_LOG Warning (Tag ++ TEXT "Message: " ++ Message)) ;;
    out (UE_LOG Warning Rule) ;;
    let JsonObject := [(TEXT "type", TEXT "chat"); (TEXT "text", Message)] in
    out (Socket_SendMessage (Serialize e JsonObject)).

Definition SendChatMessage (Message : FString) : MM unit := SendTestMessage Message.

Definition StartVoiceRecording : MM unit :=
  m <- get ;;
  when (VoiceManager m)
    (out Voice_StartRecording ;;
     out (UE_LOG Log (Tag ++ TEXT "Voice recording started"))).

Definition StopVoiceRecording : MM unit :=
  m <- get ;;
  when (VoiceManager m)
    (out Voice_StopRecording ;;
     out (UE_LOG Log (Tag ++ TEXT "Voice recording stopped"))).

Definition AddMemory (Key Value : FString) : MM unit :=
  m <- get ;;
  when (MemoryManager m)
    (out (Memory_AddPreference Key Value) ;;
     out (UE_LOG Log (Tag ++ TEXT "Memory added: " ++ Key ++ TEXT " = " ++ Value))).

Definition GetMemory (Key : FString) : MM FString :=
  m <- get ;; e <- env ;;
  if MemoryManager m then ret (GetPreference e Key) else ret (TEXT "").

Definition RegisterPlayer : MM unit :=
  m <- get ;; e <- env ;;
  if negb (WebSocketManager m) || negb (SocketIsConnected e) then
    out (UE_LOG Warning (Tag ++ TEXT "Cannot register: Not connected"))
  else
    out (UE_LOG Log (Tag ++ TEXT "Registering player: " ++ PlayerID m)) ;;
    let JsonObject := [(TEXT "type", TEXT "register"); (TEXT "playerId", PlayerID m)] in
    out (Socket_SendMessage (Serialize e JsonObject)).

(** TryGetStringField into a fresh FString: empty when the field is not
    found. *)
Definition FieldOrEmpty (JsonObject : FJsonObject) (Name : FString) : FString :=
  match JsonObject Name with
  | Some v => v
  | None => []
  end.

Definition HandleWebSocketMessage (Message : FString) : MM unit :=
  out (UE_LOG Warning (Tag ++ [9989]%N ++ TEXT " HandleWebSocketMessage CALLED!")) ;;
  out (UE_LOG Warning (Tag ++ TEXT "Raw message: " ++ Message)) ;;
  e <- env ;; m <- get ;;
  match Deserialize e Message with
  | None => out (UE_LOG Error (Tag ++ TEXT "Failed to parse message"))
  | Some JsonObject =>
      match JsonObject (TEXT "type") with
      | None => ret tt
      | Some MessageType =>
          out (UE_LOG Log (Tag ++ TEXT "Received message type: " ++ MessageType)) ;;
          if Equals MessageType (TEXT "connected") then
            let ClientId := FieldOrEmpty JsonObject (TEXT "clientId") in
            out (UE_LOG Warning Rule) ;;
            out (UE_LOG Warning (Tag ++ [9989]%N ++ TEXT " CONNECTION CONFIRMED")) ;;
            out (UE_LOG Warning (Tag ++ TEXT "Client ID: " ++ ClientId)) ;;
            out (UE_LOG Warning Rule) ;;
            RegisterPlayer
          else if Equals MessageType (TEXT "registered") then
            let PlayerId := FieldOrEmpty JsonObject (TEXT "playerId") in
            out (UE_LOG Warning Rule) ;;
            out (UE_LOG Warning (Tag ++ [9989]%N ++ TEXT " PLAYER REGISTERED")) ;;
            out (UE_LOG Warning (Tag ++ TEXT "Player ID: " ++ PlayerId)) ;;
            out (UE_LOG Warning (Tag ++ [55356; 57262]%N ++ TEXT " READY TO CHAT!")) ;;
            out (UE_LOG Warning Rule) ;;
            out (SetTimer 2 false (DeferSendTestMessage (TEXT "Hello from Unreal Engine!")))
          else if Equals MessageType (TEXT "chat_response") then
            match JsonObject (TEXT "text") with
            | Some ResponseText =>
                out (UE_LOG Warning Rule) ;;
                out (UE_LOG Warning (Tag ++ [55358; 56598]%N ++ TEXT " AI RESPONSE RECEIVED")) ;;
                out (UE_LOG Warning Rule) ;;
                out (UE_LOG Display ResponseText) ;;
                out (UE_LOG Warning Rule) ;;
                when (MemoryManager m)
                  (out (Memory_AddConversation (TEXT "Assistant") ResponseText (TEXT ""))) ;;
                out (OnAIResponseReceived ResponseText)
            | None => ret tt
            end
          else if Equals MessageType (TEXT "voice_processed") then
            let Transcription := FieldOrEmpty JsonObject (TEXT "transcription") in
            let AIResponse := FieldOrEmpty JsonObject (TEXT "aiResponse") in
            out (UE_LOG Warning Rule) ;;
            out (UE_LOG Warning (Tag ++ [55356; 57252]%N ++ TEXT " VOICE PROCESSED")) ;;
            out (UE_LOG Warning (Tag ++ TEXT "Transcription: " ++ Transcription)) ;;
            when (negb (IsEmpty AIResponse))
              (out (UE_LOG Warning (Tag ++ TEXT "AI Response: " ++ AIResponse))) ;;
            out (UE_LOG Warning Rule)
          else if Equals MessageType (TEXT "error") then
            let ErrorMsg := FieldOrEmpty JsonObject (TEXT "error") in
            out (UE_LOG Error Rule) ;;
            out (UE_LOG Error (Tag ++ [10060]%N ++ TEXT " ERROR FROM BACKEND")) ;;
            out (UE_LOG Error (Tag ++ TEXT "Error: " ++ ErrorMsg)) ;;
            out (UE_LOG Error Rule)
          else if Equals MessageType (TEXT "pong") then
            out (UE_LOG Log (Tag ++ TEXT "Pong received (connection alive)"))
          else
            out (UE_LOG Log (Tag ++ TEXT "Unhandled message type: " ++ MessageType))
      end
  end.

Definition HandleConnectionStatusChange (bConnected : bool) : MM unit :=
  modify (set_bIsConnected bConnected) ;;
  (if bConnected then
     out (UE_LOG Warning Rule) ;;
     out (UE_LOG Warning (Tag ++ TEXT "*** CONNECTED TO BACKEND! ***")) ;;
     out (UE_LOG Warning Rule)
   else
     out (UE_LOG Warning Rule) ;;
     out (UE_LOG Warning (Tag ++ TEXT "*** DISCONNECTED FROM BACKEND ***")) ;;
     out (UE_LOG Warning Rule)) ;;
  out (OnConnectionStatusChanged bConnected).

Definition HandleWebSocketError (ErrorMessage : FString) : MM unit :=
  out (UE_LOG Error Rule) ;;
  out (UE_LOG Error (Tag ++ [10060]%N ++ TEXT " WEBSOCKET ERROR")) ;;
  out (UE_LOG Error (Tag ++ TEXT "Error: " ++ ErrorMessage)) ;;
  out (UE_LOG Error Rule) ;;
  modify (set_bIsConnected false) ;;
  out (OnConnectionStatusChanged false).

(** Everything that can happen to the actor: the engine's lifecycle calls,
    the public functions, the three delegate handlers and the timer. *)
Inductive Call :=
| CallBeginPlay
| CallEndPlay
| CallConnectToBackend
| CallDisconnectFromBackend
| CallSendChatMessage (Message : FString)
| CallSendTestMessage (Message : FString)
| CallStartVoiceRecording
| CallStopVoiceRecording
| CallAddMemory (Key Value : FString)
| CallGetMemory (Key : FString)
| OnSocketMessage (Message : FString)
| OnSocketConnected (bConnected : bool)
| OnSocketError (ErrorMessage : FString)
| TimerFires (Callback : Deferred).

Definition run (c : Call) : MM unit :=
  match c with
  | CallBeginPlay => BeginPlay
  | CallEndPlay => EndPlay
  | CallConnectToBackend => ConnectToBackend
  | CallDisconnectFromBackend => DisconnectFromBackend
  | CallSendChatMessage Message => SendChatMessage Message
  | CallSendTestMessage Message => SendTestMessage Message
  | CallStartVoiceRecording => StartVoiceRecording
  | CallStopVoiceRecording => StopVoiceRecording
  | CallAddMemory Key Value => AddMemory Key Value
  | CallGetMemory Key => _ <- GetMemory Key ;; ret tt
  | OnSocketMessage Message => HandleWebSocketMessage Message
  | OnSocketConnected bConnected => HandleConnectionStatusChange bConnected
  | OnSocketError ErrorMessage => HandleWebSocketError ErrorMessage
  | TimerFires (DeferSendTestMessage Message) => SendTestMessage Message
  end.

Definition manager_of {A} (r : A * Manager * list Out) : Manager := snd (fst r).
Definition outputs {A} (r : A * Manager * list Out) : list Out := snd r.
Definition value {A} (r : A * Manager * list Out) : A := fst (fst r).

Fixpoint session (cs : list (Env * Call)) (m : Manager) : Manager * list Out :=
  match cs with
  | [] => (m, [])
  | (e, c) :: rest =>
      let r := run c e m in
      let '(m', t) := session rest (manager_of r) in
      (m', outputs r ++ t)
  end.

(** ** Reading the manager's trace *)

Definition IsLog (x : Out) : bool :=
  match x with UE_LOG _ _ => true | _ => false end.

(** The outputs apart from log lines. *)
Definition Actions (t : list Out) : list Out := filter (fun x => negb (IsLog x)) t.

Definition SentToSocket (t : list Out) : list FString :=
  flat_map (fun x => match x with Socket_SendMessage j => [j] | _ => [] end) t.

Definition StatusBroadcasts (t : list Out) : list bool :=
  flat_map (fun x => match x with OnConnectionStatusChanged b => [b] | _ => [] end) t.

(** The connection state the socket last reported through its delegates, if
    it reported any: an error counts as a disconnect. *)
Fixpoint LastReport (cs : list (Env * Call)) (before : bool) : bool :=
  match cs with
  | [] => before
  | (_, OnSocketConnected b) :: rest => LastReport rest b
  | (_, OnSocketError _) :: rest => LastReport rest false
  | _ :: rest => LastReport rest before
  end.

(** The status changes the socket reported, in order. *)
Fixpoint Reports (cs : list (Env * Call)) : list bool :=
  match cs with
  | [] => []
  | (_, OnSocketConnected b) :: rest => b :: Reports rest
  | (_, OnSocketError _) :: rest => false :: Reports rest
  | _ :: rest => Reports rest
  end.

(** A call that can reach the socket's SendMessage. *)
Definition MaySend (c : Call) : bool :=
  match c with
  | CallSendChatMessage _ | CallSendTestMessage _ | OnSocketMessage _
  | TimerFires _ => true
  | _ => false
  end.

End AAICompanionManager.

(** ** The validation rules in the words of the specification

    The table of per-state rules, read without looking at the code: a name
    needs two characters after trimming; a date needs one of the
    relative-date phrases (today, tomorrow), in any letter case; a duration
    and a priority take their number from the first run of digits of the
    answer (0 when there is none), which must be positive for a duration and
    lie between 1 and 10 for a priority; a location or a note is never
    turned down.  Idle has no rule, and in Confirming an answer that is not
    affirmative declines instead of failing. *)

Definition SpecNumber (Answer : FString) : Z := decimal (first_digit_run Answer).

Definition Mentions (Answer : FString) (phrase : string) : bool :=
  Contains Answer (TEXT phrase).

Definition FailsValidation (s : ECalendarDialogueState) (Answer : FString) : bool :=
  match s with
  | AskingEventName => Len (TrimStartAndEnd Answer) <? 2
  | AskingDateTime => negb (Mentions Answer "today" || Mentions Answer "tomorrow")
  | AskingDuration => SpecNumber Answer <=? 0
  | AskingPriority => (SpecNumber Answer <? 1) || (10 <? SpecNumber Answer)
  | AskingLocation | AskingNotes => false
  | Idle | Confirming | Creating | Complete => false
  end.

(** ** Handlers that call back

    A delegate is broadcast synchronously: the code bound to OnAskQuestion,
    OnEventCreated or OnFlowCancelled runs inside the member function that
    broadcasts, and nothing stops it from calling StartEventCreation,
    ProcessUserResponse or CancelFlow on the component before it returns.
    To follow such calls the member functions are written once more, over
    any monad that offers the primitives they use; the monad of the first
    part is one instance, the one with handlers below is another. *)

Module WithHandlers.

(** The members CurrentState and EventData, the outputs, the clock and
    the actors of the level, and the sequencing of statements. *)
Class Component (M : Type -> Type) := {
  get_CurrentState : M ECalendarDialogueState;
  set_CurrentState : ECalendarDialogueState -> M unit;
  get_EventData : M FCalendarEventData;
  put_EventData : FCalendarEventData -> M unit;
  update_EventData : (FCalendarEventData -> FCalendarEventData) -> M unit;
  emit : Effect -> M unit;
  FDateTime_Now : M FDateTime.t;
  GetAllActorsOfClass : M (list (option nat));
  ret : forall {A}, A -> M A;
  bind : forall {A B}, M A -> (A -> M B) -> M B
}.

Section Members.

Context {M : Type -> Type} {component : Component M}.

Declare Scope member_scope.
Notation "x <- m ;; k" := (@bind M component _ _ m (fun x => k))
  (at level 61, m at next level, right associativity) : member_scope.
Notation "m ;; k" := (@bind M component _ _ m (fun _ => k))
  (at level 61, right associativity) : member_scope.
Local Open Scope member_scope.

Definition LogCalendar (Message : FString) (bWarning : bool) : M unit :=
  if bWarning
  then emit (UE_LOG Warning (TEXT "[CalendarDialogue] " ++ Message))
  else emit (UE_LOG Log (TEXT "[CalendarDialogue] " ++ Message)).

Definition ParseDateTime (Input : FString) : M FDateTime.t :=
  let Lower := TrimStartAndEnd (ToLower Input) in
  Now <- FDateTime_Now ;;
  if Contains Lower (TEXT "tomorrow") then
    let Result := FDateTime.AddDays Now 1 in
    if Contains Lower (TEXT "at") then
      let Hour :=
        if Contains Lower (TEXT "pm") then
          let Hour := ExtractNumber Lower in
          if Hour <? 12 then Hour + 12 else Hour
        else if Contains Lower (TEXT "am") then ExtractNumber Lower
        else 12 in
      ret (FDateTime.Make (FDateTime.GetDate Result) Hour 0 0)
    else ret Result
  else if Contains Lower (TEXT "today") then
    let Result := Now in
    if Contains Lower (TEXT "at") then
      let Hour :=
        if Contains Lower (TEXT "pm") then
          let Hour := ExtractNumber Lower in
          if Hour <? 12 then Hour + 12 else Hour
        else if Contains Lower (TEXT "am") then ExtractNumber Lower
        else 12 in
      ret (FDateTime.Make (FDateTime.GetDate Result) Hour 0 0)
    else ret Result
  else
    LogCalendar (TEXT "Could not parse datetime: " ++ Input) true ;;
    ret FDateTime.MinValue.

Definition AskCurrentQuestion : M unit :=
  s <- get_CurrentState ;;
  let ask (Question : FString) : M unit :=
    LogCalendar (TEXT "Asking: " ++ Question) false ;;
    emit (OnAskQuestion Question) in
  match s with
  | AskingEventName => ask (TEXT "What would you like to call this event?")
  | AskingDateTime =>
      ask (TEXT "When would you like to schedule it? (e.g., 'tomorrow at 2pm', 'November 5 at 3:30pm')")
  | AskingDuration => ask (TEXT "How long will it take? (e.g., '1 hour', '30 minutes')")
  | AskingLocation => ask (TEXT "Where will this take place? (or say 'none')")
  | AskingNotes => ask (TEXT "Any notes or details? (or say 'none')")
  | AskingPriority =>
      ask (TEXT "How important is this event? (1-10, where 10 is most important)")
  | Confirming => d <- get_EventData ;; ask (GenerateConfirmationMessage d)
  | _ => ret tt
  end.

Definition CancelFlow : M unit :=
  LogCalendar (TEXT "Calendar flow cancelled") false ;;
  set_CurrentState Idle ;;
  put_EventData DefaultEventData ;;
  emit OnFlowCancelled.

Definition StartEventCreation : M unit :=
  LogCalendar (TEXT "Starting calendar event creation flow") false ;;
  put_EventData DefaultEventData ;;
  update_EventData (set_bIsValid false) ;;
  set_CurrentState AskingEventName ;;
  AskCurrentQuestion.

Definition ProcessEventName (Answer : FString) : M bool :=
  if IsEmpty Answer || (Len Answer <? 2) then ret false
  else
    update_EventData (set_EventName (TrimStartAndEnd Answer)) ;;
    d <- get_EventData ;;
    LogCalendar (TEXT "Event name set: " ++ EventName d) false ;;
    ret true.

Definition ProcessDateTime (Answer : FString) : M bool :=
  ParsedDateTime <- ParseDateTime Answer ;;
  if ParsedDateTime =? FDateTime.MinValue then ret false
  else
    update_EventData (set_DateTime ParsedDateTime) ;;
    d <- get_EventData ;;
    LogCalendar (TEXT "DateTime set: " ++ FDateTime.ToString (DateTime d)) false ;;
    ret true.

Definition ProcessDuration (Answer : FString) : M bool :=
  let Minutes := ParseDuration Answer in
  if Minutes <=? 0 then ret false
  else
    update_EventData (set_DurationMinutes Minutes) ;;
    d <- get_EventData ;;
    LogCalendar (TEXT "Duration set: " ++ FromInt (DurationMinutes d) ++ TEXT " minutes") false ;;
    ret true.

Definition ProcessLocation (Answer : FString) : M bool :=
  let Trimmed := ToLower (TrimStartAndEnd Answer) in
  (if IsSkipWord Trimmed then
     update_EventData (set_Location (TEXT "")) ;;
     LogCalendar (TEXT "Location: none") false
   else
     update_EventData (set_Location (TrimStartAndEnd Answer)) ;;
     d <- get_EventData ;;
     LogCalendar (TEXT "Location set: " ++ Location d) false) ;;
  ret true.

Definition ProcessNotes (Answer : FString) : M bool :=
  let Trimmed := ToLower (TrimStartAndEnd Answer) in
  (if IsSkipWord Trimmed then
     update_EventData (set_Notes (TEXT "")) ;;
     LogCalendar (TEXT "Notes: none") false
   else
     update_EventData (set_Notes (TrimStartAndEnd Answer)) ;;
     d <- get_EventData ;;
     LogCalendar (TEXT "Notes set: " ++ Notes d) false) ;;
  ret true.

Definition ProcessPriority (Answer : FString) : M bool :=
  let Priority' := ExtractNumber Answer in
  if (Priority' <? 1) || (Priority' >? 10) then ret false
  else
    update_EventData (set_Priority Priority') ;;
    d <- get_EventData ;;
    LogCalendar (TEXT "Priority set: " ++ FromInt (Priority d)) false ;;
    ret true.

Definition ProcessConfirmation (Answer : FString) : M bool :=
  let bConfirmed := IsAffirmative Answer in
  if negb bConfirmed then
    LogCalendar (TEXT "Event creation cancelled by user") false ;;
    CancelFlow ;;
    ret false
  else
    LogCalendar (TEXT "Event confirmed by user") false ;;
    update_EventData (set_bIsValid true) ;;
    ret true.

Definition ProcessAnswer (Answer : FString) : M bool :=
  s <- get_CurrentState ;;
  match s with
  | AskingEventName => ProcessEventName Answer
  | AskingDateTime => ProcessDateTime Answer
  | AskingDuration => ProcessDuration Answer
  | AskingLocation => ProcessLocation Answer
  | AskingNotes => ProcessNotes Answer
  | AskingPriority => ProcessPriority Answer
  | Confirming => ProcessConfirmation Answer
  | _ => ret false
  end.

Definition SendEventToBackend : M unit :=
  LogCalendar (TEXT "Sending event to backend...") false ;;
  Found <- GetAllActorsOfClass ;;
  match Found with
  | [] => LogCalendar (TEXT "ERROR: Could not find AICompanionManager!") true
  | None :: _ => LogCalendar (TEXT "ERROR: Failed to cast to AICompanionManager!") true
  | Some Manager :: _ =>
      d <- get_EventData ;;
      emit (SendMessageToBackend Manager (BuildEventJSON d)) ;;
      LogCalendar (TEXT "Event sent to backend successfully") false ;;
      d <- get_EventData ;;
      emit (OnEventCreated d)
  end.

Definition AdvanceToNextState : M unit :=
  s <- get_CurrentState ;;
  match s with
  | AskingEventName => set_CurrentState AskingDateTime ;; AskCurrentQuestion
  | AskingDateTime => set_CurrentState AskingDuration ;; AskCurrentQuestion
  | AskingDuration => set_CurrentState AskingLocation ;; AskCurrentQuestion
  | AskingLocation => set_CurrentState AskingNotes ;; AskCurrentQuestion
  | AskingNotes => set_CurrentState AskingPriority ;; AskCurrentQuestion
  | AskingPriority => set_CurrentState Confirming ;; AskCurrentQuestion
  | Confirming =>
      set_CurrentState Creating ;;
      SendEventToBackend ;;
      set_CurrentState Complete ;;
      set_CurrentState Idle
  | _ => set_CurrentState Idle
  end.

Definition ProcessUserResponse (Response : FString) : M unit :=
  s <- get_CurrentState ;;
  if state_eqb s Idle then
    LogCalendar (TEXT "Received response but not in calendar flow - ignoring") true
  else
    LogCalendar (TEXT "Processing response in state " ++ FromInt (StateIndex s)
                 ++ TEXT ": " ++ Response) false ;;
    bSuccess <- ProcessAnswer Response ;;
    if bSuccess then AdvanceToNextState
    else
      LogCalendar (TEXT "Invalid answer, asking again") true ;;
      AskCurrentQuestion.

Definition run (c : Call) : M unit :=
  match c with
  | CallStartEventCreation => StartEventCreation
  | CallProcessUserResponse Response => ProcessUserResponse Response
  | CallCancelFlow => CancelFlow
  end.

End Members.

(** *** Calls made from handlers

    What happens around the component is recorded as it happens: every
    effect with the members at that instant, and every return of a public
    call with the members it was entered with and those it leaves. *)

Inductive Observation :=
| Emitted (x : Emission)
| Returned (c : Call) (entered exited : Engine).

Section Handlers.

(** The code bound to the component's outputs, with a state [H] of its
    own (a count of the deliveries so far is enough to let it act
    differently each time).  When an effect reaches it, it reads the
    members through the getters and answers with the public calls it makes
    before it returns, each with the world the call finds.  Log lines and
    the call into the manager are delivered like the broadcasts: what runs
    behind them is outside the component as well. *)
Variable H : Type.
Variable handler : H -> Effect -> Engine -> H * list (World * Call).

Definition R (A : Type) : Type :=
  World -> Engine * H -> A * (Engine * H) * list Observation.

Definition on_engine {A : Type} (f : World -> Engine -> A * Engine) : R A :=
  fun w s => let '(a, e) := f w (fst s) in (a, (e, snd s), []).

(** The public calls [cs], one after the other, each followed by the record
    of its return. *)
Fixpoint calls (runc : Call -> R unit) (cs : list (World * Call)) (s : Engine * H)
  : (Engine * H) * list Observation :=
  match cs with
  | [] => (s, [])
  | (w, c) :: rest =>
      let '(_, s1, t1) := runc c w s in
      let '(s2, t2) := calls runc rest s1 in
      (s2, t1 ++ Returned c (fst s) (fst s1) :: t2)
  end.

Definition Handled (broadcast : Effect -> R unit) : Component R := {|
  ret := fun A a _ s => (a, s, []);
  bind := fun A B m f w s =>
    let '(a, s1, t1) := m w s in
    let '(b, s2, t2) := f a w s1 in
    (b, s2, t1 ++ t2);
  get_CurrentState := on_engine (fun _ e => (CurrentState e, e));
  set_CurrentState := fun s' => on_engine (fun _ e => (tt, mkEngine s' (EventData e)));
  get_EventData := on_engine (fun _ e => (EventData e, e));
  put_EventData := fun d => on_engine (fun _ e => (tt, mkEngine (CurrentState e) d));
  update_EventData := fun f =>
    on_engine (fun _ e => (tt, mkEngine (CurrentState e) (f (EventData e))));
  emit := broadcast;
  FDateTime_Now := on_engine (fun w e => (Now w, e));
  GetAllActorsOfClass := on_engine (fun w e => (FoundActors w, e))
|}.

(** An effect goes out: it is recorded with the members of that instant,
    the handler runs and the calls it makes are carried out then and there,
    with the same handler behind them.  [depth] bounds how deep calls made
    from handlers may nest, as the call stack does; at depth 0 the handler
    is not run. *)
Fixpoint broadcast (depth : nat) (x : Effect) : R unit :=
  fun w s =>
    let here := Emitted (mkEmission (fst s) x) in
    match depth with
    | O => (tt, s, [here])
    | S deeper =>
        let '(h, cs) := handler (snd s) x (fst s) in
        let '(s', t) := calls (@run R (Handled (broadcast deeper))) cs (fst s, h) in
        (tt, s', here :: t)
    end.

(** Calls made from outside, one after the other. *)
Definition session (depth : nat) (cs : list (World * Call)) (s : Engine * H)
  : (Engine * H) * list Observation :=
  calls (@run R (Handled (broadcast depth))) cs s.

End Handlers.

End WithHandlers.

(** The monad of the first part as an instance: no handler calls back. *)
Definition Plain : WithHandlers.Component M := {|
  WithHandlers.ret := @ret;
  WithHandlers.bind := @bind;
  WithHandlers.get_CurrentState := get_CurrentState;
  WithHandlers.set_CurrentState := set_CurrentState;
  WithHandlers.get_EventData := get_EventData;
  WithHandlers.put_EventData := put_EventData;
  WithHandlers.update_EventData := update_EventData;
  WithHandlers.emit := emit;
  WithHandlers.FDateTime_Now := FDateTime_Now;
  WithHandlers.GetAllActorsOfClass := GetAllActorsOfClass
|}.

(** *** What may be observed *)

Definition NotComplete (s : ECalendarDialogueState) : bool :=
  negb (state_eqb s Complete).

(** An effect is issued in a state [SeenOk] allows.  A public call is never
    entered or left in Complete, and a call entered in one of the eight
    states of the flow is left in one of them. *)
Definition ObservationOk (o : WithHandlers.Observation) : bool :=
  match o with
  | WithHandlers.Emitted x => SeenOk x
  | WithHandlers.Returned _ entered exited =>
      NotComplete (CurrentState entered)
      && NotComplete (CurrentState exited)
      && implb (Observable (CurrentState entered)) (Observable (CurrentState exited))
  end.

(** The states a member function may run in: the eight of the flow when
    [strict], those and Creating otherwise. *)
Definition Allowed (strict : bool) (s : ECalendarDialogueState) : bool :=
  if strict then Observable s else NotComplete s.

(** A handler of OnEventCreated that answers the broadcast with one more
    ProcessUserResponse, and one that restarts the flow from there. *)
Definition AnswersCreated (_ : unit) (x : Effect) (_ : Engine)
  : unit * list (World * Call) :=
  match x with
  | OnEventCreated _ =>
      (tt, [(WorldWithManager, CallProcessUserResponse (TEXT "thanks"))])
  | _ => (tt, [])
  end.

Definition RestartsOnCreated (_ : unit) (x : Effect) (_ : Engine)
  : unit * list (World * Call) :=
  match x with
  | OnEventCreated _ => (tt, [(WorldWithManager, CallStartEventCreation)])
  | _ => (tt, [])
  end.

(** The returns a trace records. *)
Definition Returns (t : list WithHandlers.Observation)
  : list (Call * ECalendarDialogueState * ECalendarDialogueState) :=
  flat_map (fun o => match o with
                     | WithHandlers.Returned c entered exited =>
                         [(c, CurrentState entered, CurrentState exited)]
                     | _ => []
                     end) t.

(** The effects a trace records, with the state each was issued in. *)
Definition Emissions (t : list WithHandlers.Observation) : list Emission :=
  flat_map (fun o => match o with
                     | WithHandlers.Emitted x => [x]
                     | _ => []
                     end) t.

Definition Ok (strict : bool) (s : ECalendarDialogueState) : Prop :=
  Allowed strict s = true.

(** Started in a state that satisfies [P], the member function [m] ends in
    a state that satisfies [Q], and everything observed on the way is as
    [ObservationOk] wants it. *)
Definition Runs {H A : Type} (P : ECalendarDialogueState -> Prop)
  (m : WithHandlers.R H A) (Q : ECalendarDialogueState -> Prop) : Prop :=
  forall (w : World) (s : Engine * H),
    P (CurrentState (fst s)) ->
    Q (CurrentState (fst (snd (fst (m w s)))))
    /\ forallb ObservationOk (snd (m w s)) = true.
(** * Properties *)

(** ** ExtractNumber *)

Lemma ExtractNumber_loop_started (Input NumberStr : FString) :
  NumberStr <> [] ->
  ExtractNumber_loop Input NumberStr = NumberStr ++ take_while IsDigit Input.
Proof.
  revert NumberStr.
  induction Input as [|c rest IH]; intros acc Hacc; simpl.
  - now rewrite app_nil_r.
  - destruct (IsDigit c) eqn:Hc.
    + rewrite IH by (destruct acc; discriminate).
      now rewrite <- app_assoc.
    + destruct acc; [congruence|]. simpl. now rewrite app_nil_r.
Qed.

Lemma ExtractNumber_loop_run (Input : FString) :
  ExtractNumber_loop Input [] = first_digit_run Input.
Proof.
  unfold first_digit_run.
  induction Input as [|c rest IH]; simpl; [reflexivity|].
  unfold NotDigit at 1.
  destruct (IsDigit c) eqn:Hc; simpl.
  - rewrite Hc. now rewrite ExtractNumber_loop_started by discriminate.
  - exact IH.
Qed.

Lemma take_drop_while (p : TCHAR -> bool) (s : FString) :
  take_while p s ++ drop_while p s = s.
Proof.
  induction s as [|c rest IH]; simpl; [reflexivity|].
  destruct (p c); simpl; [now rewrite IH | reflexivity].
Qed.

Lemma take_while_all (p : TCHAR -> bool) (s : FString) :
  forallb p (take_while p s) = true.
Proof.
  induction s as [|c rest IH]; simpl; [reflexivity|].
  destruct (p c) eqn:Hc; simpl; [now rewrite Hc | reflexivity].
Qed.

Lemma drop_while_head (p : TCHAR -> bool) (s : FString) :
  match drop_while p s with
  | c :: _ => p c = false
  | [] => True
  end.
Proof.
  induction s as [|c rest IH]; simpl; [exact I|].
  destruct (p c) eqn:Hc; [exact IH | exact Hc].
Qed.

Lemma drop_while_none (p : TCHAR -> bool) (s : FString) :
  existsb (fun c => negb (p c)) s = false -> drop_while p s = [].
Proof.
  induction s as [|c rest IH]; simpl; [reflexivity|].
  destruct (p c); simpl; [exact IH | discriminate].
Qed.

Lemma digits_value_fold (run : FString) (acc : Z) :
  forallb IsDigit run = true ->
  digits_value run acc = fold_left (fun a c => a * 10 + (Z.of_N c - 48)) run acc.
Proof.
  revert acc.
  induction run as [|c rest IH]; intros acc H; simpl in *; [reflexivity|].
  apply andb_true_iff in H as [Hc Hrest].
  rewrite Hc. now apply IH.
Qed.

Lemma Atoi_digit_run (run : FString) :
  run <> [] -> forallb IsDigit run = true -> Atoi run = clamp32 (decimal run).
Proof.
  intros Hne Hall. unfold Atoi, decimal.
  destruct run as [|c rest]; [congruence|].
  simpl in Hall. apply andb_true_iff in Hall as [Hc Hrest].
  assert (Hws : IsWhitespace c = false).
  { unfold IsDigit in Hc. unfold IsWhitespace.
    apply andb_true_iff in Hc as [H1 H2].
    apply N.leb_le in H1. apply N.leb_le in H2.
    destruct (N.eqb_spec c 32); [lia|].
    destruct (N.leb_spec 9 c); destruct (N.leb_spec c 13); simpl; try reflexivity; lia. }
  cbn [TrimStart]. rewrite Hws.
  assert (Hval : digits_value (c :: rest) 0
                 = fold_left (fun a c => a * 10 + (Z.of_N c - 48)) (c :: rest) 0).
  { apply digits_value_fold. simpl. now rewrite Hc. }
  unfold IsDigit in Hc. apply andb_true_iff in Hc as [H1 H2].
  apply N.leb_le in H1. apply N.leb_le in H2.
  destruct (N.eqb_spec c 45); [lia|].
  destruct (N.eqb_spec c 43); [lia|].
  destruct c as [|p]; [lia|].
  do 6 (destruct p as [p|p|]; try (now rewrite Hval); try lia).
Qed.

Lemma first_digit_run_empty (Input : FString) :
  existsb IsDigit Input = false -> first_digit_run Input = [].
Proof.
  intros H. unfold first_digit_run.
  rewrite drop_while_none; [reflexivity|].
  induction Input as [|c rest IH]; simpl in *; [reflexivity|].
  apply orb_false_iff in H as [Hc Hrest].
  unfold NotDigit at 1. rewrite Hc. simpl. now apply IH.
Qed.

Lemma first_digit_run_nonempty (Input : FString) :
  existsb IsDigit Input = true -> first_digit_run Input <> [].
Proof.
  unfold first_digit_run.
  induction Input as [|c rest IH]; simpl; [discriminate|].
  unfold NotDigit at 1.
  destruct (IsDigit c) eqn:Hc; simpl.
  - rewrite Hc. discriminate.
  - exact IH.
Qed.

Lemma ExtractNumber_value (Input : FString) :
  ExtractNumber Input
  = (if existsb IsDigit Input then clamp32 (decimal (first_digit_run Input)) else 0).
Proof.
  unfold ExtractNumber. rewrite ExtractNumber_loop_run.
  destruct (existsb IsDigit Input) eqn:Hd.
  - pose proof (first_digit_run_nonempty Input Hd) as Hne.
    destruct (first_digit_run Input) eqn:Hrun; [congruence|].
    cbn [IsEmpty]. rewrite <- Hrun in *.
    apply Atoi_digit_run; [exact Hne | apply take_while_all].
  - now rewrite first_digit_run_empty.
Qed.

(** C8. ExtractNumber scans left to right: the input splits into text
    without digits, the first maximal run of digits (what the loop
    collects), and a rest that is empty or starts with a non-digit, where
    the scan stops.  The result is the decimal value of that run (within
    int32), and 0 when the input has no digit.  On "abc 2pm and 30 min" it
    is 2 and on "no digits" it is 0. *)
Theorem ExtractNumber_first_digit_run (Input : FString) :
  Input = before_run Input ++ first_digit_run Input ++ after_run Input
  /\ forallb NotDigit (before_run Input) = true
  /\ forallb IsDigit (first_digit_run Input) = true
  /\ match after_run Input with c :: _ => IsDigit c = false | [] => True end
  /\ ExtractNumber_loop Input [] = first_digit_run Input
  /\ ExtractNumber Input
     = (if existsb IsDigit Input then clamp32 (decimal (first_digit_run Input)) else 0)
  /\ ExtractNumber (TEXT "abc 2pm and 30 min") = 2
  /\ ExtractNumber (TEXT "no digits") = 0.
Proof.
  repeat split.
  - unfold before_run, first_digit_run, after_run.
    now rewrite !take_drop_while.
  - apply take_while_all.
  - apply take_while_all.
  - apply drop_while_head.
  - apply ExtractNumber_loop_run.
  - apply ExtractNumber_value.
Qed.

(** ** ParseDuration *)

(** C7. ParseDuration gives 60 for "1 hour", 30 for "30 minutes", 45 for
    "45" and 0 for "banana".  In general, with N the number extracted from
    the lowered and trimmed text: a non-positive N gives 0; a positive N is
    multiplied by 60 when the text contains "hour" (the product taken in
    int32, exact while it fits), and is returned as minutes otherwise,
    whether "minute" / "min" or no unit is present. *)
Theorem ParseDuration_rule (Input : FString) :
  let Lower := TrimStartAndEnd (ToLower Input) in
  let N := ExtractNumber Lower in
  ParseDuration (TEXT "1 hour") = 60
  /\ ParseDuration (TEXT "30 minutes") = 30
  /\ ParseDuration (TEXT "45") = 45
  /\ ParseDuration (TEXT "banana") = 0
  /\ (N <= 0 -> ParseDuration Input = 0)
  /\ (existsb IsDigit Lower = false -> ParseDuration Input = 0)
  /\ (0 < N -> Contains Lower (TEXT "hour") = true ->
      ParseDuration Input = wrap32 (N * 60)
      /\ (N * 60 <= INT32_MAX -> ParseDuration Input = N * 60))
  /\ (0 < N -> Contains Lower (TEXT "hour") = false ->
      ParseDuration Input = N).
Proof.
  intros Lower N.
  repeat match goal with |- _ /\ _ => split end; try reflexivity.
  - intros HN. unfold ParseDuration. fold Lower. fold N.
    apply Z.leb_le in HN. now rewrite HN.
  - intros Hd. unfold ParseDuration. fold Lower.
    rewrite (ExtractNumber_value Lower), Hd. reflexivity.
  - intros HN Hh.
    assert (Hpos : (N <=? 0) = false) by now apply Z.leb_gt.
    assert (HP : ParseDuration Input = wrap32 (N * 60)).
    { unfold ParseDuration. fold Lower. fold N. now rewrite Hpos, Hh. }
    split; [exact HP|].
    intros Hfit. rewrite HP. unfold wrap32, INT32_MAX in *.
    rewrite Z.mod_small by lia. lia.
  - intros HN Hh. unfold ParseDuration. fold Lower. fold N.
    apply Z.leb_gt in HN. rewrite HN, Hh.
    now destruct (Contains Lower (TEXT "minute") || Contains Lower (TEXT "min")).
Qed.

Lemma ParseDuration_rule_witness :
  ParseDuration (TEXT "2 Hours") = 120
  /\ ParseDuration (TEXT "about 90 min") = 90
  /\ ParseDuration (TEXT "0 hours") = 0.
Proof.
  split; [|split].
  - destruct (ParseDuration_rule (TEXT "2 Hours")) as (_ & _ & _ & _ & _ & _ & H & _).
    apply H; vm_compute; [reflexivity | reflexivity | discriminate].
  - destruct (ParseDuration_rule (TEXT "about 90 min")) as (_ & _ & _ & _ & _ & _ & _ & H).
    apply H; vm_compute; reflexivity.
  - destruct (ParseDuration_rule (TEXT "0 hours")) as (_ & _ & _ & _ & H & _).
    apply H; vm_compute; discriminate.
Defined.

Lemma ProcessEventName_result (Answer : FString) (w : World) (e : Engine) :
  result (ProcessEventName Answer w e) = (2 <=? Len Answer)
  /\ (2 <= Len Answer ->
      EventData (engine_of (ProcessEventName Answer w e))
      = set_EventName (TrimStartAndEnd Answer) (EventData e)).
Proof.
  unfold ProcessEventName.
  destruct Answer as [|a [|b rest]]; try (split; [reflexivity | cbn; lia]).
  assert (H : (Len (a :: b :: rest) <? 2) = false).
  { apply Z.ltb_ge. unfold Len. cbn [List.length]. lia. }
  assert (H' : (2 <=? Len (a :: b :: rest)) = true).
  { apply Z.leb_le. unfold Len. cbn [List.length]. lia. }
  rewrite H, H'. cbn [IsEmpty orb]. split; reflexivity.
Qed.

(** C6 (the code differs). ProcessEventName measures the answer before it
    trims it: the length test is on the raw text and only the stored name
    is trimmed.  An answer of two blanks trims to the empty text, yet it is
    accepted: the flow moves on to the date question and the event name is
    empty. *)
Theorem ProcessEventName_accepts_blank (w0 w1 : World) :
  let Answer := TEXT "  " in
  let r := session [(w0, CallStartEventCreation);
                    (w1, CallProcessUserResponse Answer)] Constructed in
  Len (TrimStartAndEnd Answer) = 0
  /\ result (ProcessEventName Answer w1 (engine_of (StartEventCreation w0 Constructed))) = true
  /\ CurrentState (fst r) = AskingDateTime
  /\ EventName (EventData (fst r)) = []
  /\ Questions (snd r) = [QuestionEventName; QuestionDateTime].
Proof.
  vm_compute. repeat split; reflexivity.
Qed.

(** C3 (the code differs). The payload is assembled with Printf and a bare
    %s for each text field, so nothing is escaped.  With the event name
    Lunch with "Bob" the text sent to the manager is not a JSON object,
    while the plain name Dentist gives one; a backslash at the end of the
    name breaks the payload as well, and a location that carries quotes and
    a field of its own yields the same payload as a different event. *)
Theorem BuildEventJSON_does_not_escape :
  let t := snd (session (map (pair WorldWithManager) (AnswersWith QuotedName)) Constructed) in
  Sent t = [(1%nat, BuildEventJSON (set_EventName QuotedName DentistEvent))]
  /\ IsJSONObject (BuildEventJSON (set_EventName QuotedName DentistEvent)) = false
  /\ IsJSONObject (BuildEventJSON (set_EventName (TEXT "C:\") DentistEvent)) = false
  /\ IsJSONObject (BuildEventJSON DentistEvent) = true
  /\ (let a := set_Location (TEXT "Home" ++ DQ ++ TEXT "," ++ DQ ++ TEXT "notes" ++ DQ
                             ++ TEXT ":" ++ DQ ++ TEXT "x") DentistEvent in
      let b := set_Notes (TEXT "x" ++ DQ ++ TEXT "," ++ DQ ++ TEXT "notes" ++ DQ
                          ++ TEXT ":" ++ DQ)
                 (set_Location (TEXT "Home") DentistEvent) in
      a <> b /\ BuildEventJSON a = BuildEventJSON b).
Proof.
  vm_compute. repeat split; try reflexivity. discriminate.
Qed.

(** ** The state machine *)

(** Unfold the member functions and the monad on a symbolic engine, then
    branch on every test the code makes. *)
Ltac mred :=
  cbv beta iota zeta delta
    [run ProcessUserResponse ProcessAnswer AdvanceToNextState AskCurrentQuestion
     SendEventToBackend CancelFlow StartEventCreation LogCalendar
     ProcessEventName ProcessDateTime ProcessDuration ProcessLocation
     ProcessNotes ProcessPriority ProcessConfirmation ParseDateTime
     bind ret emit get_CurrentState set_CurrentState get_EventData put_EventData
     update_EventData FDateTime_Now GetAllActorsOfClass
     GetCurrentState GetEventData
     result engine_of trace_of state_eqb fst snd
     CurrentState EventData].

Ltac msplit :=
  repeat (mred;
          match goal with
          | |- context [if ?b then _ else _] => destruct b eqn:?
          | |- context [match FoundActors ?w with _ => _ end] =>
              destruct (FoundActors w) as [|[?|] ?] eqn:?
          end);
  mred.

Lemma run_observable (w : World) (c : Call) (e : Engine) :
  Observable (CurrentState e) = true ->
  Observable (CurrentState (engine_of (run c w e))) = true
  /\ forallb SeenOk (trace_of (run c w e)) = true.
Proof.
  destruct e as [s d]. intros H.
  destruct c; destruct s; try discriminate H; clear H.
  all: msplit; split; reflexivity.
Qed.

Lemma session_observable (cs : list (World * Call)) (e : Engine) :
  Observable (CurrentState e) = true ->
  Observable (CurrentState (fst (session cs e))) = true
  /\ forallb SeenOk (snd (session cs e)) = true.
Proof.
  revert e.
  induction cs as [|[w c] rest IH]; intros e He; simpl.
  - split; [exact He | reflexivity].
  - destruct (run_observable w c e He) as [H1 H2].
    destruct (IH _ H1) as [H3 H4].
    destruct (session rest (engine_of (run c w e))) as [e' t].
    simpl in *. split; [exact H3|].
    rewrite forallb_app. now rewrite H2, H4.
Qed.

(** An answer that ProcessAnswer turns down, in any state but Confirming,
    changes nothing and asks the question of the current state again. *)
Lemma rejected_answer (w : World) (e : Engine) (Answer : FString) :
  CurrentState e <> Confirming ->
  result (ProcessAnswer Answer w e) = false ->
  engine_of (ProcessUserResponse Answer w e) = e
  /\ Questions (trace_of (ProcessUserResponse Answer w e))
     = Questions (trace_of (AskCurrentQuestion w e)).
Proof.
  destruct e as [s d]. intros Hs H. revert H.
  destruct s; try (exfalso; apply Hs; reflexivity); clear Hs.
  all: msplit; intros H; try discriminate H; split; reflexivity.
Qed.

(** The question a call leaves behind is the question of the state it
    ends in. *)
Lemma question_of_state (w0 w : World) (c : Call) (e0 : Engine) :
  Observable (CurrentState e0) = true ->
  CurrentState (engine_of (run c w0 e0)) <> Confirming ->
  Questions (trace_of (run c w0 e0))
  = Questions (trace_of (AskCurrentQuestion w (engine_of (run c w0 e0)))).
Proof.
  destruct e0 as [s d]. intros H.
  destruct c; destruct s; try discriminate H; clear H.
  all: msplit; intros H; try reflexivity; exfalso; apply H; reflexivity.
Qed.

(** Let a call of the public interface, made in one of the eight states
    of the flow, leave the component in a state other than Confirming, and
    let ProcessAnswer turn the next answer down.  Then ProcessUserResponse
    leaves CurrentState and EventData as they were and the questions it
    broadcasts are those the previous call broadcast; in every state of the
    flow (not Idle) that is exactly one question, the one asked before. *)
Lemma invalid_answer_asks_again
  (w0 w : World) (c : Call) (e0 : Engine) (Answer : FString) :
  let before := run c w0 e0 in
  let e := engine_of before in
  let after := ProcessUserResponse Answer w e in
  Observable (CurrentState e0) = true ->
  CurrentState e <> Confirming ->
  result (ProcessAnswer Answer w e) = false ->
  GetCurrentState (engine_of after) = GetCurrentState e
  /\ GetEventData (engine_of after) = GetEventData e
  /\ Questions (trace_of after) = Questions (trace_of before)
  /\ (CurrentState e <> Idle ->
      exists q, Questions (trace_of before) = [q] /\ Questions (trace_of after) = [q]).
Proof.
  intros before e after Hobs Hstate Hrej.
  destruct (rejected_answer w e Answer Hstate Hrej) as [Heng Hq].
  pose proof (question_of_state w0 w c e0 Hobs Hstate) as Hprev.
  fold before in Hprev. fold e in Hprev. fold after in Heng, Hq.
  assert (Hsame : Questions (trace_of after) = Questions (trace_of before))
    by (rewrite Hq, Hprev; reflexivity).
  repeat split.
  - now rewrite Heng.
  - now rewrite Heng.
  - exact Hsame.
  - intros Hidle. rewrite Hsame, Hprev.
    destruct (run_observable w0 c e0 Hobs) as [Hobs' _].
    fold before in Hobs'. fold e in Hobs'.
    destruct e as [s d]. simpl in *.
    destruct s; try discriminate Hobs'; try congruence;
      eexists; split; reflexivity.
Qed.

(** ** Cancelling *)

Lemma CancelFlow_run (w : World) (e : Engine) :
  engine_of (CancelFlow w e) = mkEngine Idle DefaultEventData
  /\ Cancellations (trace_of (CancelFlow w e)) = 1%nat.
Proof. split; reflexivity. Qed.

Lemma StartEventCreation_run (w : World) (e : Engine) :
  engine_of (StartEventCreation w e) = mkEngine AskingEventName DefaultEventData
  /\ Questions (trace_of (StartEventCreation w e)) = [QuestionEventName].
Proof. split; reflexivity. Qed.

Lemma decline_run (w : World) (e : Engine) (Answer : FString) :
  CurrentState e = Confirming ->
  IsAffirmative Answer = false ->
  engine_of (ProcessUserResponse Answer w e) = mkEngine Idle DefaultEventData
  /\ Cancellations (trace_of (ProcessUserResponse Answer w e)) = 1%nat
  /\ Questions (trace_of (ProcessUserResponse Answer w e)) = []
  /\ Created (trace_of (ProcessUserResponse Answer w e)) = []
  /\ Sent (trace_of (ProcessUserResponse Answer w e)) = [].
Proof.
  destruct e as [s d]. simpl. intros -> Hno.
  mred. rewrite Hno. repeat split; reflexivity.
Qed.

(** C5. From every state other than Idle, CancelFlow brings the component
    to Idle, clears EventData and broadcasts OnFlowCancelled exactly once.
    A non-affirmative answer at Confirming does the same through
    ProcessUserResponse (no question, no hand-off), and StartEventCreation
    after it gives an empty record and the first question again. *)
Theorem CancelFlow_returns_to_Idle (w : World) (e : Engine) :
  CurrentState e <> Idle ->
  let cancelled := CancelFlow w e in
  GetCurrentState (engine_of cancelled) = Idle
  /\ GetEventData (engine_of cancelled) = DefaultEventData
  /\ Cancellations (trace_of cancelled) = 1%nat
  /\ forall (w1 w2 : World) (Answer : FString),
       CurrentState e = Confirming ->
       IsAffirmative Answer = false ->
       let declined := ProcessUserResponse Answer w1 e in
       let restarted := StartEventCreation w2 (engine_of declined) in
       GetCurrentState (engine_of declined) = Idle
       /\ GetEventData (engine_of declined) = DefaultEventData
       /\ Cancellations (trace_of declined) = 1%nat
       /\ Questions (trace_of declined) = []
       /\ Created (trace_of declined) = []
       /\ GetCurrentState (engine_of restarted) = AskingEventName
       /\ GetEventData (engine_of restarted) = DefaultEventData
       /\ Questions (trace_of restarted) = [QuestionEventName].
Proof.
  intros _ cancelled.
  destruct (CancelFlow_run w e) as [He Hc]. fold cancelled in He, Hc.
  unfold GetCurrentState, GetEventData. rewrite He.
  repeat split; try exact Hc.
  all: destruct (decline_run w1 e Answer H H0) as (Hd & Hn & Hq & Hcr & _).
  all: destruct (StartEventCreation_run w2 (engine_of (ProcessUserResponse Answer w1 e)))
         as [Hs Hsq].
  all: try (rewrite Hd; reflexivity); try (rewrite Hs; reflexivity); assumption.
Qed.

Lemma CancelFlow_returns_to_Idle_witness :
  let e := mkEngine Confirming DentistEvent in
  GetCurrentState (engine_of (CancelFlow WorldWithManager e)) = Idle
  /\ GetEventData (engine_of (ProcessUserResponse (TEXT "no") WorldWithManager e))
     = DefaultEventData.
Proof.
  intros e.
  assert (Hstate : CurrentState e <> Idle) by discriminate.
  destruct (CancelFlow_returns_to_Idle WorldWithManager e Hstate) as (H1 & _ & _ & H4).
  split; [exact H1|].
  destruct (H4 WorldWithManager WorldWithManager (TEXT "no")) as (_ & H & _).
  - reflexivity.
  - reflexivity.
  - exact H.
Defined.

Lemma run_RecordAfter (w : World) (c : Call) (e : Engine) :
  RecordAfter c e (EventData (engine_of (run c w e))).
Proof.
  destruct e as [s d]. unfold RecordAfter.
  destruct c as [|Answer|]; try reflexivity.
  destruct s; try reflexivity.
  all: cbv beta iota zeta delta [CurrentState EventData].
  all: try (msplit; auto; fail).
  - msplit; auto; right; eexists; (split; [|reflexivity]);
      apply Z.eqb_neq; assumption.
  - destruct (IsAffirmative Answer) eqn:Hyes.
    + mred. rewrite Hyes. cbn [negb]. msplit; reflexivity.
    + mred. rewrite Hyes. reflexivity.
Qed.

(** C4 as stated fails: after the answer "yes" has completed the flow and
    the record has been handed off, GetEventData still returns the completed
    record, not an empty one. *)
Lemma record_kept_after_hand_off :
  let r := session (map (pair WorldWithManager) HappyPath) Constructed in
  Created (snd r) = [DentistEvent]
  /\ GetCurrentState (fst r) = Idle
  /\ GetEventData (fst r) = DentistEvent
  /\ GetEventData (fst r) <> DefaultEventData.
Proof.
  vm_compute. repeat split; try reflexivity. discriminate.
Qed.

(** C4, amended. EventData is reset to the empty record by CancelFlow, by a
    non-affirmative answer at Confirming (which cancels) and by
    StartEventCreation.  No other call resets it: an answer in a question
    state changes at most the field asked for, an answer in Idle changes
    nothing, and an affirmative answer at Confirming, whatever becomes of
    the hand-off, leaves the record in place with bIsValid set, so that
    GetEventData does not return an empty record afterwards. *)
Theorem EventData_reset_points (w : World) (c : Call) (e : Engine) :
  RecordAfter c e (GetEventData (engine_of (run c w e)))
  /\ forall Answer : FString,
       c = CallProcessUserResponse Answer ->
       CurrentState e = Confirming ->
       IsAffirmative Answer = true ->
       GetEventData (engine_of (run c w e)) = set_bIsValid true (EventData e)
       /\ GetEventData (engine_of (run c w e)) <> DefaultEventData.
Proof.
  pose proof (run_RecordAfter w c e) as H.
  split; [exact H|].
  intros Answer -> Hs Hyes.
  unfold RecordAfter in H. rewrite Hs, Hyes in H.
  unfold GetEventData. rewrite H.
  split; [reflexivity | discriminate].
Qed.

Lemma EventData_reset_points_witness :
  GetEventData
    (engine_of (ProcessUserResponse (TEXT "yes") WorldWithManager
                  (mkEngine Confirming DentistEvent)))
  = DentistEvent.
Proof.
  destruct (EventData_reset_points WorldWithManager
              (CallProcessUserResponse (TEXT "yes"))
              (mkEngine Confirming DentistEvent)) as [_ H].
  destruct (H (TEXT "yes")) as [H1 _].
  - reflexivity.
  - reflexivity.
  - reflexivity.
  - exact H1.
Defined.

Lemma confirm_without_manager (w : World) (d : FCalendarEventData) (Answer : FString) :
  IsAffirmative Answer = true ->
  ManagerFound w = None ->
  let r := ProcessUserResponse Answer w (mkEngine Confirming d) in
  engine_of r = mkEngine Idle (set_bIsValid true d)
  /\ (In (UE_LOG Warning (TEXT "[CalendarDialogue] "
                          ++ TEXT "ERROR: Could not find AICompanionManager!"))
         (effects (trace_of r))
      \/ In (UE_LOG Warning (TEXT "[CalendarDialogue] "
                             ++ TEXT "ERROR: Failed to cast to AICompanionManager!"))
            (effects (trace_of r)))
  /\ Created (trace_of r) = []
  /\ Sent (trace_of r) = []
  /\ Cancellations (trace_of r) = 0%nat.
Proof.
  intros Hyes Hnone r. subst r. unfold ManagerFound in Hnone.
  mred. rewrite Hyes. cbn [negb]. mred.
  destruct (FoundActors w) as [|[m|] rest]; [|discriminate|].
  - repeat split; try reflexivity. left. cbn. auto 10.
  - repeat split; try reflexivity. right. cbn. auto 10.
Qed.

Lemma confirm_with_manager
  (w : World) (d : FCalendarEventData) (Answer : FString) (m : nat) :
  IsAffirmative Answer = true ->
  ManagerFound w = Some m ->
  let r := ProcessUserResponse Answer w (mkEngine Confirming d) in
  engine_of r = mkEngine Idle (set_bIsValid true d)
  /\ Created (trace_of r) = [set_bIsValid true d]
  /\ Sent (trace_of r) = [(m, BuildEventJSON (set_bIsValid true d))]
  /\ Questions (trace_of r) = []
  /\ Cancellations (trace_of r) = 0%nat.
Proof.
  intros Hyes Hm r. subst r. unfold ManagerFound in Hm.
  mred. rewrite Hyes. cbn [negb]. mred.
  destruct (FoundActors w) as [|[m'|] rest]; try discriminate.
  injection Hm as ->. repeat split; reflexivity.
Qed.

(** C9. When the answer at Confirming is affirmative and no manager is
    found (no actor, or one that does not cast), the failure is logged with
    an ERROR message, nothing is sent and OnEventCreated is not broadcast,
    and EventData is kept while the component returns to Idle:
    GetEventData returns the confirmed record, which is exactly the record,
    and builds exactly the payload, that the same call hands off when a
    manager is present. *)
Theorem hand_off_without_manager (w : World) (e : Engine) (Answer : FString) :
  CurrentState e = Confirming ->
  IsAffirmative Answer = true ->
  ManagerFound w = None ->
  let r := ProcessUserResponse Answer w e in
  let kept := GetEventData (engine_of r) in
  (In (UE_LOG Warning (TEXT "[CalendarDialogue] "
                       ++ TEXT "ERROR: Could not find AICompanionManager!"))
      (effects (trace_of r))
   \/ In (UE_LOG Warning (TEXT "[CalendarDialogue] "
                          ++ TEXT "ERROR: Failed to cast to AICompanionManager!"))
         (effects (trace_of r)))
  /\ Sent (trace_of r) = []
  /\ Created (trace_of r) = []
  /\ Cancellations (trace_of r) = 0%nat
  /\ GetCurrentState (engine_of r) = Idle
  /\ kept = set_bIsValid true (EventData e)
  /\ forall (w' : World) (m : nat),
       ManagerFound w' = Some m ->
       Created (trace_of (ProcessUserResponse Answer w' e)) = [kept]
       /\ Sent (trace_of (ProcessUserResponse Answer w' e)) = [(m, BuildEventJSON kept)].
Proof.
  destruct e as [s d]. simpl. intros -> Hyes Hnone.
  destruct (confirm_without_manager w d Answer Hyes Hnone) as (He & Hlog & Hc & Hs & Hn).
  unfold GetEventData, GetCurrentState. rewrite He. simpl.
  repeat split; try assumption.
  all: destruct (confirm_with_manager w' d Answer m Hyes H) as (_ & Hc' & Hs' & _);
    assumption.
Qed.

Lemma hand_off_without_manager_witness :
  GetEventData
    (engine_of (ProcessUserResponse (TEXT "yes") (mkWorld 0 [])
                  (mkEngine Confirming (set_bIsValid false DentistEvent))))
  = DentistEvent.
Proof.
  destruct (hand_off_without_manager (mkWorld 0 [])
              (mkEngine Confirming (set_bIsValid false DentistEvent)) (TEXT "yes"))
    as (_ & _ & _ & _ & _ & H & _).
  - reflexivity.
  - reflexivity.
  - reflexivity.
  - exact H.
Defined.

(** C10 as stated fails for Creating: on the happy path OnEventCreated is
    broadcast from SendEventToBackend, which AdvanceToNextState calls after
    it has set CurrentState to Creating, so a handler of OnEventCreated that
    calls GetCurrentState reads Creating. *)
Lemma Creating_seen_during_hand_off :
  let t := snd (session (map (pair WorldWithManager) HappyPath) Constructed) in
  In (mkEmission (mkEngine Creating DentistEvent) (OnEventCreated DentistEvent)) t
  /\ ~ NeverSeen Creating t.
Proof.
  intros t.
  assert (Hin : In (mkEmission (mkEngine Creating DentistEvent)
                      (OnEventCreated DentistEvent)) t).
  { vm_compute. repeat (first [left; reflexivity | right]). }
  split; [exact Hin|].
  intros Hnever. exact (Hnever _ Hin eq_refl).
Qed.

(** As long as no handler calls back into the component: after every call
    of a session that starts from the constructed component,
    GetCurrentState is one of Idle, the six question states and Confirming.
    Complete is never seen, not even by a handler called during a
    broadcast.  Creating is seen only during the hand-off: the only effects
    issued in that state are the log lines, the backend send and the
    OnEventCreated broadcast of SendEventToBackend. *)
Lemma states_seen_through_interface (cs : list (World * Call)) :
  let r := session cs Constructed in
  Observable (GetCurrentState (fst r)) = true
  /\ NeverSeen Complete (snd r)
  /\ forall x, In x (snd r) ->
       GetCurrentState (seen x) = Creating -> HandOffEffect (effect x) = true.
Proof.
  intros r.
  destruct (session_observable cs Constructed eq_refl) as [Hstate Hseen].
  fold r in Hstate, Hseen.
  rewrite forallb_forall in Hseen.
  split; [exact Hstate|]. split.
  - intros x Hx Hc. specialize (Hseen x Hx).
    unfold SeenOk in Hseen. unfold GetCurrentState in Hc.
    rewrite Hc in Hseen. discriminate.
  - intros x Hx Hc. specialize (Hseen x Hx).
    unfold SeenOk in Hseen. unfold GetCurrentState in Hc.
    now rewrite Hc in Hseen.
Qed.

(** ** Dates *)

Lemma GetDate_AddDays (n k : Z) :
  FDateTime.GetDate (FDateTime.AddDays n k) = FDateTime.GetDate n + k.
Proof.
  unfold FDateTime.GetDate, FDateTime.AddDays, FDateTime.TicksPerDay.
  now rewrite Z.div_add by lia.
Qed.

Lemma Make_hour (date Hour : Z) :
  0 <= Hour <= 23 ->
  FDateTime.Make date Hour 0 0
  = date * FDateTime.TicksPerDay + Hour * FDateTime.TicksPerHour.
Proof.
  intros [H0 H23]. unfold FDateTime.Make.
  apply Z.leb_le in H0. apply Z.leb_le in H23. rewrite H0, H23.
  cbn [andb Z.leb Z.compare]. unfold FDateTime.TicksPerMinute, FDateTime.TicksPerSecond.
  lia.
Qed.

(** The value built for a date and an hour reads back as that date and
    that hour, on the hour, and is not the zero value. *)
Lemma Make_reads_back (date Hour : Z) :
  0 <= Hour <= 23 ->
  FDateTime.GetDate (FDateTime.Make date Hour 0 0) = date
  /\ FDateTime.GetHour (FDateTime.Make date Hour 0 0) = Hour
  /\ FDateTime.GetMinute (FDateTime.Make date Hour 0 0) = 0
  /\ FDateTime.GetSecond (FDateTime.Make date Hour 0 0) = 0
  /\ (0 < Hour -> FDateTime.Make date Hour 0 0 <> FDateTime.MinValue).
Proof.
  intros HH. rewrite (Make_hour date Hour HH).
  unfold FDateTime.GetDate, FDateTime.GetHour, FDateTime.GetMinute,
    FDateTime.GetSecond, FDateTime.MinValue, FDateTime.TicksPerDay,
    FDateTime.TicksPerHour, FDateTime.TicksPerMinute, FDateTime.TicksPerSecond.
  repeat split.
  - symmetry. apply (Z.div_unique _ _ date (Hour * 36000000000)); lia.
  - replace (date * 864000000000 + Hour * 36000000000)
      with ((date * 24 + Hour) * 36000000000) by lia.
    rewrite Z.div_mul by lia.
    rewrite Z.add_comm, Z.mod_add by lia. apply Z.mod_small; lia.
  - replace (date * 864000000000 + Hour * 36000000000)
      with ((date * 1440 + Hour * 60) * 600000000) by lia.
    rewrite Z.div_mul by lia.
    replace (date * 1440 + Hour * 60) with (0 + (date * 24 + Hour) * 60) by lia.
    now rewrite Z.mod_add by lia.
  - replace (date * 864000000000 + Hour * 36000000000)
      with ((date * 86400 + Hour * 3600) * 10000000) by lia.
    rewrite Z.div_mul by lia.
    replace (date * 86400 + Hour * 3600) with (0 + (date * 1440 + Hour * 60) * 60) by lia.
    now rewrite Z.mod_add by lia.
  - lia.
Qed.

(** ** The happy path *)

(** Evaluate the closed tests of a call whose answer is a literal. *)
Ltac mcalc :=
  repeat (mred;
          match goal with
          | |- context [if ?b then _ else _] =>
              lazymatch b with context [Now _] => fail | _ => idtac end;
              let v := eval vm_compute in b in
              match v with
              | true => replace b with true by (vm_compute; reflexivity)
              | false => replace b with false by (vm_compute; reflexivity)
              end
          end);
  mred.

Lemma session_cons (w : World) (c : Call) (rest : list (World * Call)) (e : Engine) :
  let r := run c w e in
  let s := session rest (engine_of r) in
  fst (session ((w, c) :: rest) e) = fst s
  /\ Created (snd (session ((w, c) :: rest) e)) = Created (trace_of r) ++ Created (snd s)
  /\ Sent (snd (session ((w, c) :: rest) e)) = Sent (trace_of r) ++ Sent (snd s).
Proof.
  intros r s. subst r s. cbn [session].
  destruct (session rest (engine_of (run c w e))) as [e' t].
  cbn [fst snd]. unfold Created, Sent. rewrite !flat_map_app. auto.
Qed.

Lemma happy_start (w : World) (e : Engine) :
  engine_of (run CallStartEventCreation w e) = mkEngine AskingEventName DefaultEventData
  /\ Quiet (run CallStartEventCreation w e).
Proof. repeat split. Qed.

Lemma happy_name (w : World) (d : FCalendarEventData) :
  let r := run (CallProcessUserResponse (TEXT "Dentist")) w (mkEngine AskingEventName d) in
  engine_of r = mkEngine AskingDateTime (set_EventName (TEXT "Dentist") d) /\ Quiet r.
Proof. intros r; subst r. unfold Quiet. mcalc. repeat split. Qed.

Lemma happy_date (w : World) (d : FCalendarEventData) :
  let r := run (CallProcessUserResponse (TEXT "tomorrow at 2pm")) w (mkEngine AskingDateTime d) in
  engine_of r
  = mkEngine AskingDuration
      (set_DateTime (FDateTime.Make (FDateTime.GetDate (Now w) + 1) 14 0 0) d)
  /\ Quiet r.
Proof.
  intros r; subst r. unfold Quiet. mcalc.
  match goal with
  | |- context [ExtractNumber ?L + 12] =>
      replace (ExtractNumber L + 12) with 14 by (vm_compute; reflexivity)
  end.
  rewrite GetDate_AddDays.
  destruct (Make_reads_back (FDateTime.GetDate (Now w) + 1) 14) as (_ & _ & _ & _ & Hnz);
    [lia|].
  apply Z.eqb_neq in Hnz; [|lia]. rewrite Hnz.
  mred. repeat split.
Qed.

Lemma happy_duration (w : World) (d : FCalendarEventData) :
  let r := run (CallProcessUserResponse (TEXT "1 hour")) w (mkEngine AskingDuration d) in
  engine_of r = mkEngine AskingLocation (set_DurationMinutes 60 d) /\ Quiet r.
Proof. intros r; subst r. unfold Quiet. mcalc. repeat split. Qed.

Lemma happy_location (w : World) (d : FCalendarEventData) :
  let r := run (CallProcessUserResponse (TEXT "none")) w (mkEngine AskingLocation d) in
  engine_of r = mkEngine AskingNotes (set_Location [] d) /\ Quiet r.
Proof. intros r; subst r. unfold Quiet. mcalc. repeat split. Qed.

Lemma happy_notes (w : World) (d : FCalendarEventData) :
  let r := run (CallProcessUserResponse (TEXT "none")) w (mkEngine AskingNotes d) in
  engine_of r = mkEngine AskingPriority (set_Notes [] d) /\ Quiet r.
Proof. intros r; subst r. unfold Quiet. mcalc. repeat split. Qed.

Lemma happy_priority (w : World) (d : FCalendarEventData) :
  let r := run (CallProcessUserResponse (TEXT "8")) w (mkEngine AskingPriority d) in
  engine_of r = mkEngine Confirming (set_Priority 8 d) /\ Quiet r.
Proof. intros r; subst r. unfold Quiet. mcalc. repeat split. Qed.

Lemma quiet_step
  (w : World) (c : Call) (rest : list (World * Call)) (e e' : Engine) :
  engine_of (run c w e) = e' /\ Quiet (run c w e) ->
  summary (session ((w, c) :: rest) e) = summary (session rest e').
Proof.
  intros (He & Hc & Hs).
  destruct (session_cons w c rest e) as (H1 & H2 & H3).
  unfold summary. rewrite H1, H2, H3, Hc, Hs, He. reflexivity.
Qed.

Lemma happy_path_summary (w0 w1 w2 w3 w4 w5 w6 w7 : World) (e0 : Engine) (m : nat) :
  ManagerFound w7 = Some m ->
  let d := mkEventData (TEXT "Dentist")
             (FDateTime.Make (FDateTime.GetDate (Now w2) + 1) 14 0 0)
             60 [] [] 8 true in
  summary (session (Worlds w0 w1 w2 w3 w4 w5 w6 w7) e0)
  = (mkEngine Idle d, [d], [(m, BuildEventJSON d)]).
Proof.
  intros Hm d.
  unfold Worlds, HappyPath, AnswersWith. cbn [map combine].
  rewrite (quiet_step _ _ _ _ _ (happy_start w0 e0)).
  rewrite (quiet_step _ _ _ _ _ (happy_name w1 _)).
  rewrite (quiet_step _ _ _ _ _ (happy_date w2 _)).
  rewrite (quiet_step _ _ _ _ _ (happy_duration w3 _)).
  rewrite (quiet_step _ _ _ _ _ (happy_location w4 _)).
  rewrite (quiet_step _ _ _ _ _ (happy_notes w5 _)).
  rewrite (quiet_step _ _ _ _ _ (happy_priority w6 _)).
  match goal with
  | |- summary (session [(w7, ?c)] (mkEngine Confirming ?d7)) = _ =>
      destruct (confirm_with_manager w7 d7 (TEXT "yes") m eq_refl Hm) as (He & Hc & Hs & _);
      destruct (session_cons w7 c [] (mkEngine Confirming d7)) as (H1 & H2 & H3)
  end.
  unfold summary. rewrite H1, H2, H3.
  cbn [run session fst snd Created Sent flat_map].
  rewrite He, Hc, Hs. reflexivity.
Qed.

(** C1 as stated fails when midnight passes between StartEventCreation and
    the date answer: "tomorrow" is counted from the clock read when the
    answer is parsed, so the date handed off is two days after the day the
    flow started. *)
Lemma happy_path_across_midnight :
  ~ HappyPathAsStated
      [LateEvening; LateEvening; PastMidnight; PastMidnight; PastMidnight;
       PastMidnight; PastMidnight; PastMidnight].
Proof.
  unfold HappyPathAsStated.
  intros (_ & d & Hc & _ & _ & _ & _ & _ & Hd).
  vm_compute in Hc. injection Hc as <-.
  vm_compute in Hd. discriminate Hd.
Qed.

(** C1, amended. StartEventCreation followed by the answers "Dentist",
    "tomorrow at 2pm", "1 hour", "none", "none", "8", "yes", with a manager
    present when "yes" is processed, leaves the component in Idle, sends one
    payload and broadcasts OnEventCreated exactly once, with EventName
    "Dentist", DurationMinutes 60, empty Location and Notes, Priority 8, and
    a DateTime that is 14:00:00 on the day after the day on which the date
    answer was processed; that is the day after the flow started whenever
    the date answer is processed on the day the flow started. *)
Theorem happy_path_hand_off
  (w0 w1 w2 w3 w4 w5 w6 w7 : World) (e0 : Engine) (m : nat) :
  ManagerFound w7 = Some m ->
  let r := session (Worlds w0 w1 w2 w3 w4 w5 w6 w7) e0 in
  GetCurrentState (fst r) = Idle
  /\ exists d,
       Created (snd r) = [d]
       /\ Sent (snd r) = [(m, BuildEventJSON d)]
       /\ EventName d = TEXT "Dentist"
       /\ DurationMinutes d = 60
       /\ Location d = []
       /\ Notes d = []
       /\ Priority d = 8
       /\ bIsValid d = true
       /\ FDateTime.GetDate (DateTime d) = FDateTime.GetDate (Now w2) + 1
       /\ FDateTime.GetHour (DateTime d) = 14
       /\ FDateTime.GetMinute (DateTime d) = 0
       /\ FDateTime.GetSecond (DateTime d) = 0
       /\ DateTime d = FDateTime.Make (FDateTime.GetDate (Now w2) + 1) 14 0 0
       /\ (FDateTime.GetDate (Now w2) = FDateTime.GetDate (Now w0) ->
           DateTime d = FDateTime.Make (FDateTime.GetDate (Now w0) + 1) 14 0 0).
Proof.
  intros Hm r.
  pose proof (happy_path_summary w0 w1 w2 w3 w4 w5 w6 w7 e0 m Hm) as H.
  cbv zeta in H. fold r in H. unfold summary in H.
  pose proof (f_equal (fun x => fst (fst x)) H) as H1.
  pose proof (f_equal (fun x => snd (fst x)) H) as H2.
  pose proof (f_equal snd H) as H3.
  cbv beta in H1, H2. cbn [fst snd] in H1, H2, H3. clear H.
  unfold GetCurrentState. rewrite H1, H2, H3.
  split; [reflexivity|].
  eexists. split; [reflexivity|].
  cbn [EventName DateTime DurationMinutes Location Notes Priority bIsValid].
  destruct (Make_reads_back (FDateTime.GetDate (Now w2) + 1) 14)
    as (Hdate & Hhour & Hmin & Hsec & _); [lia|].
  do 7 (apply conj; [reflexivity|]).
  apply conj; [exact Hdate|].
  apply conj; [exact Hhour|].
  apply conj; [exact Hmin|].
  apply conj; [exact Hsec|].
  apply conj; [reflexivity|].
  intros Hsame. rewrite Hsame. reflexivity.
Qed.

Lemma happy_path_hand_off_witness :
  GetCurrentState
    (fst (session (Worlds WorldWithManager WorldWithManager WorldWithManager
                     WorldWithManager WorldWithManager WorldWithManager
                     WorldWithManager WorldWithManager) Constructed)) = Idle.
Proof.
  assert (Hm : ManagerFound WorldWithManager = Some 1%nat) by reflexivity.
  exact (proj1 (happy_path_hand_off WorldWithManager WorldWithManager
                  WorldWithManager WorldWithManager WorldWithManager
                  WorldWithManager WorldWithManager WorldWithManager
                  Constructed 1%nat Hm)).
Defined.

(** * Further properties of the dialogue component *)

(** ** Engine strings: lowering and trimming *)

Lemma eqb_eq (a b : FString) : FStr.eqb a b = true <-> a = b.
Proof.
  revert b. induction a as [|x a IH]; intros [|y b]; simpl; split;
    try reflexivity; try discriminate.
  - intros H. apply andb_true_iff in H as [Hx Ha].
    apply N.eqb_eq in Hx. apply IH in Ha. now subst.
  - intros H. injection H as -> ->.
    rewrite N.eqb_refl. simpl. now apply IH.
Qed.

Lemma CharToLower_idem (c : TCHAR) : CharToLower (CharToLower c) = CharToLower c.
Proof.
  unfold CharToLower.
  destruct ((65 <=? c)%N && (c <=? 90)%N) eqn:H; [|now rewrite H].
  apply andb_true_iff in H as [H1 H2].
  apply N.leb_le in H1. apply N.leb_le in H2.
  destruct (N.leb_spec 65 (c + 32)); destruct (N.leb_spec (c + 32) 90);
    simpl; try reflexivity; lia.
Qed.

Lemma ToLower_idem (s : FString) : ToLower (ToLower s) = ToLower s.
Proof.
  unfold ToLower. rewrite map_map. apply map_ext. apply CharToLower_idem.
Qed.

Lemma IsWhitespace_CharToLower (c : TCHAR) :
  IsWhitespace (CharToLower c) = IsWhitespace c.
Proof.
  unfold CharToLower.
  destruct ((65 <=? c)%N && (c <=? 90)%N) eqn:H; [|reflexivity].
  apply andb_true_iff in H as [H1 H2].
  apply N.leb_le in H1. apply N.leb_le in H2.
  unfold IsWhitespace.
  destruct (N.eqb_spec (c + 32) 32); [lia|].
  destruct (N.eqb_spec c 32); [lia|].
  destruct (N.leb_spec 9 (c + 32)); destruct (N.leb_spec (c + 32) 13);
    destruct (N.leb_spec 9 c); destruct (N.leb_spec c 13); simpl;
    try reflexivity; lia.
Qed.

Lemma TrimStart_ToLower (s : FString) :
  TrimStart (ToLower s) = ToLower (TrimStart s).
Proof.
  induction s as [|c s IH]; simpl; [reflexivity|].
  rewrite IsWhitespace_CharToLower.
  destruct (IsWhitespace c); [exact IH | reflexivity].
Qed.

Lemma TrimEnd_ToLower (s : FString) :
  TrimEnd (ToLower s) = ToLower (TrimEnd s).
Proof.
  unfold TrimEnd, ToLower.
  rewrite <- map_rev. fold (ToLower (rev s)).
  rewrite TrimStart_ToLower. unfold ToLower. now rewrite map_rev.
Qed.

(** Lowering and trimming can be done in either order. *)
Lemma Trim_ToLower (s : FString) :
  TrimStartAndEnd (ToLower s) = ToLower (TrimStartAndEnd s).
Proof.
  unfold TrimStartAndEnd. now rewrite TrimStart_ToLower, TrimEnd_ToLower.
Qed.

Lemma TrimStart_blank (s : FString) :
  forallb IsWhitespace s = true -> TrimStart s = [].
Proof.
  induction s as [|c s IH]; simpl; [reflexivity|].
  intros H. apply andb_true_iff in H as [Hc Hs]. rewrite Hc. now apply IH.
Qed.

Lemma TrimStart_app_blank (pre s : FString) :
  forallb IsWhitespace pre = true -> TrimStart (pre ++ s) = TrimStart s.
Proof.
  induction pre as [|c pre IH]; simpl; [reflexivity|].
  intros H. apply andb_true_iff in H as [Hc Hs]. rewrite Hc. now apply IH.
Qed.

Lemma TrimStart_app_keep (s post : FString) :
  TrimStart s <> [] -> TrimStart (s ++ post) = TrimStart s ++ post.
Proof.
  induction s as [|c s IH]; simpl; [congruence|].
  destruct (IsWhitespace c); [exact IH | reflexivity].
Qed.

Lemma TrimStart_idem (s : FString) : TrimStart (TrimStart s) = TrimStart s.
Proof.
  induction s as [|c s IH]; simpl; [reflexivity|].
  destruct (IsWhitespace c) eqn:Hc; [exact IH|]. simpl. now rewrite Hc.
Qed.

Lemma TrimEnd_app_blank (s post : FString) :
  forallb IsWhitespace post = true -> TrimEnd (s ++ post) = TrimEnd s.
Proof.
  intros H. unfold TrimEnd. rewrite rev_app_distr.
  rewrite TrimStart_app_blank; [reflexivity|].
  rewrite forallb_forall in *. intros x Hx. apply H. now apply in_rev.
Qed.

Lemma TrimEnd_nil_inv (s : FString) :
  TrimEnd s = [] -> forallb IsWhitespace s = true.
Proof.
  unfold TrimEnd. intros H.
  assert (Hr : TrimStart (rev s) = []).
  { apply (f_equal (@rev TCHAR)) in H. now rewrite rev_involutive in H. }
  clear H.
  assert (Hall : forall r, TrimStart r = [] -> forallb IsWhitespace r = true).
  { induction r as [|c r IH]; simpl; [reflexivity|].
    destruct (IsWhitespace c); [exact IH | discriminate]. }
  apply Hall in Hr. rewrite forallb_forall in *.
  intros x Hx. apply Hr. now apply in_rev in Hx.
Qed.

(** Whitespace around a text does not survive TrimStartAndEnd and does not
    change what is left. *)
Lemma Trim_padding (pre s post : FString) :
  forallb IsWhitespace pre = true ->
  forallb IsWhitespace post = true ->
  TrimStartAndEnd (pre ++ s ++ post) = TrimStartAndEnd s.
Proof.
  intros Hpre Hpost. unfold TrimStartAndEnd.
  rewrite TrimStart_app_blank by exact Hpre.
  destruct (TrimStart s) eqn:Hs.
  - assert (Hblank : forallb IsWhitespace s = true).
    { clear -Hs. induction s as [|c s IH]; simpl in *; [reflexivity|].
      destruct (IsWhitespace c); [now apply IH | discriminate]. }
    rewrite TrimStart_blank; [reflexivity|].
    rewrite forallb_app. now rewrite Hblank, Hpost.
  - rewrite TrimStart_app_keep by congruence.
    rewrite Hs. now apply TrimEnd_app_blank.
Qed.

Lemma Trim_blank (s : FString) :
  forallb IsWhitespace s = true -> TrimStartAndEnd s = [].
Proof.
  intros H. unfold TrimStartAndEnd. now rewrite TrimStart_blank.
Qed.

Lemma TrimStart_head (s : FString) :
  match TrimStart s with
  | [] => True
  | c :: _ => IsWhitespace c = false
  end.
Proof.
  induction s as [|c s IH]; simpl; [exact I|].
  destruct (IsWhitespace c) eqn:Hc; [exact IH | exact Hc].
Qed.

Lemma TrimStart_keep (s : FString) :
  match s with [] => True | c :: _ => IsWhitespace c = false end ->
  TrimStart s = s.
Proof.
  destruct s as [|c s]; simpl; [reflexivity|]. now intros ->.
Qed.

Lemma TrimStart_snoc (r : FString) (h : TCHAR) :
  IsWhitespace h = false -> exists z, TrimStart (r ++ [h]) = z ++ [h].
Proof.
  intros Hh. induction r as [|c r IH]; simpl.
  - rewrite Hh. now exists [].
  - destruct (IsWhitespace c); [exact IH|]. now exists (c :: r).
Qed.

Lemma TrimEnd_cons (h : TCHAR) (x : FString) :
  IsWhitespace h = false -> exists z, TrimEnd (h :: x) = h :: z.
Proof.
  intros Hh. unfold TrimEnd. simpl.
  destruct (TrimStart_snoc (rev x) h Hh) as [z Hz].
  rewrite Hz, rev_app_distr. simpl. now exists (rev z).
Qed.

Lemma TrimEnd_last (x : FString) (d : TCHAR) :
  TrimEnd x <> [] -> IsWhitespace (last (TrimEnd x) d) = false.
Proof.
  unfold TrimEnd. intros Hne.
  pose proof (TrimStart_head (rev x)) as Hhead.
  destruct (TrimStart (rev x)) as [|c y]; [now contradiction Hne|].
  simpl. now rewrite last_last.
Qed.

(** What TrimStartAndEnd returns has no whitespace at either end, and a
    text without whitespace at either end is returned as it is. *)
Lemma Trim_NoOuterSpace (s : FString) : NoOuterSpace (TrimStartAndEnd s) = true.
Proof.
  unfold TrimStartAndEnd.
  pose proof (TrimStart_head s) as Hhead.
  destruct (TrimStart s) as [|h x]; [reflexivity|].
  destruct (TrimEnd_cons h x Hhead) as [z Hz].
  pose proof (TrimEnd_last (h :: x) h) as Hlast.
  rewrite Hz in *. unfold NoOuterSpace.
  rewrite Hhead, Hlast by discriminate. reflexivity.
Qed.

Lemma Trim_fixed (s : FString) : NoOuterSpace s = true -> TrimStartAndEnd s = s.
Proof.
  destruct s as [|c s]; [reflexivity|].
  unfold NoOuterSpace. intros H. apply andb_true_iff in H as [Hc Hl].
  apply negb_true_iff in Hc. apply negb_true_iff in Hl.
  unfold TrimStartAndEnd. rewrite (TrimStart_keep (c :: s)) by exact Hc.
  unfold TrimEnd.
  assert (Hrev : rev (c :: s) = last (c :: s) c :: rev (removelast (c :: s))).
  { pose proof (@app_removelast_last TCHAR (c :: s) c ltac:(discriminate)) as E.
    rewrite E at 1. rewrite rev_app_distr. reflexivity. }
  rewrite TrimStart_keep; [apply rev_involutive|].
  rewrite Hrev. exact Hl.
Qed.

Lemma Trim_idem (s : FString) :
  TrimStartAndEnd (TrimStartAndEnd s) = TrimStartAndEnd s.
Proof. apply Trim_fixed, Trim_NoOuterSpace. Qed.

Lemma blank_ToLower (s : FString) :
  forallb IsWhitespace (ToLower s) = forallb IsWhitespace s.
Proof.
  induction s as [|c s IH]; simpl; [reflexivity|].
  now rewrite IsWhitespace_CharToLower, IH.
Qed.

(** Comparing a lowered, trimmed text with a lowercase literal is plain
    equality. *)
Lemma Equals_lowered (s w : FString) :
  IsLower w = true ->
  Equals (TrimStartAndEnd (ToLower s)) w = true <-> TrimStartAndEnd (ToLower s) = w.
Proof.
  intros Hw. unfold Equals. apply eqb_eq in Hw.
  rewrite <- Trim_ToLower, ToLower_idem, Hw. apply eqb_eq.
Qed.

(** ** IsAffirmative *)

Lemma IsAffirmative_In (Answer : FString) :
  IsAffirmative Answer = true
  <-> In (TrimStartAndEnd (ToLower Answer)) AffirmativeWords.
Proof.
  unfold IsAffirmative, AffirmativeWords.
  cbv zeta. cbn [map In].
  repeat rewrite orb_true_iff.
  repeat rewrite Equals_lowered by reflexivity.
  intuition congruence.
Qed.

(** X1. IsAffirmative looks only at the answer lowered and trimmed: it holds
    exactly when that text is one of yes, yeah, yep, sure, ok, okay, y,
    confirm, correct, right.  So letter case and whitespace around the
    answer make no difference. *)
Theorem IsAffirmative_ignores_case_and_padding (pre post a b : FString) :
  forallb IsWhitespace pre = true ->
  forallb IsWhitespace post = true ->
  ToLower a = ToLower b ->
  IsAffirmative (pre ++ a ++ post) = IsAffirmative b
  /\ (IsAffirmative b = true <-> In (TrimStartAndEnd (ToLower b)) AffirmativeWords).
Proof.
  intros Hpre Hpost Hab. split; [|apply IsAffirmative_In].
  unfold IsAffirmative. cbv zeta.
  replace (TrimStartAndEnd (ToLower (pre ++ a ++ post)))
    with (TrimStartAndEnd (ToLower b)); [reflexivity|].
  unfold ToLower at 2. rewrite !map_app. fold (ToLower pre) (ToLower a) (ToLower post).
  rewrite Trim_padding by (rewrite blank_ToLower; assumption).
  now rewrite Hab.
Qed.

Lemma IsAffirmative_ignores_case_and_padding_witness :
  IsAffirmative (TEXT "  " ++ TEXT "YeS" ++ TEXT " ") = true.
Proof.
  destruct (IsAffirmative_ignores_case_and_padding
              (TEXT "  ") (TEXT " ") (TEXT "YeS") (TEXT "yes")) as [H _].
  - reflexivity.
  - reflexivity.
  - reflexivity.
  - rewrite H. reflexivity.
Defined.

Lemma IsAffirmative_blank (Answer : FString) :
  forallb IsWhitespace Answer = true -> IsAffirmative Answer = false.
Proof.
  intros H. unfold IsAffirmative. cbv zeta.
  rewrite Trim_blank by (rewrite blank_ToLower; exact H).
  reflexivity.
Qed.

(** X2. An empty answer, or one made of whitespace only, at Confirming is
    not a repeat of the question: it cancels the flow.  The component goes
    to Idle, the record is cleared, OnFlowCancelled is broadcast once, and
    nothing is handed off or asked, whether or not a manager is present. *)
Theorem blank_confirmation_cancels (w : World) (e : Engine) (Answer : FString) :
  CurrentState e = Confirming ->
  forallb IsWhitespace Answer = true ->
  let r := ProcessUserResponse Answer w e in
  GetCurrentState (engine_of r) = Idle
  /\ GetEventData (engine_of r) = DefaultEventData
  /\ Cancellations (trace_of r) = 1%nat
  /\ Questions (trace_of r) = []
  /\ Created (trace_of r) = []
  /\ Sent (trace_of r) = [].
Proof.
  intros Hs Hblank r.
  destruct (decline_run w e Answer Hs (IsAffirmative_blank Answer Hblank))
    as (He & Hc & Hq & Hcr & Hsent).
  fold r in He, Hc, Hq, Hcr, Hsent.
  unfold GetCurrentState, GetEventData. rewrite He.
  repeat (apply conj; [first [reflexivity | assumption]|]). assumption.
Qed.

Lemma blank_confirmation_cancels_witness :
  GetEventData
    (engine_of (ProcessUserResponse [] WorldWithManager (mkEngine Confirming DentistEvent)))
  = DefaultEventData.
Proof.
  destruct (blank_confirmation_cancels WorldWithManager
              (mkEngine Confirming DentistEvent) []) as (_ & H & _).
  - reflexivity.
  - reflexivity.
  - exact H.
Defined.

(** ** Location and notes *)

Lemma IsSkipWord_In (Answer : FString) :
  IsSkipWord (ToLower (TrimStartAndEnd Answer)) = true
  <-> In (ToLower (TrimStartAndEnd Answer)) SkipWords.
Proof.
  unfold IsSkipWord, SkipWords. cbn [map In].
  repeat rewrite orb_true_iff.
  rewrite <- Trim_ToLower.
  repeat rewrite Equals_lowered by reflexivity.
  intuition congruence.
Qed.

Lemma StoredText_clean (Answer : FString) :
  NoOuterSpace (StoredText Answer) = true
  /\ ~ In (ToLower (StoredText Answer)) SkipWords.
Proof.
  unfold StoredText.
  destruct (IsSkipWord (ToLower (TrimStartAndEnd Answer))) eqn:Hskip.
  - split; [reflexivity|].
    cbn. intros [H|[H|[H|[]]]]; discriminate H.
  - split; [apply Trim_NoOuterSpace|].
    intros Hin. apply IsSkipWord_In in Hin. congruence.
Qed.

Lemma location_run (w : World) (d : FCalendarEventData) (Answer : FString) :
  let r := ProcessUserResponse Answer w (mkEngine AskingLocation d) in
  engine_of r = mkEngine AskingNotes (set_Location (StoredText Answer) d)
  /\ Questions (trace_of r) = [QuestionNotes].
Proof.
  intros r. subst r. unfold StoredText. msplit; split; reflexivity.
Qed.

Lemma notes_run (w : World) (d : FCalendarEventData) (Answer : FString) :
  let r := ProcessUserResponse Answer w (mkEngine AskingNotes d) in
  engine_of r = mkEngine AskingPriority (set_Notes (StoredText Answer) d)
  /\ Questions (trace_of r) = [QuestionPriority].
Proof.
  intros r. subst r. unfold StoredText. msplit; split; reflexivity.
Qed.

(** X3. The location and notes questions never turn an answer down, the
    empty answer included.  Every answer moves the flow on by one state and
    asks the next question; the text stored is empty when the trimmed answer
    is none, no or skip in any letter case, and the trimmed answer
    otherwise, so it never has whitespace at either end and is never one of
    the three words. *)
Theorem location_and_notes_accept_everything
  (w : World) (e : Engine) (Answer : FString) :
  let r := ProcessUserResponse Answer w e in
  (CurrentState e = AskingLocation ->
   GetCurrentState (engine_of r) = AskingNotes
   /\ GetEventData (engine_of r) = set_Location (StoredText Answer) (EventData e)
   /\ Questions (trace_of r) = [QuestionNotes])
  /\ (CurrentState e = AskingNotes ->
      GetCurrentState (engine_of r) = AskingPriority
      /\ GetEventData (engine_of r) = set_Notes (StoredText Answer) (EventData e)
      /\ Questions (trace_of r) = [QuestionPriority])
  /\ NoOuterSpace (StoredText Answer) = true
  /\ ~ In (ToLower (StoredText Answer)) SkipWords
  /\ (In (ToLower (TrimStartAndEnd Answer)) SkipWords -> StoredText Answer = []).
Proof.
  intros r. subst r. destruct e as [s d]. cbn [CurrentState EventData].
  destruct (StoredText_clean Answer) as [Hclean Hskip].
  split; [|split; [|split; [exact Hclean|split; [exact Hskip|]]]].
  - intros ->. destruct (location_run w d Answer) as [He Hq].
    unfold GetCurrentState, GetEventData. rewrite He. now split.
  - intros ->. destruct (notes_run w d Answer) as [He Hq].
    unfold GetCurrentState, GetEventData. rewrite He. now split.
  - intros Hin. apply IsSkipWord_In in Hin. unfold StoredText. now rewrite Hin.
Qed.

Lemma location_and_notes_accept_everything_witness :
  GetEventData
    (engine_of (ProcessUserResponse (TEXT " Skip ") WorldWithManager
                  (mkEngine AskingLocation DentistEvent)))
  = set_Location [] DentistEvent.
Proof.
  destruct (location_and_notes_accept_everything WorldWithManager
              (mkEngine AskingLocation DentistEvent) (TEXT " Skip "))
    as (H & _ & _ & _ & Hskip).
  destruct (H eq_refl) as (_ & Hd & _).
  rewrite Hd. rewrite Hskip; [reflexivity|].
  vm_compute. auto.
Defined.

(** ** Bounds *)

Ltac bprop :=
  repeat match goal with
         | H : (_ || _) = false |- _ => apply orb_false_iff in H; destruct H
         | H : (_ && _) = true |- _ => apply andb_true_iff in H; destruct H
         | H : (_ <? _) = true |- _ => apply Z.ltb_lt in H
         | H : (_ <? _) = false |- _ => apply Z.ltb_ge in H
         | H : (_ <=? _) = true |- _ => apply Z.leb_le in H
         | H : (_ <=? _) = false |- _ => apply Z.leb_gt in H
         | H : (_ >? _) = true |- _ => apply Z.gtb_lt in H
         | H : (_ >? _) = false |- _ => rewrite Z.gtb_ltb in H; apply Z.ltb_ge in H
         | H : (_ =? _) = true |- _ => apply Z.eqb_eq in H
         | H : (_ =? _) = false |- _ => apply Z.eqb_neq in H
         end.

Lemma fold_digits_nonneg (run : FString) (a : Z) :
  0 <= a -> forallb IsDigit run = true ->
  0 <= fold_left (fun acc c => acc * 10 + (Z.of_N c - 48)) run a.
Proof.
  revert a.
  induction run as [|c run IH]; intros a Ha Hall; simpl in *; [exact Ha|].
  apply andb_true_iff in Hall as [Hc Hrun].
  apply IH; [|exact Hrun].
  unfold IsDigit in Hc. apply andb_true_iff in Hc as [H1 H2].
  apply N.leb_le in H1. lia.
Qed.

Lemma ExtractNumber_range (Input : FString) :
  0 <= ExtractNumber Input <= INT32_MAX.
Proof.
  rewrite ExtractNumber_value.
  destruct (existsb IsDigit Input); [|unfold INT32_MAX; lia].
  pose proof (fold_digits_nonneg (first_digit_run Input) 0 (Z.le_refl 0)
                (take_while_all IsDigit _)) as H.
  fold (decimal (first_digit_run Input)) in H.
  unfold clamp32, INT32_MAX, INT32_MIN. lia.
Qed.

Lemma wrap32_range (z : Z) : INT32_MIN <= wrap32 z <= INT32_MAX.
Proof.
  unfold wrap32, INT32_MIN, INT32_MAX.
  pose proof (Z.mod_pos_bound (z + 2147483648) 4294967296 ltac:(lia)). lia.
Qed.

Lemma ParseDuration_range (Input : FString) :
  INT32_MIN <= ParseDuration Input <= INT32_MAX.
Proof.
  unfold ParseDuration. cbv zeta.
  pose proof (ExtractNumber_range (TrimStartAndEnd (ToLower Input))) as HN.
  destruct (_ <=? 0); [unfold INT32_MIN, INT32_MAX; lia|].
  destruct (Contains _ (TEXT "hour")); [apply wrap32_range|].
  destruct (_ || _); unfold INT32_MIN, INT32_MAX in *; lia.
Qed.

(** ** What holds between calls *)

Lemma run_invariant (w : World) (c : Call) (e : Engine) :
  EngineInvariant e ->
  EngineInvariant (engine_of (run c w e))
  /\ Forall HandedOff (Created (trace_of (run c w e))).
Proof.
  destruct e as [s d]. unfold EngineInvariant, InBounds, HandedOff.
  cbn [CurrentState EventData].
  intros ((HP & HD) & Hobs & Hvalid & Hdate).
  destruct c as [|Answer|]; destruct s; try discriminate Hobs; clear Hobs.
  all: msplit.
  all: cbn [Created flat_map effect app
            Priority DurationMinutes DateTime bIsValid
            set_EventName set_DateTime set_DurationMinutes set_Location
            set_Notes set_Priority set_bIsValid DefaultEventData
            Observable DateSet] in *.
  all: bprop.
  all: (repeat match goal with
         | |- _ /\ _ => split
         | |- Forall _ [] => constructor
         | |- Forall _ (_ :: _) => constructor
         | |- _ -> _ => intro
         end;
       try reflexivity; try discriminate; try assumption;
       try (unfold INT32_MAX in *; lia)).
  all: try (pose proof (ParseDuration_range Answer); unfold INT32_MAX in *; lia).
  all: try (pose proof (ExtractNumber_range Answer); unfold INT32_MAX in *; lia).
  all: try (apply Hdate; reflexivity).
  all: try (match goal with H : bIsValid _ = true |- _ =>
              destruct (Hvalid H) as [Hidle Hset]; first [discriminate Hidle | exact Hset]
            end).
  all: unfold InBounds; cbn [Priority DurationMinutes set_bIsValid]; split; assumption.
Qed.

Lemma session_invariant (cs : list (World * Call)) (e : Engine) :
  EngineInvariant e ->
  EngineInvariant (fst (session cs e))
  /\ Forall HandedOff (Created (snd (session cs e))).
Proof.
  revert e.
  induction cs as [|[w c] rest IH]; intros e He.
  - split; [exact He | constructor].
  - destruct (run_invariant w c e He) as [H1 H2].
    destruct (IH _ H1) as [H3 H4].
    destruct (session_cons w c rest e) as (Hf & Hc & _).
    cbv zeta in Hf, Hc. rewrite Hf, Hc.
    split; [exact H3|]. apply Forall_app. now split.
Qed.

Lemma Constructed_invariant : EngineInvariant Constructed.
Proof.
  unfold EngineInvariant, InBounds, INT32_MAX. cbn.
  repeat split; try lia; discriminate.
Qed.

(** X4. Whatever calls are made on the constructed component, in whatever
    worlds, the record it holds keeps Priority within 1..10 and
    DurationMinutes within 1..INT32_MAX; bIsValid is set only while the
    component is Idle (after a confirmation); from the duration question on
    the DateTime of the record is not the zero value.  Every record given to
    OnEventCreated has these bounds, has bIsValid set and has a DateTime
    other than the zero value. *)
Theorem record_bounds_hold (cs : list (World * Call)) :
  let r := session cs Constructed in
  let d := GetEventData (fst r) in
  1 <= Priority d <= 10
  /\ 1 <= DurationMinutes d <= INT32_MAX
  /\ (bIsValid d = true -> GetCurrentState (fst r) = Idle)
  /\ (DateSet (GetCurrentState (fst r)) = true -> DateTime d <> FDateTime.MinValue)
  /\ Forall HandedOff (Created (snd r)).
Proof.
  intros r d.
  destruct (session_invariant cs Constructed Constructed_invariant)
    as (((HP & HD) & _ & Hvalid & Hdate) & Hcreated).
  fold r in HP, HD, Hvalid, Hdate, Hcreated.
  apply conj; [exact HP|]. apply conj; [exact HD|].
  apply conj; [intros Hv; exact (proj1 (Hvalid Hv))|].
  apply conj; [exact Hdate | exact Hcreated].
Qed.

Lemma record_bounds_hold_witness :
  Forall HandedOff [DentistEvent]
  /\ DateTime DentistEvent <> FDateTime.MinValue.
Proof.
  destruct (record_bounds_hold (map (pair WorldWithManager) HappyPath))
    as (_ & _ & Hvalid & _ & Hcreated).
  split; [exact Hcreated|].
  apply Forall_inv in Hcreated. exact (proj2 (proj2 Hcreated)).
Defined.

(** ** Counting hand-offs *)

Lemma run_hand_off_count (w : World) (c : Call) (e : Engine) :
  let r := run c w e in
  (List.length (Created (trace_of r)) + InFlow (engine_of r)
   <= InFlow e + Starts [(w, c)])%nat
  /\ map snd (Sent (trace_of r)) = map BuildEventJSON (Created (trace_of r)).
Proof.
  destruct e as [s d].
  destruct c; destruct s.
  all: msplit; split; first [reflexivity | cbn; lia].
Qed.

Lemma Starts_cons (wc : World * Call) (rest : list (World * Call)) :
  Starts (wc :: rest) = (Starts [wc] + Starts rest)%nat.
Proof.
  unfold Starts. cbn [filter].
  destruct (match snd wc with CallStartEventCreation => true | _ => false end);
    reflexivity.
Qed.

Lemma session_hand_off_count (cs : list (World * Call)) (e : Engine) :
  (List.length (Created (snd (session cs e))) + InFlow (fst (session cs e))
   <= InFlow e + Starts cs)%nat
  /\ map snd (Sent (snd (session cs e)))
     = map BuildEventJSON (Created (snd (session cs e))).
Proof.
  revert e.
  induction cs as [|[w c] rest IH]; intros e.
  - split; [cbn; lia | reflexivity].
  - destruct (run_hand_off_count w c e) as [H1 H2]. cbv zeta in H1, H2.
    destruct (IH (engine_of (run c w e))) as [H3 H4].
    destruct (session_cons w c rest e) as (Hf & Hc & Hs).
    cbv zeta in Hf, Hc, Hs. rewrite Hf, Hc, Hs.
    rewrite Starts_cons, !map_app, length_app, H2, H4.
    split; [lia | reflexivity].
Qed.

(** X5. A flow is handed off at most once: in any session on the constructed
    component the number of OnEventCreated broadcasts never exceeds the
    number of StartEventCreation calls, and is smaller while a flow is still
    in progress.  The messages sent to the manager are exactly the payloads
    of the records broadcast, one for one and in the same order. *)
Theorem hand_off_at_most_once_per_start (cs : list (World * Call)) :
  let r := session cs Constructed in
  (List.length (Created (snd r)) + InFlow (fst r) <= Starts cs)%nat
  /\ map snd (Sent (snd r)) = map BuildEventJSON (Created (snd r)).
Proof.
  intros r. exact (session_hand_off_count cs Constructed).
Qed.

(** ** One question at a time *)

Lemma run_step (w : World) (c : Call) (e : Engine) :
  Observable (CurrentState e) = true ->
  let r := run c w e in
  Observable (CurrentState (engine_of r)) = true
  /\ StateIndex (CurrentState (engine_of r)) <= StateIndex (CurrentState e) + 1
  /\ (StateIndex (CurrentState e) < 7 ->
      Created (trace_of r) = [] /\ Sent (trace_of r) = []).
Proof.
  destruct e as [s d]. intros H.
  destruct c; destruct s; try discriminate H; clear H.
  all: msplit; cbn [StateIndex Observable].
  all: split; [reflexivity|split; [lia|]].
  all: intros Hlt; first [split; reflexivity | exfalso; lia].
Qed.

Lemma session_step (cs : list (World * Call)) (e : Engine) :
  Observable (CurrentState e) = true ->
  StateIndex (CurrentState (fst (session cs e)))
  <= StateIndex (CurrentState e) + Z.of_nat (List.length cs)
  /\ (StateIndex (CurrentState e) + Z.of_nat (List.length cs) < 8 ->
      Created (snd (session cs e)) = [] /\ Sent (snd (session cs e)) = []).
Proof.
  revert e.
  induction cs as [|[w c] rest IH]; intros e He.
  - cbn. split; [lia | auto].
  - destruct (run_step w c e He) as (Hobs & Hidx & Hquiet). cbv zeta in *.
    destruct (IH _ Hobs) as [Hrest Hnone].
    destruct (session_cons w c rest e) as (Hf & Hc & Hs).
    cbv zeta in Hf, Hc, Hs. rewrite Hf, Hc, Hs.
    cbn [List.length]. rewrite Nat2Z.inj_succ.
    split; [lia|].
    intros Hlt.
    destruct Hquiet as [Hq1 Hq2]; [lia|].
    destruct Hnone as [Hn1 Hn2]; [lia|].
    now rewrite Hq1, Hq2, Hn1, Hn2.
Qed.

(** X6. No question can be skipped: a call moves the component at most one
    state forward, so after n calls on the constructed component the state
    is at most the n-th of the enumeration, and a session of fewer than
    eight calls (the start and seven answers) never sends a payload and
    never broadcasts OnEventCreated. *)
Theorem no_hand_off_before_eight_calls (cs : list (World * Call)) :
  (List.length cs < 8)%nat ->
  let r := session cs Constructed in
  StateIndex (GetCurrentState (fst r)) <= Z.of_nat (List.length cs)
  /\ Created (snd r) = []
  /\ Sent (snd r) = [].
Proof.
  intros Hlen r.
  destruct (session_step cs Constructed eq_refl) as [Hidx Hnone].
  fold r in Hidx, Hnone. cbn [Constructed CurrentState StateIndex] in Hidx, Hnone.
  split; [exact Hidx|]. apply Hnone. lia.
Qed.

Lemma no_hand_off_before_eight_calls_witness :
  Created (snd (session (removelast (map (pair WorldWithManager) HappyPath))
                  Constructed)) = [].
Proof.
  assert (Hlen : (List.length (removelast (map (pair WorldWithManager) HappyPath)) < 8)%nat).
  { vm_compute. repeat constructor. }
  exact (proj1 (proj2 (no_hand_off_before_eight_calls _ Hlen))).
Defined.

(** ** The question on display *)

Lemma run_question (w0 w : World) (c : Call) (e : Engine) :
  Observable (CurrentState e) = true ->
  let r := run c w0 e in
  Questions (trace_of r) = Questions (trace_of (AskCurrentQuestion w (engine_of r)))
  /\ (List.length (Questions (trace_of r)) <= 1)%nat
  /\ (Questions (trace_of r) = [] <-> CurrentState (engine_of r) = Idle).
Proof.
  destruct e as [s d]. intros H.
  destruct c; destruct s; try discriminate H; clear H.
  all: msplit.
  all: split; [reflexivity|split; [cbn; lia|]].
  all: split; intros H; first [reflexivity | discriminate H].
Qed.

(** X7. A call made in one of the eight states of the flow broadcasts at
    most one question, and it is the question of the state the component is
    in when the call returns (for Confirming, the confirmation message of the
    record as it then stands).  No question is broadcast exactly when the
    call ends in Idle. *)
Theorem question_matches_state (w0 w : World) (c : Call) (e : Engine) :
  Observable (CurrentState e) = true ->
  let r := run c w0 e in
  Questions (trace_of r) = Questions (trace_of (AskCurrentQuestion w (engine_of r)))
  /\ (List.length (Questions (trace_of r)) <= 1)%nat
  /\ (Questions (trace_of r) = [] <-> GetCurrentState (engine_of r) = Idle)
  /\ (GetCurrentState (engine_of r) = Confirming ->
      Questions (trace_of r) = [GenerateConfirmationMessage (GetEventData (engine_of r))]).
Proof.
  intros Hobs r.
  destruct (run_question w0 w c e Hobs) as (H1 & H2 & H3). fold r in H1, H2, H3.
  split; [exact H1|]. split; [exact H2|]. split; [exact H3|].
  intros Hc. rewrite H1. unfold GetCurrentState, GetEventData in *.
  destruct (engine_of r) as [s' d']. cbn [CurrentState] in Hc. subst s'.
  reflexivity.
Qed.

Lemma question_matches_state_witness :
  Questions
    (trace_of (ProcessUserResponse (TEXT "8") WorldWithManager
                 (mkEngine AskingPriority DentistEvent)))
  = [GenerateConfirmationMessage DentistEvent].
Proof.
  destruct (question_matches_state WorldWithManager WorldWithManager
              (CallProcessUserResponse (TEXT "8"))
              (mkEngine AskingPriority DentistEvent) eq_refl) as (_ & _ & _ & H).
  exact (H eq_refl).
Defined.

(** ** The date question *)

Lemma Make_accepted (date Hour : Z) :
  FDateTime.Make date Hour 0 0 <> FDateTime.MinValue ->
  FDateTime.GetDate (FDateTime.Make date Hour 0 0) = date
  /\ FDateTime.GetMinute (FDateTime.Make date Hour 0 0) = 0
  /\ FDateTime.GetSecond (FDateTime.Make date Hour 0 0) = 0.
Proof.
  intros Hne.
  assert (Hrange : 0 <= Hour <= 23).
  { unfold FDateTime.Make in Hne.
    destruct (0 <=? Hour) eqn:H0; [|now contradiction Hne].
    destruct (Hour <=? 23) eqn:H23; [|now contradiction Hne].
    apply Z.leb_le in H0. apply Z.leb_le in H23. lia. }
  destruct (Make_reads_back date Hour Hrange) as (H1 & _ & H3 & H4 & _).
  apply conj; [exact H1|]. apply conj; [exact H3 | exact H4].
Qed.

Lemma ParseDateTime_cases (Input : FString) (w : World) (e : Engine) :
  let r := ParseDateTime Input w e in
  let Lower := TrimStartAndEnd (ToLower Input) in
  engine_of r = e
  /\ (Contains Lower (TEXT "tomorrow") = false ->
      Contains Lower (TEXT "today") = false ->
      result r = FDateTime.MinValue)
  /\ (result r <> FDateTime.MinValue ->
      FDateTime.GetDate (result r) = FDateTime.GetDate (Now w)
      \/ FDateTime.GetDate (result r) = FDateTime.GetDate (Now w) + 1)
  /\ (result r <> FDateTime.MinValue ->
      Contains Lower (TEXT "at") = true ->
      FDateTime.GetMinute (result r) = 0 /\ FDateTime.GetSecond (result r) = 0)
  /\ (Contains Lower (TEXT "at") = false ->
      result r = (if Contains Lower (TEXT "tomorrow") then FDateTime.AddDays (Now w) 1
                  else if Contains Lower (TEXT "today") then Now w
                  else FDateTime.MinValue))
  /\ (Contains Lower (TEXT "tomorrow") = true ->
      result r <> FDateTime.MinValue ->
      FDateTime.GetDate (result r) = FDateTime.GetDate (Now w) + 1).
Proof.
  cbv zeta.
  set (Lower := TrimStartAndEnd (ToLower Input)).
  unfold ParseDateTime. fold Lower.
  destruct (Contains Lower (TEXT "tomorrow")) eqn:Htom;
    [|destruct (Contains Lower (TEXT "today")) eqn:Htod];
    destruct (Contains Lower (TEXT "at")) eqn:Hat.
  all: mred.
  all: apply conj; [reflexivity|].
  all: apply conj; [intros; first [discriminate | reflexivity]|].
  all: apply conj;
    [intros Hne;
     first [ now contradiction Hne
           | solve [apply Make_accepted in Hne; destruct Hne as (Hd & _);
                    rewrite Hd; rewrite ?GetDate_AddDays; auto]
           | solve [rewrite ?GetDate_AddDays; auto] ]|].
  all: apply conj;
    [intros Hne Hat';
     first [ discriminate Hat'
           | now contradiction Hne
           | solve [apply Make_accepted in Hne; destruct Hne as (_ & Hm & Hs); auto] ]|].
  all: apply conj; [intros Hat'; first [discriminate Hat' | reflexivity]|].
  all: intros Htom' Hne;
    first [ discriminate Htom'
          | solve [apply Make_accepted in Hne; destruct Hne as (Hd & _);
                   rewrite Hd; apply GetDate_AddDays]
          | apply GetDate_AddDays ].
Qed.

Lemma date_run (w : World) (d : FCalendarEventData) (Answer : FString) :
  let p := result (ParseDateTime Answer w (mkEngine AskingDateTime d)) in
  engine_of (ProcessUserResponse Answer w (mkEngine AskingDateTime d))
  = (if p =? FDateTime.MinValue then mkEngine AskingDateTime d
     else mkEngine AskingDuration (set_DateTime p d)).
Proof.
  cbv zeta.
  set (Lower := TrimStartAndEnd (ToLower Answer)).
  unfold ProcessUserResponse, ProcessAnswer, ProcessDateTime, ParseDateTime.
  fold Lower.
  destruct (Contains Lower (TEXT "tomorrow")) eqn:Htom;
    [|destruct (Contains Lower (TEXT "today")) eqn:Htod];
    try destruct (Contains Lower (TEXT "at")) eqn:Hat.
  all: mred.
  all: match goal with
       | |- context [if ?b then _ else _] => destruct b; reflexivity
       end.
Qed.

(** X8. An answer to the date question is taken only if it mentions today
    or tomorrow.  When the answer, lowered and trimmed, contains neither
    word, ProcessUserResponse changes nothing, logs a warning that quotes
    the answer, and asks the date question again.  The second example the
    question itself gives, 'November 5 at 3:30pm', is such an answer. *)
Theorem date_needs_today_or_tomorrow (w : World) (e : Engine) (Answer : FString) :
  let Lower := TrimStartAndEnd (ToLower Answer) in
  let r := ProcessUserResponse Answer w e in
  CurrentState e = AskingDateTime ->
  Contains Lower (TEXT "tomorrow") = false ->
  Contains Lower (TEXT "today") = false ->
  engine_of r = e
  /\ Questions (trace_of r) = [QuestionDateTime]
  /\ In (UE_LOG Warning (TEXT "[CalendarDialogue] "
                         ++ TEXT "Could not parse datetime: " ++ Answer))
        (effects (trace_of r))
  /\ Created (trace_of r) = [].
Proof.
  cbv zeta. destruct e as [s d]. cbn [CurrentState]. intros -> Htom Htod.
  mred. rewrite Htom, Htod. mred.
  change (FDateTime.MinValue =? FDateTime.MinValue) with true. mred.
  apply conj; [reflexivity|]. apply conj; [reflexivity|].
  apply conj; [|reflexivity].
  cbn [effects map effect trace_of snd app In].
  right. left. reflexivity.
Qed.

Lemma date_needs_today_or_tomorrow_witness :
  let e := mkEngine AskingDateTime (set_EventName (TEXT "Dentist") DefaultEventData) in
  engine_of (ProcessUserResponse (TEXT "November 5 at 3:30pm") WorldWithManager e) = e.
Proof.
  intros e.
  destruct (date_needs_today_or_tomorrow WorldWithManager e
              (TEXT "November 5 at 3:30pm")) as (H & _).
  - reflexivity.
  - reflexivity.
  - reflexivity.
  - exact H.
Defined.

(** X9. When the date question accepts an answer (the flow moves on to the
    duration question), the DateTime stored falls on the day of the clock
    reading or on the day after it, never further away, and on the day
    after whenever the answer mentions tomorrow.  If the answer contains
    "at", the time stored is on the full hour, so minutes given in the
    answer are dropped; if it does not, the time stored is the clock reading
    itself, moved one day on for tomorrow. *)
Theorem accepted_date_is_today_or_tomorrow
  (w : World) (e : Engine) (Answer : FString) :
  let Lower := TrimStartAndEnd (ToLower Answer) in
  let e' := engine_of (ProcessUserResponse Answer w e) in
  let stored := DateTime (GetEventData e') in
  CurrentState e = AskingDateTime ->
  GetCurrentState e' = AskingDuration ->
  (FDateTime.GetDate stored = FDateTime.GetDate (Now w)
   \/ FDateTime.GetDate stored = FDateTime.GetDate (Now w) + 1)
  /\ (Contains Lower (TEXT "tomorrow") = true ->
      FDateTime.GetDate stored = FDateTime.GetDate (Now w) + 1)
  /\ (Contains Lower (TEXT "at") = true ->
      FDateTime.GetMinute stored = 0 /\ FDateTime.GetSecond stored = 0)
  /\ (Contains Lower (TEXT "at") = false ->
      stored = (if Contains Lower (TEXT "tomorrow")
                then FDateTime.AddDays (Now w) 1 else Now w)).
Proof.
  cbv zeta. destruct e as [s d]. cbn [CurrentState]. intros -> Hnext.
  pose proof (date_run w d Answer) as Hrun. cbv zeta in Hrun.
  destruct (ParseDateTime_cases Answer w (mkEngine AskingDateTime d))
    as (_ & Hnone & Hday & Hhour & Hplain & Htom).
  cbv zeta in Hnone, Hday, Hhour, Hplain, Htom.
  unfold GetCurrentState, GetEventData in *.
  set (p := result (ParseDateTime Answer w (mkEngine AskingDateTime d))) in *.
  rewrite Hrun in *. clear Hrun.
  destruct (Z.eqb_spec p FDateTime.MinValue) as [Heq|Hne];
    [discriminate Hnext|].
  cbn [EventData DateTime set_DateTime].
  apply conj; [exact (Hday Hne)|].
  apply conj; [intros Ht; exact (Htom Ht Hne)|].
  apply conj; [intros Hat; exact (Hhour Hne Hat)|].
  intros Hat. rewrite (Hplain Hat).
  destruct (Contains _ (TEXT "tomorrow")) eqn:Ht; [reflexivity|].
  destruct (Contains _ (TEXT "today")) eqn:Hd; [reflexivity|].
  exfalso. apply Hne. exact (Hnone eq_refl eq_refl).
Qed.

Lemma accepted_date_is_today_or_tomorrow_witness :
  FDateTime.GetMinute
    (DateTime
       (GetEventData
          (engine_of (ProcessUserResponse (TEXT "today at 3:30pm") WorldWithManager
                        (mkEngine AskingDateTime DefaultEventData)))))
  = 0.
Proof.
  destruct (accepted_date_is_today_or_tomorrow WorldWithManager
              (mkEngine AskingDateTime DefaultEventData) (TEXT "today at 3:30pm"))
    as (_ & _ & H & _).
  - reflexivity.
  - reflexivity.
  - exact (proj1 (H eq_refl)).
Defined.

(** ** The confirmation message *)

Lemma StartsWith_app (s b : FString) : StartsWith (s ++ b) s = true.
Proof.
  induction s as [|c s IH]; simpl; [now destruct b|].
  now rewrite N.eqb_refl.
Qed.

Lemma Find_unfold (x s : FString) :
  Find x s = StartsWith x s || match x with [] => false | _ :: r => Find r s end.
Proof. destruct x; reflexivity. Qed.

Lemma Find_here (s b : FString) : Find (s ++ b) s = true.
Proof. rewrite Find_unfold, StartsWith_app. reflexivity. Qed.

Lemma Find_later (a t s : FString) : Find t s = true -> Find (a ++ t) s = true.
Proof.
  intros H. induction a as [|c a IH]; simpl; [exact H|].
  rewrite IH. apply orb_true_r.
Qed.

Lemma Find_nil (s : FString) : Find s [] = true.
Proof. destruct s; reflexivity. Qed.

Lemma Find_here3 (a b c r : FString) : Find (a ++ b ++ c ++ r) (a ++ b ++ c) = true.
Proof. rewrite (app_assoc b c r), (app_assoc a (b ++ c) r). apply Find_here. Qed.

Lemma Find_here4 (a b c d r : FString) :
  Find (a ++ b ++ c ++ d ++ r) (a ++ b ++ c ++ d) = true.
Proof.
  rewrite (app_assoc c d r), (app_assoc b (c ++ d) r), (app_assoc a (b ++ c ++ d) r).
  apply Find_here.
Qed.

Ltac find_part :=
  repeat rewrite <- app_assoc;
  solve [repeat first [ apply Find_here4 | apply Find_here3 | apply Find_here
                      | apply Find_later ]].

(** X10. The confirmation message always opens with "Here's what I have:",
    closes with "Should I create this event?", and contains the event name,
    the duration, the location, the notes and the priority as they stand in
    the record.  A location or notes text that is not empty adds one line
    (a sign, a blank, the text and a line feed); an empty one adds
    nothing. *)
Theorem confirmation_message_shows_record (d : FCalendarEventData) :
  let m := GenerateConfirmationMessage d in
  StartsWith m (TEXT "Here's what I have:") = true
  /\ (exists body, m = body ++ TEXT "Should I create this event?")
  /\ Find m (TEXT " " ++ EventName d ++ LF) = true
  /\ Find m (TEXT " Duration: " ++ FromInt (DurationMinutes d) ++ TEXT " minutes" ++ LF)
     = true
  /\ Find m (Location d) = true
  /\ Find m (Notes d) = true
  /\ Find m (TEXT " Priority: " ++ FromInt (Priority d) ++ TEXT "/10" ++ LF) = true
  /\ List.length m
     = (List.length (GenerateConfirmationMessage (set_Notes [] (set_Location [] d)))
        + (if IsEmpty (Location d) then 0 else 4 + List.length (Location d))
        + (if IsEmpty (Notes d) then 0 else 4 + List.length (Notes d)))%nat.
Proof.
  intros m. subst m. unfold GenerateConfirmationMessage.
  destruct (Location d) as [|l0 loc] eqn:Hloc;
    destruct (Notes d) as [|n0 notes] eqn:Hnotes;
    cbn [IsEmpty negb EventName DateTime DurationMinutes Location Notes Priority
         set_EventName set_Notes set_Location].
  all: apply conj; [repeat rewrite <- app_assoc; apply StartsWith_app|].
  all: apply conj; [eexists; reflexivity|].
  all: apply conj; [find_part|].
  all: apply conj; [find_part|].
  all: apply conj; [first [apply Find_nil | find_part]|].
  all: apply conj; [first [apply Find_nil | find_part]|].
  all: apply conj; [find_part|].
  all: rewrite !length_app; change (List.length (TEXT " ")) with 1%nat;
    cbn [List.length LF]; lia.
Qed.

(** ** The payload for plain text *)

Lemma JRun_app (st : JState) (a b : FString) :
  JRun st (a ++ b)
  = match JRun st a with
    | Some st' => JRun st' b
    | None => None
    end.
Proof.
  revert st. induction a as [|c a IH]; intros st; simpl; [reflexivity|].
  destruct (JStep st c); [apply IH | reflexivity].
Qed.

Lemma JRun_plain (key : bool) (s rest : FString) :
  PlainText s = true ->
  JRun (JInString key) (s ++ rest) = JRun (JInString key) rest.
Proof.
  intros H. induction s as [|c s IH]; simpl in *; [reflexivity|].
  apply andb_true_iff in H as [Hc Hs]. unfold PlainChar in Hc.
  apply andb_true_iff in Hc as [Hc H32]. apply andb_true_iff in Hc as [H34 H92].
  apply negb_true_iff in H34. apply negb_true_iff in H92. apply negb_true_iff in H32.
  rewrite H34, H92, H32. now apply IH.
Qed.

Lemma uint_digits (d : Decimal.uint) :
  forallb IsDigit (TEXT (NilEmpty.string_of_uint d)) = true.
Proof. induction d; simpl; try reflexivity; exact IHd. Qed.

(** Printf("%d") gives decimal digits, at least one, after an optional
    minus sign. *)
Lemma FromInt_shape (z : Z) :
  exists digits,
    digits <> [] /\ forallb IsDigit digits = true
    /\ (FromInt z = digits \/ FromInt z = 45%N :: digits).
Proof.
  assert (Huint : forall d, exists digits,
             digits <> [] /\ forallb IsDigit digits = true
             /\ TEXT (NilZero.string_of_uint d) = digits).
  { intros d. exists (TEXT (NilZero.string_of_uint d)).
    split; [|split; [|reflexivity]].
    - destruct d; discriminate.
    - destruct d; try reflexivity; apply (uint_digits (_ d)). }
  unfold FromInt.
  destruct (Z.to_int z) as [d|d]; destruct (Huint d) as (digits & Hne & Hall & Heq);
    exists digits; (split; [exact Hne|split; [exact Hall|]]).
  - left. exact Heq.
  - right. cbn [NilZero.string_of_int]. unfold TEXT in *. cbn [list_ascii_of_string map].
    now rewrite Heq.
Qed.

Lemma JRun_digits (digits rest : FString) :
  forallb IsDigit digits = true ->
  JRun JInNumber (digits ++ rest) = JRun JInNumber rest.
Proof.
  intros H. induction digits as [|c s IH]; simpl in *; [reflexivity|].
  apply andb_true_iff in H as [Hc Hs]. rewrite Hc. now apply IH.
Qed.

Lemma JRun_number (z : Z) (rest : FString) :
  JRun JValue (FromInt z ++ rest) = JRun JInNumber rest.
Proof.
  destruct (FromInt_shape z) as (digits & Hne & Hall & [-> | ->]).
  - destruct digits as [|c s]; [congruence|].
    simpl in Hall. apply andb_true_iff in Hall as [Hc Hs].
    cbn [app JRun JStep].
    assert (Hsp : IsJSONSpace c = false).
    { unfold IsDigit in Hc. apply andb_true_iff in Hc as [H1 H2].
      apply N.leb_le in H1. unfold IsJSONSpace.
      destruct (N.eqb_spec c 32); [lia|]. destruct (N.eqb_spec c 9); [lia|].
      destruct (N.eqb_spec c 10); [lia|]. destruct (N.eqb_spec c 13); [lia|].
      reflexivity. }
    assert (H34 : (c =? 34)%N = false).
    { unfold IsDigit in Hc. apply andb_true_iff in Hc as [H1 H2].
      apply N.leb_le in H1. apply N.eqb_neq. lia. }
    assert (H45 : (c =? 45)%N = false).
    { unfold IsDigit in Hc. apply andb_true_iff in Hc as [H1 H2].
      apply N.leb_le in H1. apply N.eqb_neq. lia. }
    rewrite Hsp, H34, H45, Hc. now apply JRun_digits.
  - destruct digits as [|c s]; [congruence|].
    simpl in Hall. apply andb_true_iff in Hall as [Hc Hs].
    cbn [app JRun JStep IsJSONSpace N.eqb Pos.eqb orb]. rewrite Hc.
    now apply JRun_digits.
Qed.

Lemma FromInt_plain (z : Z) : PlainText (FromInt z) = true.
Proof.
  assert (Hd : forall s, forallb IsDigit s = true -> PlainText s = true).
  { induction s as [|c s IH]; simpl; [reflexivity|].
    intros H. apply andb_true_iff in H as [Hc Hs]. rewrite (IH Hs).
    unfold IsDigit in Hc. apply andb_true_iff in Hc as [H1 H2].
    apply N.leb_le in H1. apply N.leb_le in H2. unfold PlainChar.
    destruct (N.eqb_spec c 34); [lia|]. destruct (N.eqb_spec c 92); [lia|].
    destruct (N.ltb_spec c 32); [lia|]. reflexivity. }
  destruct (FromInt_shape z) as (digits & _ & Hall & [-> | ->]).
  - now apply Hd.
  - simpl. now apply Hd.
Qed.

Lemma Padded_plain (width : nat) (z : Z) : PlainText (Padded width z) = true.
Proof.
  unfold Padded, PlainText. rewrite forallb_app.
  fold (PlainText (FromInt z)). rewrite FromInt_plain, andb_true_r.
  induction (width - List.length (FromInt z))%nat; simpl; [reflexivity | assumption].
Qed.

Lemma Specifier_plain (c : TCHAR) (t : FDateTime.t) :
  PlainChar c = true -> PlainText (FDateTime.Specifier c t) = true.
Proof.
  intros Hc. unfold FDateTime.Specifier.
  repeat match goal with
         | |- context [if ?b then _ else _] => destruct b
         end;
    try apply Padded_plain; try reflexivity.
  simpl. now rewrite Hc.
Qed.

Lemma Format_plain (t : FDateTime.t) (n : nat) (fmt : FString) :
  (List.length fmt <= n)%nat ->
  PlainText fmt = true -> PlainText (FDateTime.Format fmt t) = true.
Proof.
  revert fmt. induction n as [|n IH]; intros fmt Hlen Hplain.
  - destruct fmt; [reflexivity | simpl in Hlen; lia].
  - destruct fmt as [|c rest]; [reflexivity|].
    simpl in Hplain. apply andb_true_iff in Hplain as [Hc Hrest].
    cbn [FDateTime.Format].
    destruct (c =? FDateTime.ch "%")%N.
    + destruct rest as [|s rest']; [simpl; now rewrite Hc|].
      simpl in Hrest. apply andb_true_iff in Hrest as [Hs Hrest'].
      unfold PlainText. rewrite forallb_app.
      fold (PlainText (FDateTime.Specifier s t)).
      rewrite Specifier_plain by exact Hs.
      apply IH; [simpl in Hlen; lia | exact Hrest'].
    + simpl. rewrite Hc. apply IH; [simpl in Hlen; lia | exact Hrest].
Qed.

Lemma ToIso8601_plain (t : FDateTime.t) : PlainText (FDateTime.ToIso8601 t) = true.
Proof.
  unfold FDateTime.ToIso8601, FDateTime.ToStringWith.
  apply (Format_plain t 100); [vm_compute; repeat constructor | reflexivity].
Qed.

Ltac jstep :=
  match goal with
  | |- context [JRun (JInString ?k) (?s ++ ?r)] =>
      rewrite (JRun_plain k s r) by (first [assumption | apply ToIso8601_plain])
  | |- context [JRun JValue (FromInt ?z ++ ?r)] => rewrite (JRun_number z r)
  | |- context [JRun ?st (?l ++ ?r)] =>
      rewrite (JRun_app st l r);
      let v := eval vm_compute in (JRun st l) in
      lazymatch v with
      | Some _ => change (JRun st l) with v; cbv beta iota
      end
  end.

(** X11. When the event name, the location and the notes contain no quote,
    no backslash and no control character, the payload SendEventToBackend
    builds is a well-formed JSON object, whatever the date, the duration and
    the priority are. *)
Theorem payload_of_plain_text_is_JSON (d : FCalendarEventData) :
  PlainText (EventName d) = true ->
  PlainText (Location d) = true ->
  PlainText (Notes d) = true ->
  IsJSONObject (BuildEventJSON d) = true.
Proof.
  intros Hname Hloc Hnotes.
  unfold IsJSONObject, BuildEventJSON. cbv zeta.
  repeat rewrite <- app_assoc.
  repeat jstep.
  reflexivity.
Qed.

Lemma payload_of_plain_text_is_JSON_witness :
  IsJSONObject (BuildEventJSON DentistEvent) = true.
Proof.
  apply payload_of_plain_text_is_JSON; reflexivity.
Defined.

(** ** More on ExtractNumber *)

Lemma loop_skip (pre x : FString) :
  forallb NotDigit pre = true ->
  ExtractNumber_loop (pre ++ x) [] = ExtractNumber_loop x [].
Proof.
  induction pre as [|c pre IH]; simpl; [reflexivity|].
  intros H. apply andb_true_iff in H as [Hc Hpre].
  unfold NotDigit in Hc. apply negb_true_iff in Hc. rewrite Hc. now apply IH.
Qed.

Lemma loop_take (run x acc : FString) :
  forallb IsDigit run = true ->
  ExtractNumber_loop (run ++ x) acc = ExtractNumber_loop x (acc ++ run).
Proof.
  revert acc. induction run as [|c run IH]; intros acc H; simpl.
  - now rewrite app_nil_r.
  - simpl in H. apply andb_true_iff in H as [Hc Hrun]. rewrite Hc.
    rewrite IH by exact Hrun. now rewrite <- app_assoc.
Qed.

(** X19. ExtractNumber reads the first run of digits and nothing else: text
    before the run that has no digit in it (a minus sign, for one) and
    whatever follows the first character after the run make no difference
    to the result, which is the decimal value of the run, capped at
    INT32_MAX.  For every input the result lies between 0 and INT32_MAX. *)
Theorem ExtractNumber_ignores_surroundings
  (pre run rest : FString) (c : TCHAR) :
  forallb NotDigit pre = true ->
  forallb IsDigit run = true ->
  run <> [] ->
  IsDigit c = false ->
  ExtractNumber (pre ++ run ++ c :: rest) = Z.min INT32_MAX (decimal run)
  /\ ExtractNumber (pre ++ run) = Z.min INT32_MAX (decimal run)
  /\ ExtractNumber run = Z.min INT32_MAX (decimal run)
  /\ forall Input, 0 <= ExtractNumber Input <= INT32_MAX.
Proof.
  intros Hpre Hrun Hne Hc.
  assert (Hval : Atoi run = Z.min INT32_MAX (decimal run)).
  { rewrite (Atoi_digit_run run Hne Hrun).
    pose proof (fold_digits_nonneg run 0 (Z.le_refl 0) Hrun) as Hpos.
    fold (decimal run) in Hpos. unfold clamp32, INT32_MIN, INT32_MAX. lia. }
  assert (Hloop1 : ExtractNumber_loop (pre ++ run ++ c :: rest) [] = run).
  { rewrite loop_skip by exact Hpre. rewrite loop_take by exact Hrun.
    cbn [app ExtractNumber_loop]. rewrite Hc.
    destruct run; [congruence | reflexivity]. }
  assert (Hloop2 : ExtractNumber_loop (pre ++ run) [] = run).
  { rewrite loop_skip by exact Hpre.
    rewrite <- (app_nil_r run) at 1. rewrite loop_take by exact Hrun. reflexivity. }
  assert (Hloop3 : ExtractNumber_loop run [] = run).
  { rewrite <- (app_nil_r run) at 1. rewrite loop_take by exact Hrun. reflexivity. }
  unfold ExtractNumber. rewrite Hloop1, Hloop2, Hloop3.
  destruct run as [|d run']; [congruence|]. cbn [IsEmpty].
  apply conj; [exact Hval|]. apply conj; [exact Hval|]. apply conj; [exact Hval|].
  exact ExtractNumber_range.
Qed.

Lemma ExtractNumber_ignores_surroundings_witness :
  ExtractNumber (TEXT "priority -" ++ TEXT "7" ++ N_of_ascii "." :: TEXT "5") = 7.
Proof.
  assert (Hne : TEXT "7" <> []) by discriminate.
  destruct (ExtractNumber_ignores_surroundings
              (TEXT "priority -") (TEXT "7") (TEXT "5") (N_of_ascii ".")
              eq_refl eq_refl Hne eq_refl) as (H & _).
  etransitivity; [exact H | reflexivity].
Defined.

(** ** Starting over *)

Lemma session_step_eq (w : World) (c : Call) (rest : list (World * Call))
  (e1 e2 : Engine) :
  engine_of (run c w e1) = engine_of (run c w e2) ->
  effects (trace_of (run c w e1)) = effects (trace_of (run c w e2)) ->
  fst (session ((w, c) :: rest) e1) = fst (session ((w, c) :: rest) e2)
  /\ effects (snd (session ((w, c) :: rest) e1))
     = effects (snd (session ((w, c) :: rest) e2)).
Proof.
  intros He Ht. cbn [session]. rewrite He.
  destruct (session rest (engine_of (run c w e2))) as [e' t].
  cbn [fst snd]. unfold effects in *. rewrite !map_app, Ht. auto.
Qed.

(** X20. StartEventCreation and CancelFlow wipe the slate.  A session that
    begins with either call ends in the same state, with the same record,
    and produces the same effects whatever state and record the component
    was in before.  StartEventCreation in the middle of a flow drops the
    answers given so far without broadcasting OnFlowCancelled; CancelFlow
    broadcasts OnFlowCancelled once even when no flow is in progress. *)
Theorem start_and_cancel_forget_the_past
  (w : World) (rest : list (World * Call)) (e1 e2 : Engine) :
  (fst (session ((w, CallStartEventCreation) :: rest) e1)
   = fst (session ((w, CallStartEventCreation) :: rest) e2)
   /\ effects (snd (session ((w, CallStartEventCreation) :: rest) e1))
      = effects (snd (session ((w, CallStartEventCreation) :: rest) e2)))
  /\ (fst (session ((w, CallCancelFlow) :: rest) e1)
      = fst (session ((w, CallCancelFlow) :: rest) e2)
      /\ effects (snd (session ((w, CallCancelFlow) :: rest) e1))
         = effects (snd (session ((w, CallCancelFlow) :: rest) e2)))
  /\ Cancellations (trace_of (StartEventCreation w e1)) = 0%nat
  /\ Created (trace_of (StartEventCreation w e1)) = []
  /\ Cancellations (trace_of (CancelFlow w e1)) = 1%nat.
Proof.
  split; [|split; [|repeat split]].
  - apply session_step_eq; reflexivity.
  - apply session_step_eq; reflexivity.
Qed.

(** ** The retry contract, against the rules of the specification *)

Lemma StartsWith_app_l (t b s : FString) :
  StartsWith t s = true -> StartsWith (t ++ b) s = true.
Proof.
  revert t.
  induction s as [|x s IH]; intros t H; [now destruct (t ++ b)|].
  destruct t as [|y t]; [discriminate H|].
  simpl in *. apply andb_true_iff in H as [H1 H2].
  rewrite H1. simpl. now apply IH.
Qed.

Lemma Find_app_l (t b s : FString) : Find t s = true -> Find (t ++ b) s = true.
Proof.
  induction t as [|c t IH]; intros H.
  - rewrite Find_unfold in H. rewrite orb_false_r in H.
    destruct s; [apply Find_nil | discriminate H].
  - rewrite Find_unfold in H. apply orb_true_iff in H as [H|H].
    + rewrite Find_unfold. rewrite (StartsWith_app_l _ b _ H). reflexivity.
    + change ((c :: t) ++ b) with ([c] ++ (t ++ b)). apply Find_later. now apply IH.
Qed.

Lemma TrimStart_split (s : FString) :
  exists pre, forallb IsWhitespace pre = true /\ s = pre ++ TrimStart s.
Proof.
  induction s as [|c s (pre & Hpre & Hs)]; [now exists []|].
  simpl. destruct (IsWhitespace c) eqn:Hc.
  - exists (c :: pre). simpl. rewrite Hc, Hpre. split; [reflexivity|]. now f_equal.
  - now exists [].
Qed.

Lemma TrimEnd_split (s : FString) :
  exists post, forallb IsWhitespace post = true /\ s = TrimEnd s ++ post.
Proof.
  destruct (TrimStart_split (rev s)) as (pre & Hpre & Hs).
  exists (rev pre). split.
  - rewrite forallb_forall in *. intros x Hx. apply Hpre. now apply in_rev.
  - unfold TrimEnd. rewrite <- rev_app_distr, <- Hs. now rewrite rev_involutive.
Qed.

(** What is found in the trimmed text is found in the text. *)
Lemma Find_Trim (x s : FString) :
  Find (TrimStartAndEnd x) s = true -> Find x s = true.
Proof.
  intros H. unfold TrimStartAndEnd in H.
  destruct (TrimStart_split x) as (pre & _ & Hx).
  destruct (TrimEnd_split (TrimStart x)) as (post & _ & Hy).
  rewrite Hx. apply Find_later. rewrite Hy. now apply Find_app_l.
Qed.

Lemma Contains_Trim (x s : FString) :
  Contains (TrimStartAndEnd (ToLower x)) s = true -> Contains x s = true.
Proof.
  unfold Contains. rewrite <- Trim_ToLower, ToLower_idem. apply Find_Trim.
Qed.

Lemma IsDigit_CharToLower (c : TCHAR) : IsDigit (CharToLower c) = IsDigit c.
Proof.
  unfold CharToLower, IsDigit.
  destruct (N.leb_spec 65 c); destruct (N.leb_spec c 90); cbn [andb]; try reflexivity.
  destruct (N.leb_spec 48 (c + 32)); destruct (N.leb_spec (c + 32) 57);
    destruct (N.leb_spec 48 c); destruct (N.leb_spec c 57); cbn [andb];
    try reflexivity; lia.
Qed.

Lemma CharToLower_digit (c : TCHAR) : IsDigit c = true -> CharToLower c = c.
Proof.
  unfold CharToLower, IsDigit. intros H.
  apply andb_true_iff in H as [H1 H2].
  apply N.leb_le in H1. apply N.leb_le in H2.
  destruct (N.leb_spec 65 c); [lia | reflexivity].
Qed.

Lemma take_while_digit_ToLower (s : FString) :
  take_while IsDigit (ToLower s) = take_while IsDigit s.
Proof.
  induction s as [|c s IH]; [reflexivity|].
  simpl. rewrite IsDigit_CharToLower.
  destruct (IsDigit c) eqn:Hc; [|reflexivity].
  now rewrite IH, CharToLower_digit.
Qed.

Lemma first_digit_run_ToLower (s : FString) :
  first_digit_run (ToLower s) = first_digit_run s.
Proof.
  unfold first_digit_run.
  induction s as [|c s IH]; [reflexivity|].
  simpl. unfold NotDigit at 1 3. rewrite IsDigit_CharToLower.
  destruct (IsDigit c) eqn:Hc; cbn [negb]; [|exact IH].
  simpl. rewrite IsDigit_CharToLower, Hc.
  now rewrite take_while_digit_ToLower, CharToLower_digit.
Qed.

Lemma blank_not_digit (s : FString) :
  forallb IsWhitespace s = true -> forallb NotDigit s = true.
Proof.
  induction s as [|c s IH]; [reflexivity|].
  simpl. intros H. apply andb_true_iff in H as [Hc Hs].
  rewrite (IH Hs), andb_true_r.
  unfold NotDigit, IsDigit. unfold IsWhitespace in Hc.
  apply orb_true_iff in Hc as [Hc|Hc].
  - apply N.eqb_eq in Hc. now subst c.
  - apply andb_true_iff in Hc as [H1 H2].
    apply N.leb_le in H1. apply N.leb_le in H2.
    destruct (N.leb_spec 48 c); [lia | reflexivity].
Qed.

Lemma first_digit_run_skip (pre s : FString) :
  forallb NotDigit pre = true -> first_digit_run (pre ++ s) = first_digit_run s.
Proof.
  unfold first_digit_run.
  induction pre as [|c pre IH]; [reflexivity|].
  simpl. intros H. apply andb_true_iff in H as [Hc Hpre].
  rewrite Hc. now apply IH.
Qed.

Lemma take_while_digit_app (r post : FString) :
  forallb NotDigit post = true ->
  take_while IsDigit (r ++ post) = take_while IsDigit r.
Proof.
  intros H.
  induction r as [|c r IH]; simpl.
  - destruct post as [|p post]; [reflexivity|].
    simpl in *. apply andb_true_iff in H as [Hp _].
    unfold NotDigit in Hp. now destruct (IsDigit p).
  - destruct (IsDigit c); [now rewrite IH | reflexivity].
Qed.

Lemma drop_while_all (p : TCHAR -> bool) (s : FString) :
  forallb p s = true -> drop_while p s = [].
Proof.
  induction s as [|c s IH]; [reflexivity|].
  simpl. intros H. apply andb_true_iff in H as [Hc Hs].
  rewrite Hc. now apply IH.
Qed.

Lemma first_digit_run_app (s post : FString) :
  forallb NotDigit post = true -> first_digit_run (s ++ post) = first_digit_run s.
Proof.
  intros H. unfold first_digit_run.
  induction s as [|c s IH]; simpl.
  - now rewrite (drop_while_all _ _ H).
  - destruct (NotDigit c) eqn:Hc; [exact IH|].
    change (c :: s ++ post) with ((c :: s) ++ post).
    now apply take_while_digit_app.
Qed.

(** Trimming and lowering leave the first run of digits alone. *)
Lemma first_digit_run_Trim (s : FString) :
  first_digit_run (TrimStartAndEnd s) = first_digit_run s.
Proof.
  unfold TrimStartAndEnd.
  destruct (TrimStart_split s) as (pre & Hpre & Hs).
  destruct (TrimEnd_split (TrimStart s)) as (post & Hpost & Hy).
  rewrite Hs at 2. rewrite (first_digit_run_skip _ _ (blank_not_digit _ Hpre)).
  rewrite Hy at 2. now rewrite (first_digit_run_app _ _ (blank_not_digit _ Hpost)).
Qed.

Lemma SpecNumber_nonneg (Answer : FString) : 0 <= SpecNumber Answer.
Proof.
  apply (fold_digits_nonneg (first_digit_run Answer) 0 (Z.le_refl 0)).
  apply take_while_all.
Qed.

(** ExtractNumber is the number of the specification, cut to an int32. *)
Lemma ExtractNumber_SpecNumber (Input : FString) :
  ExtractNumber Input = clamp32 (SpecNumber Input).
Proof.
  rewrite ExtractNumber_value. unfold SpecNumber.
  destruct (existsb IsDigit Input) eqn:Hd; [reflexivity|].
  now rewrite first_digit_run_empty.
Qed.

Lemma ParseDuration_fails (Answer : FString) :
  SpecNumber Answer <= 0 -> ParseDuration Answer = 0.
Proof.
  intros H. unfold ParseDuration. cbv zeta.
  rewrite ExtractNumber_SpecNumber. unfold SpecNumber.
  rewrite first_digit_run_Trim, first_digit_run_ToLower.
  fold (SpecNumber Answer).
  assert (Hc : (clamp32 (SpecNumber Answer) <=? 0) = true).
  { apply Z.leb_le. unfold clamp32, INT32_MIN, INT32_MAX. lia. }
  now rewrite Hc.
Qed.

Lemma ProcessPriority_fails (Answer : FString) :
  (SpecNumber Answer <? 1) || (10 <? SpecNumber Answer) = true ->
  (ExtractNumber Answer <? 1) || (ExtractNumber Answer >? 10) = true.
Proof.
  intros H. rewrite ExtractNumber_SpecNumber.
  apply orb_true_iff in H. apply orb_true_iff.
  unfold clamp32, INT32_MIN, INT32_MAX.
  destruct H as [H|H]; [left | right].
  - apply Z.ltb_lt in H. apply Z.ltb_lt. lia.
  - apply Z.ltb_lt in H. rewrite Z.gtb_ltb. apply Z.ltb_lt. lia.
Qed.

(** Outside the name question, and for names shorter than two characters
    as typed, an answer the specification's rule turns down is turned down
    by ProcessAnswer. *)
Lemma fails_then_rejected (w : World) (e : Engine) (Answer : FString) :
  FailsValidation (CurrentState e) Answer = true ->
  (CurrentState e = AskingEventName -> Len Answer < 2) ->
  result (ProcessAnswer Answer w e) = false.
Proof.
  destruct e as [s d]. cbn [CurrentState]. intros Hfail Hname.
  destruct s; cbn [FailsValidation] in Hfail; try discriminate Hfail.
  - (* name *)
    specialize (Hname eq_refl).
    destruct Answer as [|a [|b rest]]; [reflexivity | reflexivity |].
    unfold Len in Hname. cbn [List.length] in Hname. lia.
  - (* date *)
    apply negb_true_iff in Hfail. apply orb_false_iff in Hfail as [Htod Htom].
    unfold Mentions in Htod, Htom.
    assert (Htod' : Contains (TrimStartAndEnd (ToLower Answer)) (TEXT "today") = false).
    { destruct (Contains (TrimStartAndEnd (ToLower Answer)) (TEXT "today")) eqn:E;
        [|reflexivity].
      apply Contains_Trim in E. congruence. }
    assert (Htom' : Contains (TrimStartAndEnd (ToLower Answer)) (TEXT "tomorrow") = false).
    { destruct (Contains (TrimStartAndEnd (ToLower Answer)) (TEXT "tomorrow")) eqn:E;
        [|reflexivity].
      apply Contains_Trim in E. congruence. }
    mred. rewrite Htom', Htod'. mred.
    change (FDateTime.MinValue =? FDateTime.MinValue) with true. reflexivity.
  - (* duration *)
    apply Z.leb_le in Hfail.
    mred. rewrite (ParseDuration_fails _ Hfail). reflexivity.
  - (* priority *)
    apply ProcessPriority_fails in Hfail.
    mred. rewrite Hfail. reflexivity.
Qed.

(** At the name question an answer of two characters or more is taken,
    whatever it trims to. *)
Lemma long_name_taken (w : World) (d : FCalendarEventData) (Answer : FString) :
  2 <= Len Answer ->
  let r := ProcessUserResponse Answer w (mkEngine AskingEventName d) in
  engine_of r = mkEngine AskingDateTime (set_EventName (TrimStartAndEnd Answer) d)
  /\ Questions (trace_of r) = [QuestionDateTime].
Proof.
  intros Hlen. cbv zeta.
  assert (H : IsEmpty Answer || (Len Answer <? 2) = false).
  { apply orb_false_iff. split.
    - destruct Answer; [cbn in Hlen; lia | reflexivity].
    - now apply Z.ltb_ge. }
  mred. rewrite H. split; reflexivity.
Qed.

(** C2 (the code differs). Let a call of the public interface, made in one
    of the eight states of the flow, leave the component in a state other
    than Confirming, and let the next answer fail the rule the
    specification gives for that state.  Outside the name question, and at
    the name question when the answer has fewer than two characters as
    typed, ProcessUserResponse leaves CurrentState and EventData as they
    were and broadcasts exactly one question, the one the previous call
    broadcast.  At the name question an answer that is two characters or
    more as typed but trims to fewer is taken: the state moves on to the
    date question, the trimmed text is stored as the name and the question
    broadcast is the date question instead of the name question. *)
Theorem retry_contract_but_for_padded_names
  (w0 w : World) (c : Call) (e0 : Engine) (Answer : FString) :
  let before := run c w0 e0 in
  let e := engine_of before in
  let after := ProcessUserResponse Answer w e in
  Observable (CurrentState e0) = true ->
  CurrentState e <> Confirming ->
  FailsValidation (CurrentState e) Answer = true ->
  ((CurrentState e = AskingEventName -> Len Answer < 2) ->
   GetCurrentState (engine_of after) = GetCurrentState e
   /\ GetEventData (engine_of after) = GetEventData e
   /\ exists q, Questions (trace_of before) = [q] /\ Questions (trace_of after) = [q])
  /\ (CurrentState e = AskingEventName -> 2 <= Len Answer ->
      GetCurrentState (engine_of after) = AskingDateTime
      /\ GetEventData (engine_of after)
         = set_EventName (TrimStartAndEnd Answer) (GetEventData e)
      /\ Len (EventName (GetEventData (engine_of after))) < 2
      /\ Questions (trace_of before) = [QuestionEventName]
      /\ Questions (trace_of after) = [QuestionDateTime]).
Proof.
  intros before e after Hobs Hstate Hfail. split.
  - intros Hname.
    pose proof (fails_then_rejected w e Answer Hfail Hname) as Hrej.
    destruct (invalid_answer_asks_again w0 w c e0 Answer Hobs Hstate Hrej)
      as (H1 & H2 & _ & H4).
    fold before e after in H1, H2, H4.
    split; [exact H1|]. split; [exact H2|].
    apply H4. intros Hidle. rewrite Hidle in Hfail. discriminate Hfail.
  - intros Hname Hlen.
    pose proof (question_of_state w0 w c e0 Hobs Hstate) as Hprev.
    fold before e in Hprev.
    subst after. destruct e as [s d]. cbn [CurrentState] in *. subst s.
    destruct (long_name_taken w d Answer Hlen) as [He Hq].
    unfold GetCurrentState, GetEventData. rewrite He. cbn [CurrentState EventData].
    split; [reflexivity|]. split; [reflexivity|].
    split; [cbn [FailsValidation] in Hfail; apply Z.ltb_lt in Hfail; exact Hfail|].
    split; [rewrite Hprev; reflexivity | exact Hq].
Qed.

Lemma retry_contract_but_for_padded_names_witness :
  let Blank := TEXT "  " in
  let Padded := TEXT " a" in
  let e := engine_of (StartEventCreation WorldWithManager Constructed) in
  (FailsValidation AskingEventName Blank = true
   /\ GetCurrentState (engine_of (ProcessUserResponse Blank WorldWithManager e))
      = AskingDateTime
   /\ Questions (trace_of (ProcessUserResponse Blank WorldWithManager e))
      = [QuestionDateTime])
  /\ (FailsValidation AskingEventName Padded = true
      /\ GetCurrentState (engine_of (ProcessUserResponse Padded WorldWithManager e))
         = AskingDateTime
      /\ EventName (GetEventData (engine_of (ProcessUserResponse Padded WorldWithManager e)))
         = TEXT "a")
  /\ (FailsValidation AskingDuration (TEXT "banana") = true
      /\ GetCurrentState
           (engine_of (ProcessUserResponse (TEXT "banana") WorldWithManager
                         (mkEngine AskingDuration DentistEvent)))
         = AskingDuration
      /\ GetEventData
           (engine_of (ProcessUserResponse (TEXT "banana") WorldWithManager
                         (mkEngine AskingDuration DentistEvent)))
         = DentistEvent).
Proof.
  intros Blank Padded e. split; [|split].
  - destruct (retry_contract_but_for_padded_names WorldWithManager WorldWithManager
                CallStartEventCreation Constructed Blank)
      as [_ H]; [reflexivity | discriminate | reflexivity |].
    destruct H as (H1 & _ & _ & _ & H5); [reflexivity | vm_compute; discriminate |].
    split; [reflexivity|]. split; [exact H1 | exact H5].
  - destruct (retry_contract_but_for_padded_names WorldWithManager WorldWithManager
                CallStartEventCreation Constructed Padded)
      as [_ H]; [reflexivity | discriminate | reflexivity |].
    destruct H as (H1 & H2 & _); [reflexivity | vm_compute; discriminate |].
    split; [reflexivity|]. split; [exact H1|].
    etransitivity; [exact (f_equal EventName H2) | reflexivity].
  - destruct (retry_contract_but_for_padded_names WorldWithManager WorldWithManager
                (CallProcessUserResponse (TEXT "banana"))
                (mkEngine AskingDuration DentistEvent) (TEXT "banana"))
      as [H _]; [reflexivity | discriminate | reflexivity |].
    destruct H as (H1 & H2 & _); [intros E; discriminate E|].
    split; [reflexivity|]. split; [exact H1 | exact H2].
Defined.

(** ** States under handlers that call back *)

(** Without handlers the member functions written over a monad are those
    of the first part. *)
Lemma Plain_run (c : Call) : @WithHandlers.run M Plain c = run c.
Proof. destruct c; reflexivity. Qed.

Ltac hred :=
  cbv beta iota zeta delta
    [WithHandlers.run WithHandlers.ProcessUserResponse WithHandlers.ProcessAnswer
     WithHandlers.AdvanceToNextState WithHandlers.AskCurrentQuestion
     WithHandlers.SendEventToBackend WithHandlers.CancelFlow
     WithHandlers.StartEventCreation WithHandlers.LogCalendar
     WithHandlers.ProcessEventName WithHandlers.ProcessDateTime
     WithHandlers.ProcessDuration WithHandlers.ProcessLocation
     WithHandlers.ProcessNotes WithHandlers.ProcessPriority
     WithHandlers.ProcessConfirmation WithHandlers.ParseDateTime
     WithHandlers.bind WithHandlers.ret WithHandlers.emit
     WithHandlers.get_CurrentState WithHandlers.set_CurrentState
     WithHandlers.get_EventData WithHandlers.put_EventData
     WithHandlers.update_EventData WithHandlers.FDateTime_Now
     WithHandlers.GetAllActorsOfClass WithHandlers.Handled WithHandlers.on_engine
     WithHandlers.broadcast
     run ProcessUserResponse ProcessAnswer AdvanceToNextState AskCurrentQuestion
     SendEventToBackend CancelFlow StartEventCreation LogCalendar
     ProcessEventName ProcessDateTime ProcessDuration ProcessLocation
     ProcessNotes ProcessPriority ProcessConfirmation ParseDateTime
     bind ret emit get_CurrentState set_CurrentState get_EventData put_EventData
     update_EventData FDateTime_Now GetAllActorsOfClass
     result engine_of trace_of state_eqb fst snd map app
     CurrentState EventData].

Ltac hsplit :=
  repeat (hred;
          match goal with
          | |- context [if ?b then _ else _] => destruct b eqn:?
          | |- context [match FoundActors ?w with _ => _ end] =>
              destruct (FoundActors w) as [|[?|] ?] eqn:?
          end);
  hred.

(** While no handler is run, a call does in the embedding with handlers
    what it does in the first one: same members afterwards, same effects
    seen in the same states. *)
Lemma run_without_handlers
  (H : Type) (handler : H -> Effect -> Engine -> H * list (World * Call))
  (c : Call) (w : World) (e : Engine) (h : H) :
  @WithHandlers.run _ (WithHandlers.Handled H (WithHandlers.broadcast H handler 0))
    c w (e, h)
  = (tt, (engine_of (run c w e), h), map WithHandlers.Emitted (trace_of (run c w e))).
Proof.
  destruct e as [s d].
  destruct c; destruct s.
  all: hsplit; reflexivity.
Qed.

Lemma Emissions_app (a b : list WithHandlers.Observation) :
  Emissions (a ++ b) = Emissions a ++ Emissions b.
Proof. unfold Emissions. apply flat_map_app. Qed.

Lemma Emissions_Emitted (t : list Emission) :
  Emissions (map WithHandlers.Emitted t) = t.
Proof.
  unfold Emissions.
  induction t as [|x t IH]; [reflexivity|].
  cbn [map flat_map app]. now rewrite IH.
Qed.

Lemma session_without_handlers
  (H : Type) (handler : H -> Effect -> Engine -> H * list (World * Call))
  (cs : list (World * Call)) (e : Engine) (h : H) :
  fst (WithHandlers.session H handler 0 cs (e, h)) = (fst (session cs e), h)
  /\ Emissions (snd (WithHandlers.session H handler 0 cs (e, h))) = snd (session cs e).
Proof.
  unfold WithHandlers.session. revert e.
  induction cs as [|[w c] rest IH]; intros e; [split; reflexivity|].
  cbn [WithHandlers.calls session].
  rewrite run_without_handlers.
  destruct (IH (engine_of (run c w e))) as [H1 H2].
  destruct (WithHandlers.calls H _ rest (engine_of (run c w e), h)) as [s2 t2].
  destruct (session rest (engine_of (run c w e))) as [e' t].
  cbn [fst snd] in *.
  split; [exact H1|].
  rewrite Emissions_app, Emissions_Emitted.
  change (Emissions (WithHandlers.Returned c e (engine_of (run c w e)) :: t2))
    with (Emissions t2).
  now rewrite H2.
Qed.

(** *** What a run may show *)

Lemma Ok_loose (b : bool) (s : ECalendarDialogueState) : Ok true s -> Ok b s.
Proof. destruct b; [trivial|]. unfold Ok. now destruct s. Qed.

Lemma Ok_NotComplete (b : bool) (s : ECalendarDialogueState) :
  Ok b s -> NotComplete s = true.
Proof. unfold Ok. destruct b; now destruct s. Qed.

Section CallBacks.

Variable H : Type.
Local Abbreviation R := (WithHandlers.R H).

Lemma Runs_pre {A : Type} (P P' Q : ECalendarDialogueState -> Prop) (m : R A) :
  (forall s, P s -> P' s) -> Runs P' m Q -> Runs P m Q.
Proof. intros HP Hm w s Hs. apply Hm. now apply HP. Qed.

Lemma Runs_post {A : Type} (P Q Q' : ECalendarDialogueState -> Prop) (m : R A) :
  (forall s, Q s -> Q' s) -> Runs P m Q -> Runs P m Q'.
Proof.
  intros HQ Hm w s Hs. destruct (Hm w s Hs) as [H1 H2].
  split; [now apply HQ | exact H2].
Qed.

Section Members.

Variable broadcast : Effect -> R unit.
Local Abbreviation C := (WithHandlers.Handled H broadcast).

Hypothesis broadcast_flow : forall x, Runs (Ok true) (broadcast x) (Ok true).
Hypothesis broadcast_hand_off :
  forall x, HandOffEffect x = true -> Runs (Ok false) (broadcast x) (Ok false).

Lemma Runs_ret {A : Type} (P : ECalendarDialogueState -> Prop) (a : A) :
  Runs P (@WithHandlers.ret R C A a) P.
Proof. intros w s Hs. split; [exact Hs | reflexivity]. Qed.

Lemma Runs_bind {A B : Type} (P Q S : ECalendarDialogueState -> Prop)
  (m : R A) (f : A -> R B) :
  Runs P m Q -> (forall a, Runs Q (f a) S) ->
  Runs P (@WithHandlers.bind R C A B m f) S.
Proof.
  intros Hm Hf w s Hs. cbn [WithHandlers.bind WithHandlers.Handled].
  destruct (Hm w s Hs) as [H1 H2].
  destruct (m w s) as [[a s1] t1]. cbn [fst snd] in H1, H2.
  destruct (Hf a w s1 H1) as [H3 H4].
  destruct (f a w s1) as [[b s2] t2]. cbn [fst snd] in *.
  split; [exact H3|]. rewrite forallb_app. now rewrite H2, H4.
Qed.

Lemma Runs_get_CurrentState {B : Type} (P S : ECalendarDialogueState -> Prop)
  (f : ECalendarDialogueState -> R B) :
  (forall s, P s -> Runs (eq s) (f s) S) ->
  Runs P (@WithHandlers.bind R C _ B (@WithHandlers.get_CurrentState R C) f) S.
Proof.
  intros Hf w s Hs.
  cbn [WithHandlers.bind WithHandlers.get_CurrentState WithHandlers.Handled].
  unfold WithHandlers.on_engine. cbn [fst snd].
  destruct s as [e h]. cbn [fst snd] in *.
  destruct (Hf _ Hs w (e, h) eq_refl) as [H1 H2].
  destruct (f (CurrentState e) w (e, h)) as [[b s2] t2]. cbn [fst snd app] in *.
  split; assumption.
Qed.

Lemma Runs_set_CurrentState (P : ECalendarDialogueState -> Prop)
  (s' : ECalendarDialogueState) :
  Runs P (@WithHandlers.set_CurrentState R C s') (eq s').
Proof. intros w [e h] _. split; reflexivity. Qed.

Lemma Runs_get_EventData (P : ECalendarDialogueState -> Prop) :
  Runs P (@WithHandlers.get_EventData R C) P.
Proof. intros w [e h] Hs. split; [exact Hs | reflexivity]. Qed.

Lemma Runs_put_EventData (P : ECalendarDialogueState -> Prop) (d : FCalendarEventData) :
  Runs P (@WithHandlers.put_EventData R C d) P.
Proof. intros w [e h] Hs. split; [exact Hs | reflexivity]. Qed.

Lemma Runs_update_EventData (P : ECalendarDialogueState -> Prop)
  (f : FCalendarEventData -> FCalendarEventData) :
  Runs P (@WithHandlers.update_EventData R C f) P.
Proof. intros w [e h] Hs. split; [exact Hs | reflexivity]. Qed.

Lemma Runs_FDateTime_Now (P : ECalendarDialogueState -> Prop) :
  Runs P (@WithHandlers.FDateTime_Now R C) P.
Proof. intros w [e h] Hs. split; [exact Hs | reflexivity]. Qed.

Lemma Runs_GetAllActorsOfClass (P : ECalendarDialogueState -> Prop) :
  Runs P (@WithHandlers.GetAllActorsOfClass R C) P.
Proof. intros w [e h] Hs. split; [exact Hs | reflexivity]. Qed.

Lemma Runs_emit (b : bool) (x : Effect) :
  HandOffEffect x = true -> Runs (Ok b) (@WithHandlers.emit R C x) (Ok b).
Proof.
  intros Hx. destruct b; [apply broadcast_flow | now apply broadcast_hand_off].
Qed.

(** Side conditions: the state just set, or just read, is one the next
    step may run in. *)
Ltac side :=
  let s := fresh "s" in
  let Hs := fresh "Hs" in
  intros s Hs;
  first [ exact Hs
        | apply Ok_loose; exact Hs
        | subst s; first [reflexivity | assumption | apply Ok_loose; assumption] ].

Ltac by_lemma L :=
  eapply Runs_pre; [|eapply Runs_post; [|apply L]]; solve [side].

Ltac primitive :=
  first [ apply Runs_get_EventData | apply Runs_put_EventData
        | apply Runs_update_EventData | apply Runs_FDateTime_Now
        | apply Runs_GetAllActorsOfClass ].

Lemma LogCalendar_runs (b : bool) (Message : FString) (bWarning : bool) :
  Runs (Ok b) (@WithHandlers.LogCalendar R C Message bWarning) (Ok b).
Proof.
  unfold WithHandlers.LogCalendar.
  destruct bWarning; now apply Runs_emit.
Qed.

(** One step of a member function: a primitive or a line of the log, then
    the rest.  [b] says which states the line of the log is written in. *)
Ltac step b :=
  lazymatch goal with
  | |- Runs _ (WithHandlers.bind (WithHandlers.LogCalendar _ _) _) _ =>
      eapply Runs_bind; [by_lemma (LogCalendar_runs b) | intros _]
  | |- Runs _ (WithHandlers.bind (WithHandlers.set_CurrentState _) _) _ =>
      eapply Runs_bind; [apply Runs_set_CurrentState | intros _]
  | |- Runs _ (WithHandlers.bind _ _) _ =>
      eapply Runs_bind; [primitive | intros ?]
  | |- Runs _ (WithHandlers.ret _) _ =>
      eapply Runs_post; [|apply Runs_ret]; solve [side]
  | |- Runs _ (WithHandlers.LogCalendar _ _) _ => by_lemma (LogCalendar_runs b)
  | |- Runs _ (WithHandlers.set_CurrentState _) _ =>
      eapply Runs_post; [|apply Runs_set_CurrentState]; solve [side]
  end.

Lemma ParseDateTime_runs (b : bool) (Input : FString) :
  Runs (Ok b) (@WithHandlers.ParseDateTime R C Input) (Ok b).
Proof.
  unfold WithHandlers.ParseDateTime. cbv zeta.
  step b.
  repeat match goal with
         | |- Runs _ (if ?c then _ else _) _ => destruct c
         end; repeat step b.
Qed.

Lemma AskCurrentQuestion_runs (b : bool) :
  Runs (Ok b) (@WithHandlers.AskCurrentQuestion R C) (Ok b).
Proof.
  unfold WithHandlers.AskCurrentQuestion.
  apply Runs_get_CurrentState. intros s Hs. cbv zeta.
  assert (Hask : forall Question,
             Observable s = true ->
             Runs (eq s)
               (@WithHandlers.bind R C _ _
                  (@WithHandlers.LogCalendar R C (TEXT "Asking: " ++ Question) false)
                  (fun _ => @WithHandlers.emit R C (OnAskQuestion Question)))
               (Ok b)).
  { intros Question Hobs.
    eapply Runs_bind; [|intros _; eapply Runs_post; [|apply broadcast_flow]; solve [side]].
    eapply Runs_pre; [|apply (LogCalendar_runs true)].
    intros s' <-. exact Hobs. }
  destruct s; try (apply Hask; reflexivity); try (step b).
  apply Hask. reflexivity.
Qed.

Lemma CancelFlow_runs : Runs (Ok false) (@WithHandlers.CancelFlow R C) (Ok true).
Proof.
  unfold WithHandlers.CancelFlow.
  do 3 (step false).
  eapply Runs_pre; [|apply broadcast_flow]. side.
Qed.

Lemma StartEventCreation_runs :
  Runs (Ok false) (@WithHandlers.StartEventCreation R C) (Ok true).
Proof.
  unfold WithHandlers.StartEventCreation.
  do 4 (step false).
  by_lemma (AskCurrentQuestion_runs true).
Qed.

Lemma ProcessEventName_runs (b : bool) (Answer : FString) :
  Runs (Ok b) (@WithHandlers.ProcessEventName R C Answer) (Ok b).
Proof.
  unfold WithHandlers.ProcessEventName.
  destruct (_ || _); repeat step b.
Qed.

Lemma ProcessDateTime_runs (b : bool) (Answer : FString) :
  Runs (Ok b) (@WithHandlers.ProcessDateTime R C Answer) (Ok b).
Proof.
  unfold WithHandlers.ProcessDateTime.
  eapply Runs_bind; [apply ParseDateTime_runs | intros ParsedDateTime].
  destruct (_ =? _); repeat step b.
Qed.

Lemma ProcessDuration_runs (b : bool) (Answer : FString) :
  Runs (Ok b) (@WithHandlers.ProcessDuration R C Answer) (Ok b).
Proof.
  unfold WithHandlers.ProcessDuration. cbv zeta.
  destruct (_ <=? _); repeat step b.
Qed.

Lemma ProcessLocation_runs (b : bool) (Answer : FString) :
  Runs (Ok b) (@WithHandlers.ProcessLocation R C Answer) (Ok b).
Proof.
  unfold WithHandlers.ProcessLocation. cbv zeta.
  eapply Runs_bind; [|intros _; step b].
  destruct (IsSkipWord _); repeat step b.
Qed.

Lemma ProcessNotes_runs (b : bool) (Answer : FString) :
  Runs (Ok b) (@WithHandlers.ProcessNotes R C Answer) (Ok b).
Proof.
  unfold WithHandlers.ProcessNotes. cbv zeta.
  eapply Runs_bind; [|intros _; step b].
  destruct (IsSkipWord _); repeat step b.
Qed.

Lemma ProcessPriority_runs (b : bool) (Answer : FString) :
  Runs (Ok b) (@WithHandlers.ProcessPriority R C Answer) (Ok b).
Proof.
  unfold WithHandlers.ProcessPriority. cbv zeta.
  destruct (_ || _); repeat step b.
Qed.

Lemma ProcessConfirmation_runs (b : bool) (Answer : FString) :
  Runs (Ok b) (@WithHandlers.ProcessConfirmation R C Answer) (Ok b).
Proof.
  unfold WithHandlers.ProcessConfirmation. cbv zeta.
  destruct (negb _).
  - step b. eapply Runs_bind; [|intros _; step b].
    eapply Runs_pre; [|eapply Runs_post; [|apply CancelFlow_runs]].
    + intros s Hs. destruct b; [now apply (Ok_loose false) | exact Hs].
    + side.
  - repeat step b.
Qed.

Lemma ProcessAnswer_runs (b : bool) (Answer : FString) :
  Runs (Ok b) (@WithHandlers.ProcessAnswer R C Answer) (Ok b).
Proof.
  unfold WithHandlers.ProcessAnswer.
  apply Runs_get_CurrentState. intros s Hs.
  destruct s; try step b.
  - by_lemma (ProcessEventName_runs b).
  - by_lemma (ProcessDateTime_runs b).
  - by_lemma (ProcessDuration_runs b).
  - by_lemma (ProcessLocation_runs b).
  - by_lemma (ProcessNotes_runs b).
  - by_lemma (ProcessPriority_runs b).
  - by_lemma (ProcessConfirmation_runs b).
Qed.

Lemma SendEventToBackend_runs :
  Runs (Ok false) (@WithHandlers.SendEventToBackend R C) (Ok false).
Proof.
  unfold WithHandlers.SendEventToBackend.
  do 2 (step false).
  match goal with
  | |- Runs _ (match ?x with _ => _ end) _ => destruct x as [|[Manager|] ?]
  end.
  - step false.
  - step false.
    eapply Runs_bind; [now apply (Runs_emit false) | intros _].
    do 2 (step false).
    now apply (Runs_emit false).
  - step false.
Qed.

Lemma AdvanceToNextState_runs :
  Runs (Ok false) (@WithHandlers.AdvanceToNextState R C) (Ok true).
Proof.
  unfold WithHandlers.AdvanceToNextState.
  apply Runs_get_CurrentState. intros s Hs.
  destruct s; step true.
  1-6: by_lemma (AskCurrentQuestion_runs true).
  eapply Runs_bind; [by_lemma SendEventToBackend_runs | intros _].
  step true. step true.
Qed.

Lemma ProcessUserResponse_runs (b : bool) (Response : FString) :
  Runs (Ok b) (@WithHandlers.ProcessUserResponse R C Response) (Ok b).
Proof.
  unfold WithHandlers.ProcessUserResponse.
  apply Runs_get_CurrentState. intros s Hs.
  destruct (state_eqb s Idle).
  - eapply Runs_pre; [|apply (LogCalendar_runs b)]. side.
  - eapply Runs_bind;
      [eapply Runs_pre; [|apply (LogCalendar_runs b)]; solve [side] | intros _].
    eapply Runs_bind; [apply ProcessAnswer_runs | intros bSuccess].
    destruct bSuccess.
    + eapply Runs_pre; [|eapply Runs_post; [|apply AdvanceToNextState_runs]].
      * intros s' Hs'. destruct b; [now apply (Ok_loose false) | exact Hs'].
      * side.
    + step b. apply AskCurrentQuestion_runs.
Qed.

Lemma run_runs (b : bool) (c : Call) :
  Runs (Ok b) (@WithHandlers.run R C c) (Ok b).
Proof.
  destruct c; cbn [WithHandlers.run].
  - eapply Runs_pre; [|eapply Runs_post; [|apply StartEventCreation_runs]].
    + intros s Hs. destruct b; [now apply (Ok_loose false) | exact Hs].
    + side.
  - apply ProcessUserResponse_runs.
  - eapply Runs_pre; [|eapply Runs_post; [|apply CancelFlow_runs]].
    + intros s Hs. destruct b; [now apply (Ok_loose false) | exact Hs].
    + side.
Qed.

End Members.

Lemma calls_run (runc : Call -> R unit) (b : bool) :
  (forall b' c, Runs (Ok b') (runc c) (Ok b')) ->
  forall (cs : list (World * Call)) (s : Engine * H),
    Ok b (CurrentState (fst s)) ->
    Ok b (CurrentState (fst (fst (WithHandlers.calls H runc cs s))))
    /\ forallb ObservationOk (snd (WithHandlers.calls H runc cs s)) = true.
Proof.
  intros Hrun cs.
  induction cs as [|[w c] rest IH]; intros s Hs; cbn [WithHandlers.calls].
  - split; [exact Hs | reflexivity].
  - destruct (Hrun b c w s Hs) as [H1 H2].
    pose proof (fun Hobs => proj1 (Hrun true c w s Hobs)) as Hflow.
    destruct (runc c w s) as [[u s1] t1]. cbn [fst snd] in H1, H2, Hflow.
    destruct (IH s1 H1) as [H3 H4].
    destruct (WithHandlers.calls H runc rest s1) as [s2 t2]. cbn [fst snd] in *.
    split; [exact H3|].
    rewrite forallb_app. rewrite H2. cbn [forallb ObservationOk andb].
    rewrite H4, (Ok_NotComplete b _ Hs), (Ok_NotComplete b _ H1).
    cbn [andb]. rewrite andb_true_r.
    destruct (Observable (CurrentState (fst s))) eqn:Hobs; [|reflexivity].
    cbn [implb]. apply Hflow. exact Hobs.
Qed.

Variable handler : H -> Effect -> Engine -> H * list (World * Call).

Lemma broadcast_runs (depth : nat) :
  (forall x, Runs (Ok true) (WithHandlers.broadcast H handler depth x) (Ok true))
  /\ (forall x, HandOffEffect x = true ->
                Runs (Ok false) (WithHandlers.broadcast H handler depth x) (Ok false)).
Proof.
  assert (Hseen : forall b x (e : Engine),
             (b = false -> HandOffEffect x = true) ->
             Ok b (CurrentState e) -> SeenOk (mkEmission e x) = true).
  { intros b x [s d] Hx Hs. unfold SeenOk. cbn [seen effect CurrentState] in *.
    destruct b; destruct s; try discriminate Hs; try reflexivity.
    now apply Hx. }
  induction depth as [|depth [IH1 IH2]].
  - split.
    + intros x w s Hs. cbn [WithHandlers.broadcast fst snd forallb ObservationOk].
      split; [exact Hs|]. rewrite (Hseen true x _ ltac:(discriminate) Hs). reflexivity.
    + intros x Hx w s Hs. cbn [WithHandlers.broadcast fst snd forallb ObservationOk].
      split; [exact Hs|]. rewrite (Hseen false x _ (fun _ => Hx) Hs). reflexivity.
  - assert (Hrun : forall b' c,
               Runs (Ok b')
                 (@WithHandlers.run R
                    (WithHandlers.Handled H (WithHandlers.broadcast H handler depth)) c)
                 (Ok b'))
      by (intros b' c; now apply run_runs).
    assert (Hboth : forall b x, (b = false -> HandOffEffect x = true) ->
               Runs (Ok b) (WithHandlers.broadcast H handler (S depth) x) (Ok b)).
    { intros b x Hx w s Hs. cbn [WithHandlers.broadcast].
      destruct (handler (snd s) x (fst s)) as [h cs].
      destruct (calls_run _ b Hrun cs (fst s, h) Hs) as [H1 H2].
      destruct (WithHandlers.calls H _ cs (fst s, h)) as [s' t].
      cbn [fst snd forallb ObservationOk] in *.
      split; [exact H1|]. now rewrite (Hseen b x _ Hx Hs), H2. }
    split.
    + intros x. apply Hboth. discriminate.
    + intros x Hx. apply Hboth. intros _. exact Hx.
Qed.

Lemma session_runs (depth : nat) (cs : list (World * Call)) (s : Engine * H) :
  Ok true (CurrentState (fst s)) ->
  Ok true (CurrentState (fst (fst (WithHandlers.session H handler depth cs s))))
  /\ forallb ObservationOk (snd (WithHandlers.session H handler depth cs s)) = true.
Proof.
  intros Hs. unfold WithHandlers.session.
  apply calls_run; [|exact Hs].
  intros b' c. destruct (broadcast_runs depth) as [H1 H2].
  now apply run_runs.
Qed.

End CallBacks.

(** A handler of OnEventCreated that answers the broadcast with a
    ProcessUserResponse of its own: the call is entered while CurrentState
    is Creating, its answer is ignored, and it returns with CurrentState
    still Creating; the call that handed off returns in Idle.  A handler
    that restarts the flow from there has its StartEventCreation return in
    AskingEventName, and again the outer call returns in Idle. *)
Lemma calls_made_during_the_hand_off :
  let inner := mkEngine Creating DentistEvent in
  let answered :=
    WithHandlers.session unit AnswersCreated 1
      (map (pair WorldWithManager) HappyPath) (Constructed, tt) in
  let restarted :=
    WithHandlers.session unit RestartsOnCreated 1
      (map (pair WorldWithManager) HappyPath) (Constructed, tt) in
  In (WithHandlers.Emitted (mkEmission inner (OnEventCreated DentistEvent)))
     (snd answered)
  /\ In (WithHandlers.Returned (CallProcessUserResponse (TEXT "thanks")) inner inner)
        (snd answered)
  /\ GetCurrentState (fst (fst answered)) = Idle
  /\ In (CallStartEventCreation, Creating, AskingEventName) (Returns (snd restarted))
  /\ GetCurrentState (fst (fst restarted)) = Idle.
Proof.
  vm_compute.
  split; [repeat (first [left; reflexivity | right])|].
  split; [repeat (first [left; reflexivity | right])|].
  split; [reflexivity|].
  split; [repeat (first [left; reflexivity | right])|].
  reflexivity.
Qed.

(** C10, amended. Let the code bound to the component's outputs be any
    handler, with a state of its own, that may call StartEventCreation,
    ProcessUserResponse and CancelFlow while an effect is being delivered
    to it, to any depth of nesting.  For every sequence of calls made from
    outside on the constructed component: after the last of them returns,
    GetCurrentState is one of Idle, the six question states and Confirming.
    No effect is issued while CurrentState is Complete, and while it is
    Creating only log lines, the backend send and the OnEventCreated
    broadcast are.  No public call, made from outside or from a handler, is
    entered or returns in Complete, and one entered in one of the eight
    states returns in one of them; so a call returns in Creating only if a
    handler made it during the hand-off. *)
Theorem states_with_handlers
  (H : Type) (handler : H -> Effect -> Engine -> H * list (World * Call))
  (depth : nat) (cs : list (World * Call)) (h : H) :
  let r := WithHandlers.session H handler depth cs (Constructed, h) in
  Observable (GetCurrentState (fst (fst r))) = true
  /\ (forall x, In (WithHandlers.Emitted x) (snd r) ->
        GetCurrentState (seen x) <> Complete
        /\ (GetCurrentState (seen x) = Creating -> HandOffEffect (effect x) = true))
  /\ (forall c entered exited,
        In (WithHandlers.Returned c entered exited) (snd r) ->
        GetCurrentState entered <> Complete
        /\ GetCurrentState exited <> Complete
        /\ (Observable (GetCurrentState entered) = true ->
            Observable (GetCurrentState exited) = true)
        /\ (GetCurrentState exited = Creating -> GetCurrentState entered = Creating)).
Proof.
  intros r.
  destruct (session_runs H handler depth cs (Constructed, h) eq_refl) as [Hend Hall].
  fold r in Hend, Hall. rewrite forallb_forall in Hall.
  split; [exact Hend|]. split.
  - intros x Hx. specialize (Hall _ Hx). cbn [ObservationOk] in Hall.
    unfold SeenOk in Hall. unfold GetCurrentState.
    destruct (CurrentState (seen x)); try discriminate Hall;
      (split; [discriminate | intros E; first [discriminate E | exact Hall]]).
  - intros c entered exited Hx. specialize (Hall _ Hx). cbn [ObservationOk] in Hall.
    apply andb_true_iff in Hall as [Hall H3].
    apply andb_true_iff in Hall as [H1 H2].
    unfold GetCurrentState.
    destruct (CurrentState entered); try discriminate H1;
      destruct (CurrentState exited); try discriminate H2; try discriminate H3.
    all: repeat split; try discriminate; try reflexivity.
Qed.

Lemma states_with_handlers_witness :
  let inner := mkEngine Creating DentistEvent in
  let r := WithHandlers.session unit AnswersCreated 1
             (map (pair WorldWithManager) HappyPath) (Constructed, tt) in
  Observable (GetCurrentState (fst (fst r))) = true
  /\ In (WithHandlers.Returned (CallProcessUserResponse (TEXT "thanks")) inner inner)
        (snd r)
  /\ GetCurrentState inner <> Complete
  /\ HandOffEffect (OnEventCreated DentistEvent) = true.
Proof.
  intros inner r.
  destruct (states_with_handlers unit AnswersCreated 1
              (map (pair WorldWithManager) HappyPath) tt) as (H1 & H2 & H3).
  assert (Hret : In (WithHandlers.Returned (CallProcessUserResponse (TEXT "thanks"))
                       inner inner) (snd r)).
  { vm_compute. repeat (first [left; reflexivity | right]). }
  assert (Hem : In (WithHandlers.Emitted (mkEmission inner (OnEventCreated DentistEvent)))
                   (snd r)).
  { vm_compute. repeat (first [left; reflexivity | right]). }
  split; [exact H1|]. split; [exact Hret|]. split.
  - exact (proj1 (H3 _ _ _ Hret)).
  - exact (proj2 (H2 _ Hem) eq_refl).
Defined.

(** * Properties of the manager *)

Module ManagerProperties.
Import AAICompanionManager.

Ltac gred :=
  cbv beta iota zeta delta
    [run BeginPlay EndPlay ConnectToBackend DisconnectFromBackend SendChatMessage
     SendTestMessage StartVoiceRecording StopVoiceRecording AddMemory GetMemory
     RegisterPlayer HandleWebSocketMessage HandleConnectionStatusChange
     HandleWebSocketError InitializeManagers GeneratePlayerID FieldOrEmpty
     AAICompanionManager.bind AAICompanionManager.ret get env out modify when
     manager_of outputs value fst snd
     WebSocketManager VoiceManager MemoryManager bIsConnected bIsInitialized
     bAutoConnect bEnableVoice bEnableMemory PlayerID BackendURL WebSocketURL
     set_PlayerID set_WebSocketManager set_VoiceManager set_MemoryManager
     set_bIsInitialized set_bIsConnected IsConnected].

Ltac gsplit :=
  repeat (gred;
          match goal with
          | |- context [if ?b then _ else _] => destruct b eqn:?
          | |- context [match Deserialize ?e ?s with _ => _ end] =>
              destruct (Deserialize e s) eqn:?
          | |- context [match ?o ?k with Some _ => _ | None => _ end] =>
              destruct (o k) eqn:?
          end);
  gred.

Lemma manager_session_cons (e : Env) (c : Call) (rest : list (Env * Call)) (m : Manager) :
  session ((e, c) :: rest) m
  = (fst (session rest (manager_of (run c e m))),
     outputs (run c e m) ++ snd (session rest (manager_of (run c e m)))).
Proof.
  cbn [session]. now destruct (session rest (manager_of (run c e m))).
Qed.

(** ** Sending *)

Lemma run_disconnected (e : Env) (c : Call) (m : Manager) :
  SocketIsConnected e = false ->
  SentToSocket (outputs (run c e m)) = [].
Proof.
  intros H. destruct m. destruct c as [| | | | | | | | | | | | |[]].
  all: gsplit; try reflexivity.
  all: rewrite H in *; bprop; discriminate.
Qed.

Lemma SentToSocket_app (a b : list Out) :
  SentToSocket (a ++ b) = SentToSocket a ++ SentToSocket b.
Proof. unfold SentToSocket. apply flat_map_app. Qed.

(** X12. While the socket reports itself disconnected nothing is ever passed
    to its SendMessage: whatever calls, delegate events and timer firings
    reach the manager, in whatever state, chat messages, the registration
    and the timed test message are all dropped.  A refused chat message
    leaves the manager as it was and produces one warning line and nothing
    else. *)
Theorem nothing_sent_while_disconnected (cs : list (Env * Call)) (m : Manager) :
  forallb (fun ec => negb (SocketIsConnected (fst ec))) cs = true ->
  SentToSocket (snd (session cs m)) = []
  /\ forall (e : Env) (Message : FString),
       SocketIsConnected e = false ->
       manager_of (run (CallSendChatMessage Message) e m) = m
       /\ outputs (run (CallSendChatMessage Message) e m)
          = [UE_LOG Warning (Tag ++ TEXT "Cannot send message: Not connected")].
Proof.
  intros Hall. split.
  - revert m. induction cs as [|[e c] rest IH]; intros m; [reflexivity|].
    cbn [forallb fst] in Hall. apply andb_true_iff in Hall as [He Hrest].
    apply negb_true_iff in He.
    rewrite manager_session_cons. cbn [snd]. rewrite SentToSocket_app.
    rewrite (run_disconnected e c m He), (IH Hrest). reflexivity.
  - intros e Message He. destruct m. gred. rewrite He.
    rewrite orb_true_r. split; reflexivity.
Qed.

Lemma nothing_sent_while_disconnected_witness :
  SentToSocket
    (snd (session
            [(mkEnv false [] (fun _ => None) (fun _ => []) (fun _ => []) true true true,
              CallBeginPlay);
             (mkEnv false [] (fun _ => None) (fun _ => []) (fun _ => []) true true true,
              CallSendChatMessage (TEXT "hello"))]
            Constructed)) = [].
Proof.
  apply nothing_sent_while_disconnected. reflexivity.
Defined.

(** X13. IsConnected() and sending go by different flags.  Sending asks the
    socket whether it is connected; IsConnected() returns what the socket
    last reported to the manager.  So after an error report IsConnected() is
    false, yet a chat message still goes out, as the serialised object with
    type "chat" and the text, if the socket itself says it is connected;
    and after a report of a connection IsConnected() is true, yet a chat
    message is dropped if the socket says it is not connected. *)
Theorem IsConnected_does_not_gate_sending
  (e1 e2 : Env) (m : Manager) (ErrorMessage Message : FString) :
  WebSocketManager m = true ->
  let after_error :=
    session [(e1, OnSocketError ErrorMessage); (e2, CallSendChatMessage Message)] m in
  let after_report :=
    session [(e1, OnSocketConnected true); (e2, CallSendChatMessage Message)] m in
  (SocketIsConnected e2 = true ->
   IsConnected (fst after_error) = false
   /\ SentToSocket (snd after_error)
      = [Serialize e2 [(TEXT "type", TEXT "chat"); (TEXT "text", Message)]])
  /\ (SocketIsConnected e2 = false ->
      IsConnected (fst after_report) = true
      /\ SentToSocket (snd after_report) = []).
Proof.
  intros Hs after_error after_report. subst after_error after_report.
  destruct m. cbn [WebSocketManager] in Hs. subst.
  rewrite !manager_session_cons. cbn [session fst snd].
  split; intros Hc; gred; rewrite Hc; split; reflexivity.
Qed.

Lemma IsConnected_does_not_gate_sending_witness :
  let e := mkEnv true [] (fun _ => None) (fun _ => TEXT "{}") (fun _ => []) true true true in
  SentToSocket
    (snd (session [(e, OnSocketError (TEXT "boom")); (e, CallSendChatMessage (TEXT "hi"))]
            (set_WebSocketManager true Constructed)))
  = [TEXT "{}"].
Proof.
  intros e.
  destruct (IsConnected_does_not_gate_sending e e (set_WebSocketManager true Constructed)
              (TEXT "boom") (TEXT "hi") eq_refl) as (H & _).
  exact (proj2 (H eq_refl)).
Defined.

(** ** The connection flag *)

Lemma run_report (e : Env) (c : Call) (m : Manager) :
  IsConnected (manager_of (run c e m)) = LastReport [(e, c)] (IsConnected m)
  /\ StatusBroadcasts (outputs (run c e m)) = Reports [(e, c)].
Proof.
  destruct m. destruct c as [| | | | | | | | | | | | |[]].
  all: gsplit; split; reflexivity.
Qed.

Lemma LastReport_cons (ec : Env * Call) (rest : list (Env * Call)) (b : bool) :
  LastReport (ec :: rest) b = LastReport rest (LastReport [ec] b).
Proof. destruct ec as [e []]; reflexivity. Qed.

Lemma Reports_cons (ec : Env * Call) (rest : list (Env * Call)) :
  Reports (ec :: rest) = Reports [ec] ++ Reports rest.
Proof. destruct ec as [e []]; reflexivity. Qed.

(** X14. IsConnected() is what the socket last reported and nothing else:
    after any sequence of calls and events it returns the argument of the
    last connection report (false for an error report), or its earlier value
    if there was none.  BeginPlay, ConnectToBackend, DisconnectFromBackend
    and EndPlay do not touch it.  Each report is passed on through
    OnConnectionStatusChanged exactly once, in order, and nothing else is
    broadcast on that delegate. *)
Theorem IsConnected_follows_reports (cs : list (Env * Call)) (m : Manager) :
  IsConnected (fst (session cs m)) = LastReport cs (IsConnected m)
  /\ StatusBroadcasts (snd (session cs m)) = Reports cs.
Proof.
  revert m. induction cs as [|[e c] rest IH]; intros m; [split; reflexivity|].
  destruct (run_report e c m) as [H1 H2].
  destruct (IH (manager_of (run c e m))) as [H3 H4].
  rewrite manager_session_cons. cbn [fst snd].
  rewrite LastReport_cons, Reports_cons, H3, H1.
  split; [reflexivity|].
  unfold StatusBroadcasts in *. rewrite flat_map_app. now rewrite H2, H4.
Qed.

(** ** Messages from the socket *)

Lemma Equals_other (ty a b : FString) :
  Equals ty a = true -> FStr.eqb (ToLower a) (ToLower b) = false -> Equals ty b = false.
Proof.
  unfold Equals. intros H Hab. apply eqb_eq in H. now rewrite H.
Qed.

(** X15. A message the manager does not understand does no harm.
    HandleWebSocketMessage never changes the manager, whatever the message.
    When the text cannot be decoded it logs an error, and when the decoded
    object has no type field, or a type other than connected, registered and
    chat_response (voice_processed, error, pong or anything else), it does
    nothing but write log lines: no send, no broadcast, no timer, no
    memory entry. *)
Theorem unknown_messages_are_harmless (e : Env) (m : Manager) (Message : FString) :
  let r := run (OnSocketMessage Message) e m in
  manager_of r = m
  /\ (Deserialize e Message = None ->
      Actions (outputs r) = []
      /\ In (UE_LOG Error (Tag ++ TEXT "Failed to parse message")) (outputs r))
  /\ (forall JsonObject,
        Deserialize e Message = Some JsonObject ->
        JsonObject (TEXT "type") = None ->
        Actions (outputs r) = [])
  /\ (forall JsonObject MessageType,
        Deserialize e Message = Some JsonObject ->
        JsonObject (TEXT "type") = Some MessageType ->
        Equals MessageType (TEXT "connected") = false ->
        Equals MessageType (TEXT "registered") = false ->
        Equals MessageType (TEXT "chat_response") = false ->
        Actions (outputs r) = []).
Proof.
  intros r. subst r. split; [|split; [|split]].
  - destruct m. gsplit; reflexivity.
  - intros Hd. gred. rewrite Hd. split; [reflexivity|].
    cbn. auto.
  - intros obj Hd Hty. gred. rewrite Hd, Hty. reflexivity.
  - intros obj ty Hd Hty H1 H2 H3. gred. rewrite Hd, Hty. gred.
    rewrite H1, H2, H3. gsplit; reflexivity.
Qed.

Lemma unknown_messages_are_harmless_witness :
  Actions
    (outputs (run (OnSocketMessage (TEXT "not json"))
                (mkEnv true [] (fun _ => None) (fun _ => []) (fun _ => []) true true true)
                Constructed)) = [].
Proof.
  destruct (unknown_messages_are_harmless
              (mkEnv true [] (fun _ => None) (fun _ => []) (fun _ => []) true true true)
              Constructed (TEXT "not json")) as (_ & H & _).
  exact (proj1 (H eq_refl)).
Defined.

(** X16. A chat_response message (the type compared without regard to
    letter case) that carries a text field broadcasts OnAIResponseReceived
    exactly once, with that text unchanged; the text is first stored as a
    conversation entry of "Assistant" when a memory manager exists.  Without
    a text field nothing is broadcast or stored.  Nothing is sent back. *)
Theorem chat_response_is_broadcast_once
  (e : Env) (m : Manager) (Message : FString)
  (JsonObject : FJsonObject) (MessageType : FString) :
  Deserialize e Message = Some JsonObject ->
  JsonObject (TEXT "type") = Some MessageType ->
  Equals MessageType (TEXT "chat_response") = true ->
  Actions (outputs (run (OnSocketMessage Message) e m))
  = match JsonObject (TEXT "text") with
    | Some ResponseText =>
        (if MemoryManager m
         then [Memory_AddConversation (TEXT "Assistant") ResponseText (TEXT "")]
         else [])
        ++ [OnAIResponseReceived ResponseText]
    | None => []
    end.
Proof.
  intros Hd Hty Hchat. gred. rewrite Hd, Hty. gred.
  rewrite (Equals_other _ _ (TEXT "connected") Hchat eq_refl).
  rewrite (Equals_other _ _ (TEXT "registered") Hchat eq_refl).
  rewrite Hchat.
  destruct (JsonObject (TEXT "text")); [|reflexivity].
  destruct m. gsplit; reflexivity.
Qed.

Lemma chat_response_is_broadcast_once_witness :
  let obj : FJsonObject :=
    fun k => if FStr.eqb k (TEXT "type") then Some (TEXT "Chat_Response")
             else if FStr.eqb k (TEXT "text") then Some (TEXT "Hello!") else None in
  Actions
    (outputs (run (OnSocketMessage (TEXT "..."))
                (mkEnv true [] (fun _ => Some obj) (fun _ => []) (fun _ => []) true true true)
                Constructed))
  = [OnAIResponseReceived (TEXT "Hello!")].
Proof.
  intros obj.
  exact (chat_response_is_broadcast_once
           (mkEnv true [] (fun _ => Some obj) (fun _ => []) (fun _ => []) true true true)
           Constructed (TEXT "...") obj (TEXT "Chat_Response") eq_refl eq_refl eq_refl).
Defined.

(** ** Start-up and registration *)

(** X17. BeginPlay gives the actor a fresh player id, the new GUID in upper
    case, creates the helpers that are enabled and marks the actor
    initialised, without touching the connection flag.  Apart from log
    lines it does the following, in this order: initialise the voice
    manager; initialise the socket manager and bind its three delegates;
    initialise the memory manager with the id just generated; and, if
    bAutoConnect is set and a socket manager exists, set the socket's server
    URL to WebSocketURL and then connect.  With bAutoConnect set but no
    socket manager it logs an error instead of connecting. *)
Theorem BeginPlay_wires_the_helpers (e : Env) (m : Manager) :
  let r := run CallBeginPlay e m in
  let m' := manager_of r in
  PlayerID m' = ToUpper (NewGuid e)
  /\ bIsInitialized m' = true
  /\ WebSocketManager m' = NewWebSocketManager e
  /\ VoiceManager m' = (if bEnableVoice m then NewVoiceManager e else VoiceManager m)
  /\ MemoryManager m' = (if bEnableMemory m then NewMemoryManager e else MemoryManager m)
  /\ IsConnected m' = IsConnected m
  /\ Actions (outputs r)
     = (if bEnableVoice m && NewVoiceManager e then [Voice_Initialize] else [])
       ++ (if NewWebSocketManager e
           then [Socket_Initialize; Socket_AddDynamic OnMessage;
                 Socket_AddDynamic OnConnected; Socket_AddDynamic OnError]
           else [])
       ++ (if bEnableMemory m && NewMemoryManager e
           then [Memory_Initialize (ToUpper (NewGuid e))] else [])
       ++ (if bAutoConnect m && NewWebSocketManager e
           then [Socket_SetServerURL (WebSocketURL m); Socket_Connect] else [])
  /\ (bAutoConnect m = true -> NewWebSocketManager e = false ->
      In (UE_LOG Error (Tag ++ TEXT "WebSocket Manager not initialized!")) (outputs r)).
Proof.
  intros r m'. subst m' r. destruct m, e.
  cbn [bEnableVoice bEnableMemory bAutoConnect WebSocketURL VoiceManager MemoryManager
       NewGuid NewVoiceManager NewWebSocketManager NewMemoryManager IsConnected
       bIsConnected].
  destruct bAutoConnect0, bEnableVoice0, bEnableMemory0, NewVoiceManager0,
    NewWebSocketManager0, NewMemoryManager0.
  all: gred; cbn [andb negb].
  all: repeat (apply conj; [reflexivity|]).
  all: intros H1 H2; try discriminate.
  all: cbn [In app]; repeat (first [left; reflexivity | right]).
Qed.

Lemma BeginPlay_wires_the_helpers_witness :
  In (UE_LOG Error (Tag ++ TEXT "WebSocket Manager not initialized!"))
     (outputs (run CallBeginPlay
                 (mkEnv false [] (fun _ => None) (fun _ => []) (fun _ => []) true false true)
                 Constructed)).
Proof.
  destruct (BeginPlay_wires_the_helpers
              (mkEnv false [] (fun _ => None) (fun _ => []) (fun _ => []) true false true)
              Constructed) as (_ & _ & _ & _ & _ & _ & _ & H).
  exact (H eq_refl eq_refl).
Defined.

(** X18. The registration that answers the server's "connected" message
    carries the player id generated at BeginPlay.  After BeginPlay has
    created the socket manager, a message whose type is connected (in any
    letter case), arriving while the socket reports itself connected, makes
    the manager send exactly one message: the serialised object with type
    "register" and playerId the upper-case GUID drawn at BeginPlay. *)
Theorem registration_uses_generated_id
  (e0 e1 : Env) (m : Manager) (Message : FString)
  (JsonObject : FJsonObject) (MessageType : FString) :
  NewWebSocketManager e0 = true ->
  SocketIsConnected e1 = true ->
  Deserialize e1 Message = Some JsonObject ->
  JsonObject (TEXT "type") = Some MessageType ->
  Equals MessageType (TEXT "connected") = true ->
  let r := session [(e0, CallBeginPlay); (e1, OnSocketMessage Message)] m in
  SentToSocket (snd r)
  = [Serialize e1 [(TEXT "type", TEXT "register");
                   (TEXT "playerId", ToUpper (NewGuid e0))]]
  /\ PlayerID (fst r) = ToUpper (NewGuid e0).
Proof.
  intros Hnew Hconn Hd Hty Hc r. subst r.
  rewrite !manager_session_cons. cbn [session fst snd].
  rewrite app_nil_r, SentToSocket_app.
  destruct m, e0. cbn [NewWebSocketManager NewGuid] in *. subst.
  destruct bAutoConnect0, bEnableVoice0, bEnableMemory0, NewVoiceManager0,
    NewMemoryManager0.
  all: gred; rewrite Hd, Hty; gred; rewrite Hc, Hconn; cbn [negb orb]; gred.
  all: split; reflexivity.
Qed.

Lemma registration_uses_generated_id_witness :
  let obj : FJsonObject :=
    fun k => if FStr.eqb k (TEXT "type") then Some (TEXT "connected") else None in
  let e := mkEnv true (TEXT "{ab-1}") (fun _ => Some obj) (fun fields => flat_map snd fields)
             (fun _ => []) true true true in
  SentToSocket (snd (session [(e, CallBeginPlay); (e, OnSocketMessage [])] Constructed))
  = [TEXT "register{AB-1}"].
Proof.
  intros obj e.
  destruct (registration_uses_generated_id e e Constructed [] obj (TEXT "connected")
              eq_refl eq_refl eq_refl eq_refl eq_refl) as [H _].
  exact H.
Defined.
End ManagerProperties.
